(** * Cuckoo core: the analysis queue database and the reporting engine

    A shallow embedding of [lib/cuckoo/core/database.py] (the SQLAlchemy
    backed task queue) and of [lib/cuckoo/core/reporter.py] (the reporting
    engine), with the properties of the queue and of the reporter proved
    about the embedded code.

    The relational store is modelled as three tables of rows kept in
    storage order.  A SQLAlchemy session is a pair of the committed store
    and the session's working copy; [commit] flushes the working copy and
    enforces the constraints declared in the schema, [rollback] drops it.
    Every operation is a function from the store it finds to the store it
    leaves: calls are taken one at a time, and what the storage medium
    does to a commit (let it through, or fail it) is an argument.

    The results handed to the reporting modules are Python objects:
    they live in a heap of dictionaries and lists addressed by location,
    so that a module that mutates what it is given mutates the heap. *)

From Stdlib Require Import ZArith List Ascii String Bool Lia.
From stdpp Require Import base list strings gmap sorting.
Import ListNotations.

Local Open Scope string_scope.
Local Open Scope list_scope.
Local Open Scope Z_scope.

(** * The model *)

(** ** Schema and entities *)

(** [Enum("pending", "processing", "failure", "success")]. *)
Inductive status_type := pending | processing | failure | success.

Definition status_eqb (a b : status_type) : bool :=
  match a, b with
  | pending, pending | processing, processing
  | failure, failure | success, success => true
  | _, _ => false
  end.

(** A [DateTime] value; the clock is read by [datetime.now()]. *)
Definition datetime := Z.

(** Row of table [tasks] (class [Task]). *)
Record Task := mkTask {
  Task_id : Z;
  Task_target : string;
  Task_category : string;
  Task_timeout : Z;
  Task_priority : Z;
  Task_custom : option string;
  Task_machine : option string;
  Task_package : option string;
  Task_options : option string;
  Task_platform : option string;
  Task_added_on : datetime;
  Task_completed_on : option datetime;
  Task_status : status_type;
  Task_sample_id : option Z
}.

(** Row of table [guests] (class [Guest]).  [task_id] is [None] on an
    object that has been detached from its task; the column itself is
    [nullable=False, unique=True]. *)
Record Guest := mkGuest {
  Guest_id : Z;
  Guest_name : string;
  Guest_label : string;
  Guest_manager : string;
  Guest_started_on : datetime;
  Guest_shutdown_on : option datetime;
  Guest_task_id : option Z
}.

(** Row of table [samples] (class [Sample]).  [file_type] is left unset by
    the constructor when the argument is falsy; the column is
    [nullable=False]. *)
Record Sample := mkSample {
  Sample_id : Z;
  Sample_file_size : Z;
  Sample_file_type : option string;
  Sample_md5 : string;
  Sample_crc32 : string;
  Sample_sha1 : string;
  Sample_sha256 : string;
  Sample_sha512 : string;
  Sample_ssdeep : option string
}.

(** The three tables, each in storage order. *)
Record DB := mkDB {
  tasks : list Task;
  samples : list Sample;
  guests : list Guest
}.

Definition empty_db : DB := mkDB [] [] [].

(** Field updates on a loaded [Task] / [Guest] object. *)
Definition with_status (t : Task) (s : status_type) : Task :=
  mkTask (Task_id t) (Task_target t) (Task_category t) (Task_timeout t)
         (Task_priority t) (Task_custom t) (Task_machine t) (Task_package t)
         (Task_options t) (Task_platform t) (Task_added_on t)
         (Task_completed_on t) s (Task_sample_id t).

Definition with_completed_on (t : Task) (d : option datetime) : Task :=
  mkTask (Task_id t) (Task_target t) (Task_category t) (Task_timeout t)
         (Task_priority t) (Task_custom t) (Task_machine t) (Task_package t)
         (Task_options t) (Task_platform t) (Task_added_on t)
         d (Task_status t) (Task_sample_id t).

Definition with_shutdown_on (g : Guest) (d : option datetime) : Guest :=
  mkGuest (Guest_id g) (Guest_name g) (Guest_label g) (Guest_manager g)
          (Guest_started_on g) d (Guest_task_id g).

Definition with_task_id (g : Guest) (t : option Z) : Guest :=
  mkGuest (Guest_id g) (Guest_name g) (Guest_label g) (Guest_manager g)
          (Guest_started_on g) (Guest_shutdown_on g) t.

(** ** Exceptions and results *)

(** [AttributeError]: attribute access on [None].  [IntegrityError] and
    [OperationalError] are the [SQLAlchemyError]s a commit raises: the
    first for a violated constraint, the second for any other failure the
    store reports (busy, locked, unreachable). *)
Inductive exn := AttributeError | IntegrityError | OperationalError.

Inductive result (A : Type) :=
| Ret (a : A)
| Raise (e : exn).
Arguments Ret {A} a.
Arguments Raise {A} e.

(** What the storage medium does to one commit, besides checking the
    constraints: nothing, or fail it. *)
Inductive store_fault := NoFault | StoreError.

(** ** Constraints of the schema *)

Fixpoint distinct {A : Type} (eqb : A -> A -> bool) (l : list A) : bool :=
  match l with
  | [] => true
  | x :: r => negb (existsb (eqb x) r) && distinct eqb r
  end.

(** The columns of [Index("hash_index", ..., unique=True)]. *)
Definition hash_tuple : Type := string * string * string * string * string.

Definition Sample_hashes (s : Sample) : hash_tuple :=
  (Sample_md5 s, Sample_crc32 s, Sample_sha1 s, Sample_sha256 s, Sample_sha512 s).

Definition hash_tuple_eqb (a b : hash_tuple) : bool :=
  let '(a1, a2, a3, a4, a5) := a in
  let '(b1, b2, b3, b4, b5) := b in
  String.eqb a1 b1 && String.eqb a2 b2 && String.eqb a3 b3 &&
  String.eqb a4 b4 && String.eqb a5 b5.

Definition is_some {A : Type} (o : option A) : bool :=
  match o with Some _ => true | None => false end.

Definition option_Z_eqb (a b : option Z) : bool :=
  match a, b with
  | Some x, Some y => x =? y
  | None, None => true
  | _, _ => false
  end.

(** Primary keys are unique in every table; the hash index is unique;
    [samples.file_type] and [guests.task_id] are not null; [guests.task_id]
    is unique.  Foreign keys are declared but not enforced by the default
    (SQLite) store, and no operation below depends on them. *)
Definition constraints_ok (db : DB) : bool :=
  distinct Z.eqb (map Task_id (tasks db)) &&
  distinct Z.eqb (map Sample_id (samples db)) &&
  distinct Z.eqb (map Guest_id (guests db)) &&
  distinct hash_tuple_eqb (map Sample_hashes (samples db)) &&
  forallb (fun s => is_some (Sample_file_type s)) (samples db) &&
  forallb (fun g => is_some (Guest_task_id g)) (guests db) &&
  distinct option_Z_eqb (map Guest_task_id (guests db)).

(** The id the store assigns to a new row: one more than the largest id
    of the table (SQLite's [INTEGER PRIMARY KEY]). *)
Definition next_id (ids : list Z) : Z := 1 + fold_right Z.max 0 ids.

(** ** Sessions *)

(** [store]: the committed rows; [work]: the rows as this session sees
    them, with its unflushed changes. *)
Record Session := mkSession {
  store : DB;
  work : DB
}.

(** [self.Session()] *)
Definition new_session (db : DB) : Session := mkSession db db.

(** [session.commit()]: flush the working copy; the store rejects the
    flush when it fails by itself or when a constraint is violated.  The
    committed rows always satisfy the constraints (lemma
    [exec_constraints]), so checking the whole working copy is checking
    the rows that are flushed. *)
Definition commit (fault : store_fault) (s : Session) : result Session :=
  match fault with
  | StoreError => Raise OperationalError
  | NoFault =>
      if constraints_ok (work s) then Ret (mkSession (work s) (work s))
      else Raise IntegrityError
  end.

(** [session.rollback()] *)
Definition rollback (s : Session) : Session := mkSession (store s) (store s).

(** [session.query(Task).get(task_id)] *)
Definition get_task (db : DB) (task_id : Z) : option Task :=
  find (fun t => Task_id t =? task_id) (tasks db).

(** [session.query(Guest).get(guest_id)] *)
Definition get_guest (db : DB) (guest_id : Z) : option Guest :=
  find (fun g => Guest_id g =? guest_id) (guests db).

(** [session.query(Sample).get(sample_id)] *)
Definition get_sample (db : DB) (sample_id : Z) : option Sample :=
  find (fun s => Sample_id s =? sample_id) (samples db).

(** The rows of a table with the row of the primary key of [t] replaced
    by [t]. *)
Definition replace_row {A : Type} (key : A -> Z) (t : A) (l : list A) : list A :=
  map (fun x => if key x =? key t then t else x) l.

(** An attribute assignment on a loaded row: the row of that primary key
    is replaced in the working copy. *)
Definition put_task (t : Task) (db : DB) : DB :=
  mkDB (replace_row Task_id t (tasks db)) (samples db) (guests db).

Definition put_guest (g : Guest) (db : DB) : DB :=
  mkDB (tasks db) (samples db) (replace_row Guest_id g (guests db)).

(** [session.add(row)] for each table. *)
Definition add_task (t : Task) (db : DB) : DB :=
  mkDB (tasks db ++ [t]) (samples db) (guests db).

Definition add_sample (s : Sample) (db : DB) : DB :=
  mkDB (tasks db) (samples db ++ [s]) (guests db).

Definition on_work (f : DB -> DB) (s : Session) : Session :=
  mkSession (store s) (f (work s)).

(** ** Queries *)

(** [order_by("priority desc, added_on")]: [a] comes strictly before [b]. *)
Definition claim_before (a b : Task) : bool :=
  (Task_priority b <? Task_priority a) ||
  ((Task_priority a =? Task_priority b) && (Task_added_on a <? Task_added_on b)).

(** [order_by(...).first()]: the first row of the ordering; rows the
    ordering does not separate come in storage order.  [pick_first] keeps
    the best row seen so far. *)
Definition pick_first {A : Type} (before : A -> A -> bool)
    (best : option A) (x : A) : option A :=
  match best with
  | None => Some x
  | Some b => if before x b then Some x else Some b
  end.

Definition first_by {A : Type} (before : A -> A -> bool) (l : list A) : option A :=
  fold_left (pick_first before) l None.

(** [session.query(Task).filter(Task.status == "pending")
      .order_by("priority desc, added_on").first()] *)
Definition query_next_pending (db : DB) : option Task :=
  first_by claim_before
    (List.filter (fun t => status_eqb (Task_status t) pending) (tasks db)).

(** [session.query(Sample).filter(Sample.md5 == md5).first()] *)
Definition query_sample_by_md5 (db : DB) (md5 : string) : option Sample :=
  head (List.filter (fun s => String.eqb (Sample_md5 s) md5) (samples db)).

(** ** Collaborators *)

(** What [lib.cuckoo.common.objects.File] reports about a file: its path
    and the values of [get_md5], [get_crc32], [get_sha1], [get_sha256],
    [get_sha512], [get_size], [get_type] and [get_ssdeep]. *)
Record FileObj := mkFileObj {
  file_path : string;
  get_md5 : string;
  get_crc32 : string;
  get_sha1 : string;
  get_sha256 : string;
  get_sha512 : string;
  get_size : Z;
  get_type : option string;
  get_ssdeep : option string
}.

(** The objects [Database.add] accepts: [File(path)] or [URL(url)]. *)
Inductive target_obj :=
| File (f : FileObj)
| URL (url : string).

(** The file system as [add_path] sees it: [None] where
    [os.path.exists] is false, otherwise the file that [File(path)]
    describes. *)
Definition filesystem := string -> option FileObj.

(** Python truthiness of an optional string. *)
Definition truthy (o : option string) : bool :=
  match o with
  | Some s => negb (String.eqb s "")
  | None => false
  end.

(** [Sample.__init__]: [file_type] and [ssdeep] are assigned only when
    truthy. *)
Definition Sample_init (id : Z) (md5 crc32 sha1 sha256 sha512 : string)
    (file_size : Z) (file_type ssdeep : option string) : Sample :=
  mkSample id file_size
           (if truthy file_type then file_type else None)
           md5 crc32 sha1 sha256 sha512
           (if truthy ssdeep then ssdeep else None).

(** ** Operations of [Database] *)

(** Every operation takes the committed store and returns the store it
    leaves behind together with what the caller gets. *)

(** [Database._set_status] *)
Definition _set_status (db : DB) (fault : store_fault)
    (task_id : Z) (status : status_type) : DB * result bool :=
  let session := new_session db in
  match get_task (work session) task_id with
  | None => (store session, Raise AttributeError)
  | Some task =>
      let session := on_work (put_task (with_status task status)) session in
      match commit fault session with
      | Ret session => (store session, Ret true)
      | Raise _ => (store (rollback session), Ret false)
      end
  end.

(** [Database.fetch] *)
Definition fetch (db : DB) : option Task :=
  let session := new_session db in
  query_next_pending (work session).

(** [Database.process] *)
Definition process (db : DB) (fault : store_fault) (task_id : Z)
    : DB * result bool :=
  _set_status db fault task_id processing.

(** [Database.fetch_and_process] *)
Definition fetch_and_process (db : DB) (fault : store_fault)
    : DB * result (option Task) :=
  let session := new_session db in
  let row := query_next_pending (work session) in
  let row := option_map (fun r => with_status r processing) row in
  let session :=
    match row with
    | Some r => on_work (put_task r) session
    | None => session
    end in
  match commit fault session with
  | Ret session => (store session, Ret row)
  | Raise _ => (store (rollback session), Ret None)
  end.

(** [Database.complete] *)
Definition complete (db : DB) (now : datetime) (fault : store_fault)
    (task_id : Z) (success_ : bool) : DB * result bool :=
  let session := new_session db in
  match get_task (work session) task_id with
  | None => (store session, Raise AttributeError)
  | Some task =>
      let task := with_status task (if success_ then success else failure) in
      let task := with_completed_on task (Some now) in
      let session := on_work (put_task task) session in
      match commit fault session with
      | Ret session => (store session, Ret true)
      | Raise _ => (store (rollback session), Ret false)
      end
  end.

(** [task.guest = guest] on a [uselist=False] relationship: the guest
    that was linked to the task is detached (its [task_id] is cleared) and
    the new one is linked. *)
Definition set_task_guest (task : Task) (guest : Guest) (db : DB) : DB :=
  mkDB (tasks db) (samples db)
       (map (fun g => if option_Z_eqb (Guest_task_id g) (Some (Task_id task))
                      then with_task_id g None else g) (guests db)
        ++ [with_task_id guest (Some (Task_id task))]).

(** [Database.guest_start] *)
Definition guest_start (db : DB) (now : datetime) (fault : store_fault)
    (task_id : Z) (name label manager : string) : DB * result (option Z) :=
  let session := new_session db in
  let guest := mkGuest (next_id (map Guest_id (guests (work session))))
                       name label manager now None None in
  match get_task (work session) task_id with
  | None => (store session, Raise AttributeError)
  | Some task =>
      let session := on_work (set_task_guest task guest) session in
      match commit fault session with
      | Ret session => (store session, Ret (Some (Guest_id guest)))
      | Raise _ => (store (rollback session), Ret None)
      end
  end.

(** [Database.guest_stop]; it has no return value. *)
Definition guest_stop (db : DB) (now : datetime) (fault : store_fault)
    (guest_id : Z) : DB * result unit :=
  let session := new_session db in
  match get_guest (work session) guest_id with
  | None => (store session, Raise AttributeError)
  | Some guest =>
      let session :=
        on_work (put_guest (with_shutdown_on guest (Some now))) session in
      match commit fault session with
      | Ret session => (store session, Ret tt)
      | Raise _ => (store (rollback session), Ret tt)
      end
  end.

(** The metadata arguments shared by [add], [add_path] and [add_url]. *)
Record task_args := mkArgs {
  arg_timeout : Z;
  arg_package : option string;
  arg_options : option string;
  arg_priority : Z;
  arg_custom : option string;
  arg_machine : option string;
  arg_platform : option string
}.

(** The defaults of the signature: [timeout=0, priority=1], the rest
    [None]. *)
Definition default_args : task_args := mkArgs 0 None None 1 None None None.

(** The row [add] builds.  [added_on] is not assigned by [add]; it takes
    the column default, the value [datetime.now()] had when the class
    body of [Task] was executed. *)
Definition new_task (id : Z) (added_on_default : datetime) (target : string)
    (category : string) (sample_id : option Z) (a : task_args) : Task :=
  mkTask id target category (arg_timeout a) (arg_priority a) (arg_custom a)
         (arg_machine a) (arg_package a) (arg_options a) (arg_platform a)
         added_on_default None pending sample_id.

(** The second half of [add], from [task.category = ...] on. *)
Definition add_commit_task (session : Session) (fault : store_fault)
    (task : Task) : DB * result (option Z) :=
  let session := on_work (add_task task) session in
  match commit fault session with
  | Ret session => (store session, Ret (Some (Task_id task)))
  | Raise _ => (store (rollback session), Ret None)
  end.

(** [Database.add].  [fault1] is what the store does to the commit of the
    sample, [fault2] to the commit of the task. *)
Definition add (added_on_default : datetime) (db : DB)
    (fault1 fault2 : store_fault) (obj : target_obj) (a : task_args)
    : DB * result (option Z) :=
  let session := new_session db in
  match obj with
  | File f =>
      let sample :=
        Sample_init (next_id (map Sample_id (samples (work session))))
                    (get_md5 f) (get_crc32 f) (get_sha1 f) (get_sha256 f)
                    (get_sha512 f) (get_size f) (get_type f) (get_ssdeep f) in
      match commit fault1 (on_work (add_sample sample) session) with
      | Ret session =>
          add_commit_task session fault2
            (new_task (next_id (map Task_id (tasks (work session))))
                      added_on_default (file_path f) "file"
                      (Some (Sample_id sample)) a)
      | Raise IntegrityError =>
          let session := rollback session in
          match query_sample_by_md5 (work session) (get_md5 f) with
          | None => (store session, Raise AttributeError)
          | Some sample =>
              add_commit_task session fault2
                (new_task (next_id (map Task_id (tasks (work session))))
                          added_on_default (file_path f) "file"
                          (Some (Sample_id sample)) a)
          end
      | Raise e => (store session, Raise e)
      end
  | URL url =>
      add_commit_task session fault2
        (new_task (next_id (map Task_id (tasks (work session))))
                  added_on_default url "url" None a)
  end.

(** [Database.add_path]; the path argument may be [None]. *)
Definition add_path (fs : filesystem) (added_on_default : datetime) (db : DB)
    (fault1 fault2 : store_fault) (path : option string) (a : task_args)
    : DB * result (option Z) :=
  match path with
  | None => (db, Ret None)
  | Some p =>
      if String.eqb p "" then (db, Ret None)
      else match fs p with
           | None => (db, Ret None)
           | Some f => add added_on_default db fault1 fault2 (File f) a
           end
  end.

(** [Database.add_url] *)
Definition add_url (added_on_default : datetime) (db : DB)
    (fault2 : store_fault) (url : string) (a : task_args)
    : DB * result (option Z) :=
  add added_on_default db NoFault fault2 (URL url) a.

(** [Database.view_task], [Database.view_sample] *)
Definition view_task (db : DB) (task_id : Z) : option Task :=
  get_task (new_session db).(work) task_id.

Definition view_sample (db : DB) (sample_id : Z) : option Sample :=
  get_sample (new_session db).(work) sample_id.
(** ** Histories of calls *)

(** One call of a mutating operation, with what the store does to its
    commits. *)
Inductive call :=
| Call_add (fault1 fault2 : store_fault) (obj : target_obj) (a : task_args)
| Call_fetch_and_process (fault : store_fault)
| Call_process (fault : store_fault) (task_id : Z)
| Call_complete (fault : store_fault) (task_id : Z) (success_ : bool)
| Call_guest_start (fault : store_fault) (task_id : Z)
                   (name label manager : string)
| Call_guest_stop (fault : store_fault) (guest_id : Z).

(** The store after one call made when the clock reads [now], in a
    process whose [Task] class was defined at [added_on_default]. *)
Definition exec (added_on_default : datetime) (now : datetime) (c : call)
    (db : DB) : DB :=
  match c with
  | Call_add f1 f2 obj a => fst (add added_on_default db f1 f2 obj a)
  | Call_fetch_and_process f => fst (fetch_and_process db f)
  | Call_process f i => fst (process db f i)
  | Call_complete f i s => fst (complete db now f i s)
  | Call_guest_start f i n l m => fst (guest_start db now f i n l m)
  | Call_guest_stop f i => fst (guest_stop db now f i)
  end.

(** A history: calls with the clock reading at each. *)
Definition run_history (added_on_default : datetime) (h : list (datetime * call))
    (db : DB) : DB :=
  fold_left (fun d '(now, c) => exec added_on_default now c d) h db.

(** ** Notions used in the statements *)

(** The Guest rows linked to a task. *)
Definition linked_guests (db : DB) (task_id : Z) : list Guest :=
  List.filter (fun g => option_Z_eqb (Guest_task_id g) (Some task_id))
              (guests db).

(** [completed_on] is null on every task that is pending or processing. *)
Definition completed_on_null_while_open (db : DB) : Prop :=
  forall t, In t (tasks db) ->
    Task_status t = pending \/ Task_status t = processing ->
    Task_completed_on t = None.

(** The hash tuple of a file, as [add] passes it to [Sample]. *)
Definition File_hashes (f : FileObj) : hash_tuple :=
  (get_md5 f, get_crc32 f, get_sha1 f, get_sha256 f, get_sha512 f).

(** ** Concrete stores and files *)

(** Tasks A (priority 5, added at 1), B (priority 10, added at 2) and C
    (priority 10, added at 1), all pending. *)
Definition abc_db : DB :=
  mkDB [mkTask 1 "A" "url" 0 5 None None None None None 1 None pending None;
        mkTask 2 "B" "url" 0 10 None None None None None 2 None pending None;
        mkTask 3 "C" "url" 0 10 None None None None None 1 None pending None]
       [] [].

(** One URL queued at time 1 and claimed at time 2. *)
Definition claimed_db : DB :=
  run_history 5 [(1, Call_add NoFault NoFault (URL "http://a") default_args);
         (2, Call_fetch_and_process NoFault)] empty_db.

(** A store with one task whose guest was already shut down at time 10. *)
Definition stopped_guest_db : DB :=
  mkDB [mkTask 1 "http://a" "url" 0 1 None None None None None 5 None
               processing None]
       []
       [mkGuest 1 "vm" "label" "manager" 7 (Some 10) (Some 1)].

(** A file system with one file. *)
Definition sample_file : FileObj :=
  mkFileObj "/tmp/a.exe" "md5-a" "crc-a" "sha1-a" "sha256-a" "sha512-a"
            1024 (Some "PE32 executable") None.

Definition one_file_fs : filesystem :=
  fun p => if String.eqb p "/tmp/a.exe" then Some sample_file else None.

(** Queue a URL at time 1, claim it at 2, complete it at 10: the history
    on which a second [complete] is tried. *)
Definition completed_once_db : DB :=
  run_history 5 [(1, Call_add NoFault NoFault (URL "http://a") default_args);
         (2, Call_fetch_and_process NoFault);
         (10, Call_complete NoFault 1 true)] empty_db.

(** Two URLs queued at clock readings 10 and 20 by a process whose [Task]
    class was defined at time 5. *)
Definition two_urls_db : DB :=
  run_history 5 [(10, Call_add NoFault NoFault (URL "http://a") default_args);
         (20, Call_add NoFault NoFault (URL "http://b") default_args)]
      empty_db.

(** Two files with the same MD5 and different other digests. *)
Definition colliding_a : FileObj :=
  mkFileObj "/tmp/a" "md5-x" "crc-a" "sha1-a" "sha256-a" "sha512-a"
            10 (Some "data") None.

Definition colliding_b : FileObj :=
  mkFileObj "/tmp/b" "md5-x" "crc-b" "sha1-b" "sha256-b" "sha512-b"
            10 (Some "data") None.

(** File a is queued, then file b, then file b again. *)
Definition collision_db : DB :=
  run_history 5 [(1, Call_add NoFault NoFault (File colliding_a) default_args);
         (2, Call_add NoFault NoFault (File colliding_b) default_args);
         (3, Call_add NoFault NoFault (File colliding_b) default_args)]
      empty_db.

(** ** Python objects *)

(** The identity of an object: its index in the heap. *)
Abbreviation loc := nat.

(** A value: immutable scalars, or a reference to a mutable object. *)
Inductive pyval :=
| VNone
| VBool (b : bool)
| VInt (n : Z)
| VStr (s : string)
| VRef (l : loc).

(** A mutable object: a [dict] with string keys, or a [list]. *)
Inductive pyobj :=
| PyDict (d : gmap string pyval)
| PyList (l : list pyval).

(** The heap: objects by location.  Allocation appends; nothing is freed
    while a reference is held. *)
Abbreviation heap := (list pyobj).

(** The values an object holds. *)
Definition obj_values (o : pyobj) : list pyval :=
  match o with
  | PyDict d => (map_to_list d).*2
  | PyList l => l
  end.

(** [k] can be reached from [v] by following references in [h]. *)
Inductive reachable (h : heap) : pyval -> loc -> Prop :=
| reach_here (l : loc) : reachable h (VRef l) l
| reach_step (l : loc) (o : pyobj) (v : pyval) (k : loc) :
    h !! l = Some o -> v ∈ obj_values o -> reachable h v k ->
    reachable h (VRef l) k.

(** ** [copy.deepcopy] *)

(** [y.append(v)] and [y[k] = v] on the object at [y]. *)
Definition list_append (y : loc) (_ : unit) (v : pyval) (h : heap) : heap :=
  match h !! y with
  | Some (PyList l) => <[y := PyList (l ++ [v])]> h
  | _ => h
  end.

Definition dict_setitem (y : loc) (k : string) (v : pyval) (h : heap) : heap :=
  match h !! y with
  | Some (PyDict d) => <[y := PyDict (<[k := v]> d)]> h
  | _ => h
  end.

(** The loop of [_deepcopy_list] and [_deepcopy_dict]: each item is
    copied with [rec] and stored into the new object with [put]. *)
Fixpoint copy_items {K : Type}
    (rec : pyval -> gmap loc loc -> heap -> option (pyval * gmap loc loc * heap))
    (put : K -> pyval -> heap -> heap)
    (items : list (K * pyval)) (memo : gmap loc loc) (h : heap)
    : option (gmap loc loc * heap) :=
  match items with
  | [] => Some (memo, h)
  | (k, a) :: rest =>
      match rec a memo h with
      | None => None
      | Some (a', memo, h) => copy_items rec put rest memo (put k a' h)
      end
  end.

(** [deepcopy(x, memo)].  Scalars are returned as they are.  An object
    already in [memo] is answered from it; otherwise a new empty object is
    allocated and entered in [memo] before its items are copied, which is
    what makes shared and cyclic structures come out right.  [fuel] bounds
    the nesting of objects not yet in [memo]. *)
Fixpoint deepcopy_memo (fuel : nat) (x : pyval) (memo : gmap loc loc) (h : heap)
    : option (pyval * gmap loc loc * heap) :=
  match x with
  | VRef l =>
      match memo !! l with
      | Some y => Some (VRef y, memo, h)
      | None =>
          match fuel with
          | O => None
          | S fuel =>
              let y := length h in
              match h !! l with
              | None => None
              | Some (PyList xs) =>
                  match copy_items (deepcopy_memo fuel) (list_append y)
                                   ((fun a => (tt, a)) <$> xs)
                                   (<[l := y]> memo) (h ++ [PyList []]) with
                  | None => None
                  | Some (memo, h) => Some (VRef y, memo, h)
                  end
              | Some (PyDict d) =>
                  match copy_items (deepcopy_memo fuel) (dict_setitem y)
                                   (map_to_list d)
                                   (<[l := y]> memo) (h ++ [PyDict ∅]) with
                  | None => None
                  | Some (memo, h) => Some (VRef y, memo, h)
                  end
              end
          end
      end
  | _ => Some (x, memo, h)
  end.

(** [copy.deepcopy(x)]: a fresh memo; the nesting of objects is bounded
    by the number of objects there are. *)
Definition deepcopy (x : pyval) (h : heap) : option (pyval * heap) :=
  match deepcopy_memo (length h) x ∅ h with
  | Some (y, _, h') => Some (y, h')
  | None => None
  end.

(** ** The reporting engine *)

(** What a reporting module can raise. *)
Inductive report_exn :=
| NotImplementedError
| CuckooReportError
| OtherException.

(** A loaded reporting module (a subclass of [Report]): its name, its
    [order] attribute, whether [reporting.conf] has a section for it, and
    its [run] method, which works on the heap through the reference it is
    given and returns normally ([None]) or raises. *)
Record ReportModule := mkReportModule {
  module_name : string;
  order : Z;
  has_section : bool;
  module_run : pyval -> heap -> heap * option report_exn
}.

(** One execution of a module's [run], as it happened: the module, the
    argument it was handed and the heap at that moment. *)
Record report_call := mkReportCall {
  call_module : ReportModule;
  call_arg : pyval;
  call_heap : heap
}.

(** What an operation of the reporter leaves: the heap, the executions
    of [run] it made, and the exception that escaped it, if any. *)
Record report_outcome := mkOutcome {
  out_heap : heap;
  out_calls : list report_call;
  out_raised : option report_exn
}.

(** [Reporter._run_report].  Instantiating the module and loading the
    analysis configuration are taken to succeed.  A module without a
    section in the reporting configuration raises [CuckooReportError] out
    of [_run_report]; [NotImplementedError] and [CuckooReportError] from
    [run] are swallowed; anything else escapes.  [deepcopy] does not fail
    on a heap whose references are all valid (lemma [deepcopy_ok]). *)
Definition _run_report (module : ReportModule) (results : pyval) (h : heap)
    : report_outcome :=
  if negb (has_section module) then mkOutcome h [] (Some CuckooReportError)
  else
    match deepcopy results h with
    | None => mkOutcome h [] (Some OtherException)
    | Some (copy, h1) =>
        let '(h2, raised) := module_run module copy h1 in
        mkOutcome h2 [mkReportCall module copy h1]
          match raised with
          | None => None
          | Some NotImplementedError => None
          | Some CuckooReportError => None
          | Some e => Some e
          end
    end.

(** [modules_list.sort(key=lambda module: module.order)]: a stable sort,
    ascending. *)
Fixpoint insert_by_order (m : ReportModule) (l : list ReportModule)
    : list ReportModule :=
  match l with
  | [] => [m]
  | x :: r => if order m <=? order x then m :: x :: r
              else x :: insert_by_order m r
  end.

Definition sort_by_order (l : list ReportModule) : list ReportModule :=
  fold_right insert_by_order [] l.

(** The loop of [Reporter.run]. *)
Fixpoint run_modules (modules_list : list ReportModule) (results : pyval)
    (h : heap) : report_outcome :=
  match modules_list with
  | [] => mkOutcome h [] None
  | module :: rest =>
      let r := _run_report module results h in
      match out_raised r with
      | Some e => r
      | None =>
          let r' := run_modules rest results (out_heap r) in
          mkOutcome (out_heap r') (out_calls r ++ out_calls r') (out_raised r')
      end
  end.

(** [Reporter.run]; [subclasses] is [Report.__subclasses__()]. *)
Definition Reporter_run (subclasses : list ReportModule) (results : pyval)
    (h : heap) : report_outcome :=
  run_modules (sort_by_order subclasses) results h.

(** ** Notions used in the statements about the reporter *)

(** A value that refers, if at all, to one of the first [n] objects. *)
Definition val_in (n : nat) (v : pyval) : Prop :=
  match v with
  | VRef l => (l < n)%nat
  | _ => True
  end.

Definition val_inb (n : nat) (v : pyval) : bool :=
  match v with
  | VRef l => bool_decide (l < n)%nat
  | _ => true
  end.

(** A value that refers, if at all, to an object in [[b, n)]. *)
Definition val_in_range (b n : nat) (v : pyval) : Prop :=
  match v with
  | VRef l => (b <= l < n)%nat
  | _ => True
  end.

(** Every reference held by an object of the heap is to an object of the
    heap. *)
Definition heap_closedb (h : heap) : bool :=
  forallb (fun o => forallb (val_inb (length h)) (obj_values o)) h.

Definition heap_closed (h : heap) : Prop := heap_closedb h = true.

(** A value with its reference redirected by [m]. *)
Definition rename (m : gmap loc loc) (v : pyval) : pyval :=
  match v with
  | VRef l => match m !! l with
              | Some y => VRef y
              | None => v
              end
  | _ => v
  end.

Definition rename_obj (m : gmap loc loc) (o : pyobj) : pyobj :=
  match o with
  | PyDict d => PyDict (rename m <$> d)
  | PyList l => PyList (rename m <$> l)
  end.

(** [m] knows the object [v] refers to. *)
Definition val_covered (m : gmap loc loc) (v : pyval) : Prop :=
  match v with
  | VRef l => is_Some (m !! l)
  | _ => True
  end.

(** [y] in [h'] is a deep copy of [x] in [h]: there is a one-to-one
    correspondence [m] from every object reachable from [x] to an object
    of [h'] that did not exist in [h], such that each copy has the content
    of its original with the references redirected along [m], and [y] is
    [x] redirected. *)
Definition copy_of (h : heap) (x : pyval) (h' : heap) (y : pyval) : Prop :=
  exists m : gmap loc loc,
    y = rename m x /\
    (forall l, reachable h x l -> is_Some (m !! l)) /\
    (forall l1 l2 k, m !! l1 = Some k -> m !! l2 = Some k -> l1 = l2) /\
    (forall l k, m !! l = Some k ->
       (length h <= k < length h')%nat /\
       exists o, h !! l = Some o /\ h' !! k = Some (rename_obj m o)).

(** A module whose [run] writes only to objects it can reach from its
    argument, or to objects it creates. *)
Definition confined (module : ReportModule) : Prop :=
  forall (v : pyval) (h : heap),
    (length h <= length (module_run module v h).1)%nat /\
    forall l, (l < length h)%nat -> ~ reachable h v l ->
              (module_run module v h).1 !! l = h !! l.

(** The state of a deep copy under way.  The objects being copied are
    the first [n0]; the copies are allocated from [b] on; [m] is the memo. *)
Record copy_inv (n0 b : nat) (m : gmap loc loc) (h : heap) : Prop := mkCopyInv {
  inv_bounds : (n0 <= b <= length h)%nat;
  inv_source : forall l o v, (l < n0)%nat -> h !! l = Some o ->
                             v ∈ obj_values o -> val_in n0 v;
  inv_memo : forall l y, m !! l = Some y -> (l < n0)%nat /\ (b <= y < length h)%nat;
  inv_inj : forall l1 l2 y, m !! l1 = Some y -> m !! l2 = Some y -> l1 = l2;
  inv_region : forall k o v, (b <= k)%nat -> h !! k = Some o ->
                             v ∈ obj_values o -> val_in_range b (length h) v
}.

(** What one call of [deepcopy_memo] (or one run of its loop) from memo
    [m] and heap [h] has achieved when it ends with [m'] and [h']. *)
Record copy_post (n0 b : nat) (m : gmap loc loc) (h : heap)
    (m' : gmap loc loc) (h' : heap) : Prop := mkCopyPost {
  post_inv : copy_inv n0 b m' h';
  post_memo : m ⊆ m';
  post_length : (length h <= length h')%nat;
  post_new : forall l y, m' !! l = Some y -> m !! l = None ->
               (length h <= y)%nat /\
               exists o, h !! l = Some o /\ h' !! y = Some (rename_obj m' o) /\
                         Forall (val_covered m') (obj_values o)
}.

(** The object a loop of [copy_items] has built from the items [acc]
    stored so far. *)
Definition list_of_items (acc : list (unit * pyval)) : pyobj :=
  PyList acc.*2.

Definition dict_of_items (acc : list (string * pyval)) : pyobj :=
  PyDict (foldl (fun d kv => <[kv.1 := kv.2]> d) ∅ acc).

(** The items of an object with their values redirected. *)
Definition rename_items {K : Type} (m : gmap loc loc) (items : list (K * pyval))
    : list (K * pyval) :=
  (fun kv => (kv.1, rename m kv.2)) <$> items.

(** The first [n0] objects of [h] refer only to one another. *)
Definition closed_below (n0 : nat) (h : heap) : Prop :=
  (n0 <= length h)%nat /\
  forall l o v, (l < n0)%nat -> h !! l = Some o -> v ∈ obj_values o ->
                val_in n0 v.

(** Each execution was handed a deep copy of the caller's [results] (as
    they are in the caller's heap [h]) made only of objects at or beyond
    [base]: beyond the caller's objects for the first execution, and for
    every later one beyond all objects that existed when the execution
    before it was handed its copy. *)
Fixpoint own_copies (h : heap) (results : pyval) (base : nat)
    (calls : list report_call) : Prop :=
  match calls with
  | [] => True
  | c :: rest =>
      copy_of h results (call_heap c) (call_arg c) /\
      (forall k, reachable (call_heap c) (call_arg c) k -> (base <= k)%nat) /\
      own_copies h results (length (call_heap c)) rest
  end.

(** Why an exception escaped a run, if one did: a module without a
    section in the configuration, or the [run] of the last module
    executed. *)
Definition escaped_from (modules_list : list ReportModule)
    (calls : list report_call) (e : report_exn) : Prop :=
  (e = CuckooReportError /\
   exists module, module ∈ modules_list /\ has_section module = false) \/
  (exists c, last calls = Some c /\
     (module_run (call_module c) (call_arg c) (call_heap c)).2 = Some e).

(** ** A concrete analysis and two reporting modules *)

(** The caller's results: a dict (object 0) that holds a list (object 1)
    that holds a dict (object 2) that refers back to the results. *)
Definition demo_heap : heap :=
  [PyDict {["info" := VRef 1; "score" := VInt 3]};
   PyList [VStr "signature"; VRef 2];
   PyDict {["parent" := VRef 0]}].

Definition demo_results : pyval := VRef 0.

(** A module that overwrites an entry of the results it is given. *)
Definition overwriting_run (v : pyval) (h : heap) : heap * option report_exn :=
  match v with
  | VRef l => (dict_setitem l "score" (VInt 99) h, None)
  | _ => (h, None)
  end.

(** A module that empties the results it is given and then fails. *)
Definition emptying_run (v : pyval) (h : heap) : heap * option report_exn :=
  match v with
  | VRef l => (<[l := PyDict ∅]> h, Some CuckooReportError)
  | _ => (h, Some CuckooReportError)
  end.

Definition demo_modules : list ReportModule :=
  [mkReportModule "jsondump" 2 true overwriting_run;
   mkReportModule "cleaner" 1 true emptying_run].

(** ** The rest of [Database] *)

(** [order_by("added_on desc")]: rows with the same [added_on] stay in
    storage order. *)
Fixpoint insert_added_on_desc (t : Task) (l : list Task) : list Task :=
  match l with
  | [] => [t]
  | x :: r => if Task_added_on x <=? Task_added_on t then t :: x :: r
              else x :: insert_added_on_desc t r
  end.

Definition order_by_added_on_desc (l : list Task) : list Task :=
  fold_right insert_added_on_desc [] l.

(** [Database.list_tasks]: [limit=None] is no limit. *)
Definition list_tasks (db : DB) (limit : option nat) : list Task :=
  let session := new_session db in
  let tasks := order_by_added_on_desc (tasks (work session)) in
  match limit with
  | Some n => firstn n tasks
  | None => tasks
  end.

(** ** Notions used in the further statements about the database *)

(** Every [sample_id] of a task is the id of a stored sample, and every
    [task_id] of a guest is the id of a stored task. *)
Definition references_resolve (db : DB) : Prop :=
  (forall t s, In t (tasks db) -> Task_sample_id t = Some s ->
               get_sample db s <> None) /\
  (forall g i, In g (guests db) -> Guest_task_id g = Some i ->
               get_task db i <> None).

(** The tasks waiting to be claimed. *)
Definition pending_tasks (db : DB) : list Task :=
  List.filter (fun t => status_eqb (Task_status t) pending) (tasks db).

(** What a task row and a guest row keep for life: everything but the
    status and [completed_on] of a task, everything but [shutdown_on] of
    a guest. *)
Definition same_task_identity (t t' : Task) : Prop :=
  Task_id t' = Task_id t /\ Task_target t' = Task_target t /\
  Task_category t' = Task_category t /\ Task_timeout t' = Task_timeout t /\
  Task_priority t' = Task_priority t /\ Task_custom t' = Task_custom t /\
  Task_machine t' = Task_machine t /\ Task_package t' = Task_package t /\
  Task_options t' = Task_options t /\ Task_platform t' = Task_platform t /\
  Task_added_on t' = Task_added_on t /\
  Task_sample_id t' = Task_sample_id t.

Definition same_guest_identity (g g' : Guest) : Prop :=
  Guest_id g' = Guest_id g /\ Guest_name g' = Guest_name g /\
  Guest_label g' = Guest_label g /\ Guest_manager g' = Guest_manager g /\
  Guest_started_on g' = Guest_started_on g /\
  Guest_task_id g' = Guest_task_id g.

(** The changes a commit of the operations makes to the store: a new
    sample, a new pending task, a task moved to a status other than
    pending, a new guest linked to a stored task, a guest shut down. *)
Inductive store_change (db : DB) : DB -> Prop :=
| change_sample (s : Sample) :
    Sample_id s = next_id (map Sample_id (samples db)) ->
    store_change db (add_sample s db)
| change_task (t : Task) :
    Task_id t = next_id (map Task_id (tasks db)) ->
    Task_status t = pending -> Task_completed_on t = None ->
    (forall s, Task_sample_id t = Some s -> In s (map Sample_id (samples db))) ->
    store_change db (add_task t db)
| change_status (r : Task) (st : status_type) (co : option datetime) :
    In r (tasks db) -> st <> pending ->
    store_change db (put_task (with_completed_on (with_status r st) co) db)
| change_guest (g : Guest) (i : Z) :
    Guest_id g = next_id (map Guest_id (guests db)) ->
    In i (map Task_id (tasks db)) -> Guest_task_id g = Some i ->
    store_change db (mkDB (tasks db) (samples db) (guests db ++ [g]))
| change_shutdown (g : Guest) (d : option datetime) :
    In g (guests db) ->
    store_change db (put_guest (with_shutdown_on g d) db).

(** A change between two stores that satisfy the constraints. *)
Definition committed (db db' : DB) : Prop :=
  constraints_ok db = true /\ constraints_ok db' = true /\ store_change db db'.

(** ** Opening the database *)

(** What [Config()] gives [Database.__init__]: [cfg.cuckoo.database] and
    [cfg.cuckoo.database_timeout]; an option that is not set is [None]. *)
Record Config := mkConfig {
  cuckoo_database : option string;
  cuckoo_database_timeout : option Z
}.

(** Python truthiness of an optional integer. *)
Definition truthy_int (o : option Z) : bool :=
  match o with
  | Some n => negb (n =? 0)
  | None => false
  end.

(** The engine [Database.__init__] builds: the connection string,
    whether it was created with [poolclass=NullPool], and the attributes
    [echo] and [pool_timeout] it sets. *)
Record Engine := mkEngine {
  engine_url : string;
  engine_null_pool : bool;
  engine_echo : bool;
  engine_pool_timeout : Z
}.

(** What the host does for [Database.__init__]: [os.path.exists];
    whether [create_folder] succeeds on a directory (it raises
    [CuckooOperationalError] otherwise); whether [Base.metadata.create_all]
    succeeds on an engine (it raises an [SQLAlchemyError] otherwise). *)
Record Host := mkHost {
  path_exists : string -> bool;
  create_folder_ok : string -> bool;
  create_all_ok : string -> bool
}.

(** The two places where [Database.__init__] raises
    [CuckooDatabaseError]. *)
Inductive init_error :=
| UnableToCreateDirectory
| UnableToCreateOrConnect.

(** What [Database.__init__] leaves: the folders it created, and the
    engine or the error. *)
Record init_outcome := mkInit {
  init_created : list string;
  init_result : init_error + Engine
}.

(** The end of [Database.__init__], from [self.engine.echo = False] on. *)
Definition Database_init_engine (host : Host) (cfg : Config)
    (created : list string) (url : string) (null_pool : bool) : init_outcome :=
  let pool_timeout :=
    if truthy_int (cuckoo_database_timeout cfg)
    then match cuckoo_database_timeout cfg with Some n => n | None => 60 end
    else 60 in
  if create_all_ok host url
  then mkInit created (inr (mkEngine url null_pool false pool_timeout))
  else mkInit created (inl UnableToCreateOrConnect).

(** [Database.__init__].  [db_file] is
    [os.path.join(CUCKOO_ROOT, "db", "cuckoo.db")] and [db_dir] its
    [os.path.dirname]. *)
Definition Database_init (host : Host) (cfg : Config) (db_file db_dir : string)
    (dsn : option string) : init_outcome :=
  if truthy dsn then
    Database_init_engine host cfg []
      (match dsn with Some d => d | None => "" end) true
  else if truthy (cuckoo_database cfg) then
    Database_init_engine host cfg []
      (match cuckoo_database cfg with Some d => d | None => "" end) true
  else if negb (path_exists host db_file) && negb (path_exists host db_dir) then
    if create_folder_ok host db_dir
    then Database_init_engine host cfg [db_dir]
           (String.append "sqlite:///" db_file) false
    else mkInit [] (inl UnableToCreateDirectory)
  else Database_init_engine host cfg []
         (String.append "sqlite:///" db_file) false.

(** ** The rest of [Reporter] *)

(** ["." in s] *)
Fixpoint contains_dot (s : string) : bool :=
  match s with
  | EmptyString => false
  | String c r => Ascii.eqb c "."%char || contains_dot r
  end.

(** [s.rsplit(".", 1)] when it has two parts: what is before the last
    dot and what is after it; [None] when [s] has no dot (the result is
    then the one-element list [[s]]). *)
Fixpoint rsplit_dot (s : string) : option (string * string) :=
  match s with
  | EmptyString => None
  | String c r =>
      match rsplit_dot r with
      | Some (a, b) => Some (String c a, b)
      | None => if Ascii.eqb c "."%char then Some (EmptyString, r) else None
      end
  end.

(** The name [_run_report] looks up in the configuration: the module's
    [__name__], cut after its last dot when it has one. *)
Definition report_module_name (name : string) : string :=
  if contains_dot name
  then match rsplit_dot name with
       | Some (_, b) => b
       | None => name
       end
  else name.

(** What [__import__] does for one module: it succeeds, raises
    [CuckooDependencyError], or raises something else. *)
Inductive import_outcome :=
| Imported
| DependencyError
| ImportFailed.

(** What escapes [_populate]: the [IndexError] of [rsplit(".", 1)[1]] on
    a name without a dot, or what an import raised. *)
Inductive populate_exn :=
| IndexError
| ImportException.

(** What [_populate] leaves: the modules it imported, the modules it
    logged a warning for, and what escaped it, if anything. *)
Record populate_outcome := mkPopulate {
  populate_imported : list string;
  populate_warned : list string;
  populate_raised : option populate_exn
}.

(** [Reporter._populate].  [cfg] maps each section of [reporting.conf]
    to its [enabled] option; [modules] is what [pkgutil.iter_modules]
    yields, name and [ispkg]. *)
Fixpoint _populate (cfg : gmap string bool) (import : string -> import_outcome)
    (modules : list (string * bool)) : populate_outcome :=
  match modules with
  | [] => mkPopulate [] [] None
  | (name, ispkg) :: rest =>
      if ispkg then _populate cfg import rest
      else
        match rsplit_dot name with
        | None => mkPopulate [] [] (Some IndexError)
        | Some (_, section_name) =>
            match cfg !! section_name with
            | None => _populate cfg import rest
            | Some enabled =>
                if negb enabled then _populate cfg import rest
                else
                  match import name with
                  | Imported =>
                      let r := _populate cfg import rest in
                      mkPopulate (name :: populate_imported r)
                                 (populate_warned r) (populate_raised r)
                  | DependencyError =>
                      let r := _populate cfg import rest in
                      mkPopulate (populate_imported r)
                                 (name :: populate_warned r)
                                 (populate_raised r)
                  | ImportFailed => mkPopulate [] [] (Some ImportException)
                  end
            end
        end
  end.

(** The module can raise neither of the two exceptions [_run_report]
    lets through only by accident: its [run] raises, if anything,
    [NotImplementedError] or [CuckooReportError]. *)
Definition raises_only_report_errors (module : ReportModule) : Prop :=
  forall v h, (module_run module v h).2 <> Some OtherException.

(** The configuration has an enabled section under the name
    [_run_report] uses for the module. *)
Definition section_enabled (cfg : gmap string bool) (name : string) : bool :=
  match cfg !! report_module_name name with
  | Some true => true
  | _ => false
  end.

(** The modules [_populate] tries to import: the names that are not
    packages and have an enabled section, in the order they are found. *)
Definition import_candidates (cfg : gmap string bool)
    (modules : list (string * bool)) : list string :=
  map fst (List.filter (fun m => negb (snd m) && section_enabled cfg (fst m))
                       modules).

(** ** Concrete stores, files and modules for the further statements *)

(** File a of the colliding pair, queued at time 1. *)
Definition one_sample_db : DB :=
  run_history 5 [(1, Call_add NoFault NoFault (File colliding_a) default_args)]
              empty_db.

(** The content of [sample_file] under another path. *)
Definition sample_file_copy : FileObj :=
  mkFileObj "/tmp/copy.exe" "md5-a" "crc-a" "sha1-a" "sha256-a" "sha512-a"
            1024 (Some "PE32 executable") None.

(** A file whose type could not be determined. *)
Definition untyped_file : FileObj :=
  mkFileObj "/tmp/u" "md5-u" "crc-u" "sha1-u" "sha256-u" "sha512-u"
            7 None None.

(** A reporting configuration, what importing each module does, and the
    modules found in the package: one is disabled, one lacks a
    dependency, one is a sub-package, one has no section. *)
Definition demo_reporting_conf : gmap string bool :=
  {["jsondump" := true; "reporthtml" := false; "mongodb" := true]}.

Definition demo_import (name : string) : import_outcome :=
  if String.eqb name "modules.reporting.mongodb" then DependencyError
  else Imported.

Definition demo_package : list (string * bool) :=
  [("modules.reporting.jsondump", false);
   ("modules.reporting.reporthtml", false);
   ("modules.reporting.helpers", true);
   ("modules.reporting.mongodb", false);
   ("modules.reporting.metadata", false)].

(** Three loaded modules, the second in order without a section in the
    configuration. *)
Definition cleaner_module : ReportModule :=
  mkReportModule "cleaner" 1 true emptying_run.

Definition reporthtml_module : ReportModule :=
  mkReportModule "reporthtml" 2 false overwriting_run.

Definition jsondump_module : ReportModule :=
  mkReportModule "jsondump" 3 true overwriting_run.

Definition unconfigured_modules : list ReportModule :=
  [jsondump_module; cleaner_module; reporthtml_module].
(** * Properties of the database *)

(** ** Basic facts: constraints, lookups, updates *)

(** Unfolds an operation down to the session primitives. *)
Ltac unfold_session :=
  unfold new_session, commit, on_work, rollback; cbn [work store].

Lemma distinct_cons_inv (x : Z) (r : list Z) :
  distinct Z.eqb (x :: r) = true -> ~ In x r /\ distinct Z.eqb r = true.
Proof.
  simpl. rewrite andb_true_iff, negb_true_iff. intros [Hx Hr].
  split; [|exact Hr]. intros Hin.
  assert (existsb (Z.eqb x) r = true) as E
    by (apply existsb_exists; exists x; split; [exact Hin | apply Z.eqb_refl]).
  congruence.
Qed.

Lemma forallb_comp {A B : Type} (f : A -> B) (p : B -> bool) (l : list A) :
  forallb (fun x => p (f x)) l = forallb p (map f l).
Proof. induction l as [|x r IH]; simpl; [reflexivity | rewrite IH; reflexivity]. Qed.

Lemma constraints_task_ids (db : DB) :
  constraints_ok db = true -> distinct Z.eqb (map Task_id (tasks db)) = true.
Proof.
  unfold constraints_ok. rewrite !andb_true_iff.
  intros [[[[[[H _] _] _] _] _] _]. exact H.
Qed.

Lemma constraints_guest_ids (db : DB) :
  constraints_ok db = true -> distinct Z.eqb (map Guest_id (guests db)) = true.
Proof.
  unfold constraints_ok. rewrite !andb_true_iff.
  intros [[[[[[_ _] H] _] _] _] _]. exact H.
Qed.

Lemma get_task_Some (db : DB) (i : Z) (t : Task) :
  get_task db i = Some t -> In t (tasks db) /\ Task_id t = i.
Proof.
  unfold get_task. intros H. apply find_some in H as [H1 H2].
  split; [exact H1 | apply Z.eqb_eq, H2].
Qed.

Lemma get_task_None (db : DB) (i : Z) :
  get_task db i = None -> forall t, In t (tasks db) -> Task_id t <> i.
Proof.
  unfold get_task. intros H t Ht E.
  apply (find_none _ _ H) in Ht. apply Z.eqb_neq in Ht. contradiction.
Qed.

Lemma find_id_In {A : Type} (key : A -> Z) (l : list A) (x : A) :
  distinct Z.eqb (map key l) = true -> In x l ->
  find (fun y => key y =? key x) l = Some x.
Proof.
  induction l as [|y r IH]; [contradiction|].
  intros Hnd Hin. cbn [map] in Hnd. apply distinct_cons_inv in Hnd as [Hy Hr].
  simpl. destruct (key y =? key x) eqn:E.
  - destruct Hin as [->|Hin]; [reflexivity|].
    apply Z.eqb_eq in E. exfalso. apply Hy. rewrite E. apply in_map, Hin.
  - destruct Hin as [->|Hin]; [rewrite Z.eqb_refl in E; discriminate|].
    apply IH; assumption.
Qed.

Lemma get_task_In (db : DB) (t : Task) :
  distinct Z.eqb (map Task_id (tasks db)) = true -> In t (tasks db) ->
  get_task db (Task_id t) = Some t.
Proof. apply find_id_In. Qed.

Section Replace.
Context {A : Type} (key : A -> Z).

Lemma replace_row_keys (t : A) (l : list A) :
  map key (replace_row key t l) = map key l.
Proof.
  induction l as [|x r IH]; simpl; [reflexivity|].
  rewrite IH. destruct (key x =? key t) eqn:E; [|reflexivity].
  apply Z.eqb_eq in E. congruence.
Qed.

Lemma find_replace_row_ne (t : A) (l : list A) (i : Z) :
  i <> key t ->
  find (fun y => key y =? i) (replace_row key t l) = find (fun y => key y =? i) l.
Proof.
  intros Hne. induction l as [|x r IH]; simpl; [reflexivity|].
  destruct (key x =? key t) eqn:E.
  - apply Z.eqb_eq in E. rewrite E.
    destruct (key t =? i) eqn:E'; [apply Z.eqb_eq in E'; congruence | exact IH].
  - rewrite IH. reflexivity.
Qed.

Lemma find_replace_row_eq (t : A) (l : list A) :
  find (fun y => key y =? key t) (replace_row key t l) =
  option_map (fun _ => t) (find (fun y => key y =? key t) l).
Proof.
  induction l as [|x r IH]; simpl; [reflexivity|].
  destruct (key x =? key t) eqn:E.
  - rewrite Z.eqb_refl. reflexivity.
  - rewrite E. exact IH.
Qed.

Lemma replace_row_In (t : A) (l : list A) (y : A) :
  In y (replace_row key t l) -> y = t \/ (In y l /\ key y <> key t).
Proof.
  unfold replace_row. intros H. apply in_map_iff in H as (x & Hx & Hin).
  destruct (key x =? key t) eqn:E.
  - left. congruence.
  - right. subst y. split; [exact Hin | apply Z.eqb_neq, E].
Qed.
End Replace.

Lemma put_task_ids (t : Task) (db : DB) :
  map Task_id (tasks (put_task t db)) = map Task_id (tasks db).
Proof. apply (replace_row_keys Task_id). Qed.

Lemma put_task_constraints (t : Task) (db : DB) :
  constraints_ok (put_task t db) = constraints_ok db.
Proof. unfold constraints_ok. rewrite put_task_ids. reflexivity. Qed.

Lemma get_put_task_ne (t : Task) (db : DB) (i : Z) :
  i <> Task_id t -> get_task (put_task t db) i = get_task db i.
Proof. apply (find_replace_row_ne Task_id). Qed.

Lemma get_put_task_eq (t : Task) (db : DB) :
  get_task (put_task t db) (Task_id t) =
  option_map (fun _ => t) (get_task db (Task_id t)).
Proof. apply (find_replace_row_eq Task_id). Qed.

Lemma put_guest_ids (g : Guest) (db : DB) :
  map Guest_id (guests (put_guest g db)) = map Guest_id (guests db).
Proof. apply (replace_row_keys Guest_id). Qed.

Lemma get_put_guest_ne (g : Guest) (db : DB) (i : Z) :
  i <> Guest_id g -> get_guest (put_guest g db) i = get_guest db i.
Proof. apply (find_replace_row_ne Guest_id). Qed.

Lemma get_put_guest_eq (g : Guest) (db : DB) :
  get_guest (put_guest g db) (Guest_id g) =
  option_map (fun _ => g) (get_guest db (Guest_id g)).
Proof. apply (find_replace_row_eq Guest_id). Qed.

(** ** The claim query *)

Section FirstBy.
Context {A : Type} (before : A -> A -> bool).
Hypothesis before_trans :
  forall x y z, before x y = true -> before y z = true -> before x z = true.
Hypothesis before_irrefl : forall x, before x x = false.

Lemma fold_pick_minimal (l : list A) (b0 : A) (seen : list A) :
  In b0 seen ->
  (forall x, In x seen -> before x b0 = false) ->
  exists b, fold_left (pick_first before) l (Some b0) = Some b /\ In b (seen ++ l) /\
            forall x, In x (seen ++ l) -> before x b = false.
Proof.
  revert b0 seen. induction l as [|y r IH]; intros b0 seen Hin Hmin.
  - exists b0. rewrite app_nil_r. auto.
  - simpl. destruct (before y b0) eqn:E.
    + destruct (IH y (seen ++ [y])) as (b & Hb & Hbin & Hbmin).
      * apply in_or_app. right. left. reflexivity.
      * intros x Hx. apply in_app_or in Hx as [Hx|[<-|[]]].
        -- destruct (before x y) eqn:E'; [|reflexivity].
           rewrite <- (Hmin x Hx). symmetry. eapply before_trans; eassumption.
        -- apply before_irrefl.
      * exists b. rewrite <- app_assoc in Hbin, Hbmin. auto.
    + destruct (IH b0 (seen ++ [y])) as (b & Hb & Hbin & Hbmin).
      * apply in_or_app. left. exact Hin.
      * intros x Hx. apply in_app_or in Hx as [Hx|[<-|[]]]; auto.
      * exists b. rewrite <- app_assoc in Hbin, Hbmin. auto.
Qed.
End FirstBy.

Lemma first_by_spec {A : Type} (before : A -> A -> bool) (l : list A) :
  (forall x y z, before x y = true -> before y z = true -> before x z = true) ->
  (forall x, before x x = false) ->
  match first_by before l with
  | Some b => In b l /\ forall x, In x l -> before x b = false
  | None => l = []
  end.
Proof.
  intros Ht Hi. destruct l as [|y r]; [reflexivity|].
  unfold first_by. simpl.
  destruct (fold_pick_minimal before Ht Hi r y [y]) as (b & Hb & Hin & Hmin).
  - left. reflexivity.
  - intros x [<-|[]]. apply Hi.
  - rewrite Hb. split; assumption.
Qed.

Lemma claim_before_trans (x y z : Task) :
  claim_before x y = true -> claim_before y z = true -> claim_before x z = true.
Proof.
  unfold claim_before.
  rewrite !orb_true_iff, !andb_true_iff, !Z.ltb_lt, !Z.eqb_eq. lia.
Qed.

Lemma claim_before_irrefl (x : Task) : claim_before x x = false.
Proof.
  unfold claim_before. rewrite Z.ltb_irrefl, Z.eqb_refl, Z.ltb_irrefl. reflexivity.
Qed.

(** What a row that no other row precedes looks like in terms of the two
    sort keys. *)
Lemma claim_before_false (x r : Task) :
  claim_before x r = false ->
  Task_priority x <= Task_priority r /\
  (Task_priority x = Task_priority r -> Task_added_on r <= Task_added_on x).
Proof.
  unfold claim_before.
  rewrite orb_false_iff, andb_false_iff, !Z.ltb_ge, Z.eqb_neq. lia.
Qed.

Lemma status_eqb_eq (a b : status_type) : status_eqb a b = true <-> a = b.
Proof. destruct a, b; simpl; split; intros H; congruence. Qed.

Lemma query_next_pending_spec (db : DB) :
  match query_next_pending db with
  | Some r =>
      In r (tasks db) /\ Task_status r = pending /\
      forall x, In x (tasks db) -> Task_status x = pending ->
        Task_priority x <= Task_priority r /\
        (Task_priority x = Task_priority r ->
         Task_added_on r <= Task_added_on x)
  | None => forall x, In x (tasks db) -> Task_status x <> pending
  end.
Proof.
  unfold query_next_pending.
  pose proof (first_by_spec claim_before
    (List.filter (fun t => status_eqb (Task_status t) pending) (tasks db))
    claim_before_trans claim_before_irrefl) as H.
  destruct (first_by _ _) as [r|].
  - destruct H as [Hin Hmin]. apply filter_In in Hin as [Hin Hst].
    apply status_eqb_eq in Hst. repeat split; try assumption;
      apply claim_before_false, Hmin, filter_In; split; try assumption;
      apply status_eqb_eq; assumption.
  - intros x Hx Hst.
    assert (In x (List.filter (fun t => status_eqb (Task_status t) pending)
                              (tasks db))) as F
      by (apply filter_In; split; [exact Hx | apply status_eqb_eq, Hst]).
    rewrite H in F. exact F.
Qed.

(** ** C1: claiming the next task *)

(** C1. [fetch_and_process] selects, among the pending tasks, one of
    highest priority and, among those, of earliest [added_on]; it sets the
    status of that row (and of no other) to processing in the committed
    store and returns it.  When the commit fails the store is left as it
    was and [None] is returned, so a task is returned only when the store
    holds it as processing.  [None] is returned only when the commit failed
    or no task was pending, and no exception escapes. *)
Theorem fetch_and_process_claims (db : DB) (fault : store_fault) :
  constraints_ok db = true ->
  match fetch_and_process db fault with
  | (db', Ret (Some t)) =>
      fault = NoFault /\
      exists r,
        In r (tasks db) /\ Task_status r = pending /\
        (forall x, In x (tasks db) -> Task_status x = pending ->
           Task_priority x <= Task_priority r /\
           (Task_priority x = Task_priority r ->
            Task_added_on r <= Task_added_on x)) /\
        t = with_status r processing /\
        db' = put_task t db /\
        get_task db' (Task_id r) = Some t /\
        Task_status t = processing /\
        (forall i, i <> Task_id r -> get_task db' i = get_task db i)
  | (db', Ret None) =>
      db' = db /\
      (fault = StoreError \/
       forall x, In x (tasks db) -> Task_status x <> pending)
  | (_, Raise _) => False
  end.
Proof.
  intros Hok. unfold fetch_and_process, new_session. cbn [work].
  pose proof (query_next_pending_spec db) as Hq.
  destruct (query_next_pending db) as [r|]; cbn [option_map].
  - destruct Hq as (Hin & Hst & Hmin).
    destruct fault; unfold commit, on_work, rollback; cbn [work store].
    + rewrite put_task_constraints, Hok. cbn [store].
      split; [reflexivity|]. exists r. repeat split; try assumption.
      * apply Hmin; assumption.
      * apply Hmin; assumption.
      * change (Task_id r) with (Task_id (with_status r processing)).
        rewrite get_put_task_eq. cbn [Task_id with_status].
        rewrite (get_task_In db r (constraints_task_ids db Hok) Hin).
        reflexivity.
      * intros i Hi. apply get_put_task_ne. exact Hi.
    + split; [reflexivity | left; reflexivity].
  - destruct fault; unfold commit, on_work, rollback; cbn [work store].
    + rewrite Hok. cbn [store]. split; [reflexivity | right; exact Hq].
    + split; [reflexivity | left; reflexivity].
Qed.

(** ** Histories of calls *)

(** Every operation leaves a store that satisfies the constraints. *)
Lemma exec_constraints (dflt now : datetime) (c : call) (db : DB) :
  constraints_ok db = true -> constraints_ok (exec dflt now c db) = true.
Proof.
  intros Hok. destruct c; cbn [exec].
  - unfold add, add_commit_task. unfold_session.
    destruct obj as [f|url].
    + destruct fault1; cbn [fst];
        [|exact Hok].
      destruct (constraints_ok (add_sample _ db)) eqn:E1; cbn [work store].
      * destruct fault2; cbn [fst]; [|exact E1].
        destruct (constraints_ok (add_task _ _)) eqn:E2; cbn [store fst];
          [exact E2 | exact E1].
      * destruct (query_sample_by_md5 db (get_md5 f)); cbn [fst]; [|exact Hok].
        destruct fault2; cbn [fst]; [|exact Hok].
        destruct (constraints_ok (add_task _ _)) eqn:E2; cbn [store fst];
          [exact E2 | exact Hok].
    + destruct fault2; cbn [fst]; [|exact Hok].
      destruct (constraints_ok (add_task _ _)) eqn:E2; cbn [store fst];
        [exact E2 | exact Hok].
  - unfold fetch_and_process. unfold_session.
    destruct (option_map _ _); destruct fault; cbn [work store fst];
      try exact Hok.
    + destruct (constraints_ok (put_task _ _)) eqn:E; cbn [store fst];
        [exact E | exact Hok].
    + rewrite Hok. exact Hok.
  - unfold process, _set_status. unfold_session.
    destruct (get_task db task_id); cbn [fst]; [|exact Hok].
    destruct fault; cbn [work store fst]; [|exact Hok].
    destruct (constraints_ok (put_task _ _)) eqn:E; cbn [store fst];
      [exact E | exact Hok].
  - unfold complete. unfold_session.
    destruct (get_task db task_id); cbn [fst]; [|exact Hok].
    destruct fault; cbn [work store fst]; [|exact Hok].
    destruct (constraints_ok (put_task _ _)) eqn:E; cbn [store fst];
      [exact E | exact Hok].
  - unfold guest_start. unfold_session.
    destruct (get_task db task_id); cbn [fst]; [|exact Hok].
    destruct fault; cbn [work store fst]; [|exact Hok].
    destruct (constraints_ok (set_task_guest _ _ _)) eqn:E; cbn [store fst];
      [exact E | exact Hok].
  - unfold guest_stop. unfold_session.
    destruct (get_guest db guest_id); cbn [fst]; [|exact Hok].
    destruct fault; cbn [work store fst]; [|exact Hok].
    destruct (constraints_ok (put_guest _ _)) eqn:E; cbn [store fst];
      [exact E | exact Hok].
Qed.

Lemma run_history_constraints (dflt : datetime) (h : list (datetime * call)) (db : DB) :
  constraints_ok db = true -> constraints_ok (run_history dflt h db) = true.
Proof.
  revert db. induction h as [|[now c] h IH]; intros db Hok; [exact Hok|].
  apply IH, exec_constraints, Hok.
Qed.

(** ** C4: completing a task *)

(** What [complete] does, by whether the row exists. *)
Lemma complete_cases (db : DB) (now : datetime)
    (task_id : Z) (succeeded : bool) :
  constraints_ok db = true ->
  match get_task db task_id with
  | None =>
      forall fault,
        complete db now fault task_id succeeded = (db, Raise AttributeError)
  | Some t0 =>
      exists t db',
        complete db now NoFault task_id succeeded = (db', Ret true) /\
        get_task db' task_id = Some t /\
        Task_status t = (if succeeded then success else failure) /\
        Task_completed_on t = Some now /\
        Task_completed_on t <> None /\
        (forall i, i <> task_id -> get_task db' i = get_task db i) /\
        samples db' = samples db /\ guests db' = guests db
  end.
Proof.
  intros Hok. unfold complete. unfold_session.
  destruct (get_task db task_id) as [t0|] eqn:Hget; [|reflexivity].
  apply get_task_Some in Hget as [Hin Hid].
  set (t := with_completed_on
              (with_status t0 (if succeeded then success else failure))
              (Some now)).
  exists t, (put_task t db).
  rewrite put_task_constraints, Hok. cbn [store].
  assert (Task_id t = task_id) as Ht by exact Hid.
  repeat split.
  - rewrite <- Ht, get_put_task_eq, Ht, <- Hid.
    rewrite (get_task_In db t0 (constraints_task_ids db Hok) Hin). reflexivity.
  - discriminate.
  - intros i Hi. apply get_put_task_ne. congruence.
Qed.

(** C4. [complete] on a task id that no row has fails: the attribute
    assignment on the missing row raises, whatever the store does, and the
    store is untouched.  On an existing task, when the commit goes through,
    it reports success, the row then has status success if [succeeded] is
    true and failure otherwise, its [completed_on] is the clock reading of
    the call (so not null), and every other row is as it was. *)
Theorem complete_sets_status_or_fails (db : DB) (now : datetime)
    (task_id : Z) (succeeded : bool) :
  constraints_ok db = true ->
  match get_task db task_id with
  | None =>
      forall fault,
        complete db now fault task_id succeeded = (db, Raise AttributeError)
  | Some t0 =>
      exists t db',
        complete db now NoFault task_id succeeded = (db', Ret true) /\
        get_task db' task_id = Some t /\
        Task_status t = (if succeeded then success else failure) /\
        Task_completed_on t = Some now /\
        Task_completed_on t <> None /\
        (forall i, i <> task_id -> get_task db' i = get_task db i) /\
        samples db' = samples db /\ guests db' = guests db
  end.
Proof. apply complete_cases. Qed.

(** ** C8: stopping a guest *)

(** C8 as stated fails: [guest_stop] on a guest id that no row has raises
    to the caller, and on a guest that was already shut down it overwrites
    [shutdown_on]. *)
Lemma guest_stop_raises_and_overwrites :
  guest_stop empty_db 20 NoFault 1 = (empty_db, Raise AttributeError) /\
  snd (guest_stop empty_db 20 NoFault 1) <> Ret tt /\
  option_map Guest_shutdown_on (get_guest stopped_guest_db 1) = Some (Some 10) /\
  option_map Guest_shutdown_on
    (get_guest (fst (guest_stop stopped_guest_db 20 NoFault 1)) 1)
  = Some (Some 20).
Proof. repeat split. discriminate. Qed.

(** C8 (as the code has it).  [guest_stop] on a guest id that no row has
    raises to the caller and leaves the store untouched.  On an existing
    guest it sets [shutdown_on] to the clock reading of the call, whatever
    it held before; when the commit fails the change is rolled back; in
    both cases it returns normally and tells the caller nothing. *)
Theorem guest_stop_behaviour (db : DB) (now : datetime) (fault : store_fault)
    (guest_id : Z) :
  constraints_ok db = true ->
  match get_guest db guest_id with
  | None => guest_stop db now fault guest_id = (db, Raise AttributeError)
  | Some g0 =>
      match fault with
      | NoFault =>
          exists g db',
            guest_stop db now fault guest_id = (db', Ret tt) /\
            get_guest db' guest_id = Some g /\
            g = with_shutdown_on g0 (Some now) /\
            Guest_shutdown_on g = Some now /\
            (forall i, i <> guest_id -> get_guest db' i = get_guest db i) /\
            tasks db' = tasks db /\ samples db' = samples db
      | StoreError => guest_stop db now fault guest_id = (db, Ret tt)
      end
  end.
Proof.
  intros Hok. unfold guest_stop. unfold_session.
  destruct (get_guest db guest_id) as [g0|] eqn:Hget; [|reflexivity].
  destruct fault; [|reflexivity].
  unfold get_guest in Hget. apply find_some in Hget as [Hin Hid].
  apply Z.eqb_eq in Hid.
  set (g := with_shutdown_on g0 (Some now)).
  assert (Guest_id g = guest_id) as Hg by exact Hid.
  assert (map Guest_task_id (guests (put_guest g db))
          = map Guest_task_id (guests db)) as Hmap.
  { cbn [guests put_guest]. unfold replace_row. rewrite map_map.
    apply map_ext_in. intros x Hx.
    destruct (Guest_id x =? Guest_id g) eqn:E; [|reflexivity].
    apply Z.eqb_eq in E. cbn [g Guest_task_id with_shutdown_on].
    f_equal. rewrite Hg, <- Hid in E.
    pose proof (find_id_In Guest_id (guests db) x
                  (constraints_guest_ids db Hok) Hx) as F1.
    pose proof (find_id_In Guest_id (guests db) g0
                  (constraints_guest_ids db Hok) Hin) as F2.
    rewrite E in F1. congruence. }
  assert (constraints_ok (put_guest g db) = true) as Hok'.
  { pose proof Hok as Hok0. revert Hok0. unfold constraints_ok.
    rewrite put_guest_ids, Hmap.
    rewrite (forallb_comp Guest_task_id is_some (guests (put_guest g db))).
    rewrite (forallb_comp Guest_task_id is_some (guests db)).
    rewrite Hmap. cbn [tasks samples put_guest]. tauto. }
  rewrite Hok'. cbn [store]. exists g, (put_guest g db). repeat split.
  - rewrite <- Hg, get_put_guest_eq, Hg, <- Hid. unfold get_guest.
    rewrite (find_id_In Guest_id (guests db) g0
               (constraints_guest_ids db Hok) Hin). reflexivity.
  - intros i Hi. apply get_put_guest_ne. congruence.
Qed.

(** ** C9: enqueueing a path that does not exist *)

(** C9. [add_path] with no path, an empty path or a path that does not
    exist returns no task id and leaves the store as it was, so no Task
    row and no Sample row is created. *)
Theorem add_path_missing_creates_nothing (fs : filesystem)
    (added_on_default : datetime) (db : DB) (fault1 fault2 : store_fault)
    (path : option string) (a : task_args) :
  (path = None \/ path = Some "" \/
   exists p, path = Some p /\ fs p = None) ->
  add_path fs added_on_default db fault1 fault2 path a = (db, Ret None) /\
  tasks (fst (add_path fs added_on_default db fault1 fault2 path a)) = tasks db /\
  samples (fst (add_path fs added_on_default db fault1 fault2 path a))
  = samples db.
Proof.
  intros H.
  assert (add_path fs added_on_default db fault1 fault2 path a = (db, Ret None))
    as E.
  { unfold add_path. destruct H as [->|[->|(p & -> & Hp)]]; try reflexivity.
    rewrite Hp. destruct (String.eqb p ""); reflexivity. }
  rewrite E. repeat split.
Qed.

(** ** C7: starting a guest *)

Lemma option_Z_eqb_eq (a b : option Z) : option_Z_eqb a b = true <-> a = b.
Proof.
  destruct a as [x|], b as [y|]; simpl; split; intros H;
    try discriminate; try reflexivity.
  - apply Z.eqb_eq in H. congruence.
  - apply Z.eqb_eq. congruence.
Qed.

Lemma distinct_filter_le1 {A : Type} (f : A -> option Z) (k : option Z)
    (l : list A) :
  distinct option_Z_eqb (map f l) = true ->
  (length (List.filter (fun g => option_Z_eqb (f g) k) l) <= 1)%nat.
Proof.
  induction l as [|x r IH]; simpl; [lia|].
  rewrite andb_true_iff, negb_true_iff. intros [Hx Hr].
  destruct (option_Z_eqb (f x) k) eqn:E; [|apply IH, Hr].
  apply option_Z_eqb_eq in E. simpl.
  assert (List.filter (fun g => option_Z_eqb (f g) k) r = []) as ->; [|simpl; lia].
  destruct (List.filter _ r) as [|y r'] eqn:F; [reflexivity|].
  assert (In y (List.filter (fun g => option_Z_eqb (f g) k) r)) as Hy
    by (rewrite F; left; reflexivity).
  apply filter_In in Hy as [Hy1 Hy2]. apply option_Z_eqb_eq in Hy2.
  assert (existsb (option_Z_eqb (f x)) (map f r) = true) as G; [|congruence].
  apply existsb_exists. exists (f y). split; [apply in_map, Hy1|].
  apply option_Z_eqb_eq. congruence.
Qed.

Lemma constraints_guests_linked (db : DB) :
  constraints_ok db = true ->
  forallb (fun g => is_some (Guest_task_id g)) (guests db) = true /\
  distinct option_Z_eqb (map Guest_task_id (guests db)) = true.
Proof. unfold constraints_ok. rewrite !andb_true_iff. tauto. Qed.

(** Linking a second guest detaches the first, which the store rejects. *)
Lemma set_task_guest_rejected (db : DB) (task : Task) (guest g : Guest) :
  In g (guests db) -> Guest_task_id g = Some (Task_id task) ->
  constraints_ok (set_task_guest task guest db) = false.
Proof.
  intros Hin Hg.
  destruct (constraints_ok (set_task_guest task guest db)) eqn:E; [|reflexivity].
  apply constraints_guests_linked in E as [E _]. exfalso.
  rewrite forallb_forall in E.
  specialize (E (with_task_id g None)). cbn in E.
  assert (false = true) as F; [|discriminate]. apply E.
  apply in_or_app. left. apply in_map_iff. exists g. split; [|exact Hin].
  rewrite Hg. rewrite (proj2 (option_Z_eqb_eq _ _) eq_refl). reflexivity.
Qed.

Lemma guest_start_on_linked (db : DB) (now : datetime) (fault : store_fault)
    (task_id : Z) (name label manager : string) (g : Guest) (t : Task) :
  get_task db task_id = Some t ->
  In g (guests db) -> Guest_task_id g = Some task_id ->
  guest_start db now fault task_id name label manager = (db, Ret None).
Proof.
  intros Hget Hin Hg. unfold guest_start. unfold_session. rewrite Hget.
  destruct fault; [|reflexivity].
  apply get_task_Some in Hget as [_ Hid].
  rewrite (set_task_guest_rejected db t _ g Hin); [reflexivity|].
  rewrite Hid. exact Hg.
Qed.

(** C7. [guest_start] fails, and leaves the store (so the guests table)
    as it was, when no row has the task id (the assignment on the missing
    row raises to the caller) and when the task already has a linked Guest
    (the commit is rejected, rolled back, and [None] is returned).  In
    particular, after a call that returned a guest id, any second call for
    the same task returns [None], changes nothing, and exactly one Guest
    row is linked to the task. *)
Theorem guest_start_once (db : DB) (now : datetime) (fault : store_fault)
    (task_id : Z) (name label manager : string) :
  constraints_ok db = true ->
  (get_task db task_id = None ->
   guest_start db now fault task_id name label manager
   = (db, Raise AttributeError)) /\
  (get_task db task_id <> None -> linked_guests db task_id <> [] ->
   guest_start db now fault task_id name label manager = (db, Ret None)) /\
  (forall db1 gid,
     guest_start db now fault task_id name label manager
     = (db1, Ret (Some gid)) ->
     length (linked_guests db1 task_id) = 1%nat /\
     forall now2 fault2 name2 label2 manager2,
       guest_start db1 now2 fault2 task_id name2 label2 manager2
       = (db1, Ret None)).
Proof.
  intros Hok. split; [|split].
  - intros Hget. unfold guest_start. unfold_session. rewrite Hget. reflexivity.
  - intros Hget Hlinked.
    destruct (get_task db task_id) as [t|] eqn:Ht; [|contradiction].
    destruct (linked_guests db task_id) as [|g r] eqn:Hl; [contradiction|].
    assert (In g (linked_guests db task_id)) as Hg
      by (rewrite Hl; left; reflexivity).
    apply filter_In in Hg as [Hg1 Hg2]. apply option_Z_eqb_eq in Hg2.
    eapply guest_start_on_linked; eassumption.
  - intros db1 gid. unfold guest_start. unfold_session.
    destruct (get_task db task_id) as [t|] eqn:Ht; [|discriminate].
    destruct fault; [|discriminate].
    destruct (constraints_ok (set_task_guest t _ db)) eqn:Hok1; [|discriminate].
    cbn [store]. intros [= <- <-].
    pose proof Ht as Hid. apply get_task_Some in Hid as [_ Hid].
    match goal with |- context [set_task_guest t ?g db] => set (guest := g) end.
    assert (In (with_task_id guest (Some task_id))
               (linked_guests (set_task_guest t guest db) task_id)) as Hnew.
    { apply filter_In. split.
      - cbn [guests set_task_guest]. apply in_or_app. right. left.
        rewrite Hid. reflexivity.
      - apply option_Z_eqb_eq. reflexivity. }
    split.
    + pose proof (distinct_filter_le1 Guest_task_id (Some task_id)
                    (guests (set_task_guest t guest db))
                    (proj2 (constraints_guests_linked _ Hok1))) as Hle.
      fold (linked_guests (set_task_guest t guest db) task_id) in Hle.
      destruct (linked_guests (set_task_guest t guest db) task_id);
        [contradiction | simpl in *; lia].
    + intros now2 fault2 name2 label2 manager2.
      apply filter_In in Hnew as [Hnew _].
      eapply guest_start_on_linked; [exact Ht | exact Hnew | reflexivity].
Qed.

(** ** C3: what a failed commit leaves behind *)

(** C3 as stated fails: [add_path] whose second commit fails reports
    failure and leaves no Task row, but the Sample row of its first commit
    stays in the store; [guest_stop] whose commit fails returns what it
    returns on success. *)
Lemma failed_add_path_leaves_sample :
  snd (add_path one_file_fs 5 empty_db NoFault StoreError
                (Some "/tmp/a.exe") default_args) = Ret None /\
  tasks (fst (add_path one_file_fs 5 empty_db NoFault StoreError
                       (Some "/tmp/a.exe") default_args)) = [] /\
  samples (fst (add_path one_file_fs 5 empty_db NoFault StoreError
                         (Some "/tmp/a.exe") default_args))
  = [mkSample 1 1024 (Some "PE32 executable") "md5-a" "crc-a" "sha1-a"
              "sha256-a" "sha512-a" None] /\
  samples (fst (add_path one_file_fs 5 empty_db NoFault StoreError
                         (Some "/tmp/a.exe") default_args))
  <> samples empty_db /\
  snd (guest_stop stopped_guest_db 20 StoreError 1)
  = snd (guest_stop stopped_guest_db 20 NoFault 1).
Proof. repeat split. discriminate. Qed.

(** [add], with the session primitives unfolded. *)
Lemma add_commit_task_unfold (db : DB) (fault : store_fault) (task : Task) :
  add_commit_task (new_session db) fault task =
  match fault with
  | StoreError => (db, Ret None)
  | NoFault =>
      if constraints_ok (add_task task db)
      then (add_task task db, Ret (Some (Task_id task)))
      else (db, Ret None)
  end.
Proof.
  unfold add_commit_task. unfold_session. destruct fault; [|reflexivity].
  destruct (constraints_ok _); reflexivity.
Qed.

Lemma add_File_unfold (dflt : datetime) (db : DB) (fault1 fault2 : store_fault)
    (f : FileObj) (a : task_args) :
  add dflt db fault1 fault2 (File f) a =
  let sample :=
    Sample_init (next_id (map Sample_id (samples db)))
                (get_md5 f) (get_crc32 f) (get_sha1 f) (get_sha256 f)
                (get_sha512 f) (get_size f) (get_type f) (get_ssdeep f) in
  match fault1 with
  | StoreError => (db, Raise OperationalError)
  | NoFault =>
      if constraints_ok (add_sample sample db)
      then add_commit_task (new_session (add_sample sample db)) fault2
             (new_task (next_id (map Task_id (tasks db))) dflt (file_path f)
                       "file" (Some (Sample_id sample)) a)
      else match query_sample_by_md5 db (get_md5 f) with
           | None => (db, Raise AttributeError)
           | Some s =>
               add_commit_task (new_session db) fault2
                 (new_task (next_id (map Task_id (tasks db))) dflt
                           (file_path f) "file" (Some (Sample_id s)) a)
           end
  end.
Proof.
  unfold add. unfold_session. destruct fault1; [|reflexivity].
  destruct (constraints_ok _); reflexivity.
Qed.

Lemma add_URL_unfold (dflt : datetime) (db : DB) (fault1 fault2 : store_fault)
    (url : string) (a : task_args) :
  add dflt db fault1 fault2 (URL url) a =
  add_commit_task (new_session db) fault2
    (new_task (next_id (map Task_id (tasks db))) dflt url "url" None a).
Proof. reflexivity. Qed.

(** C3 (as the code has it).  Each commit is atomic.  [_set_status] (the
    status-setting step of a claim), [fetch_and_process], [complete] and
    [guest_start] change the store only when they report success, and
    report success only when the store did not fail the commit; otherwise
    the store is exactly as before.  [guest_stop] leaves the store as it
    was when its commit fails, and returns nothing either way.  [add]
    commits twice for a file: when it does not return a task id, no Task
    row and no Guest row has been added, and the samples table is as
    before or has grown by the one Sample its first commit stored. *)
Theorem failed_commit_rolls_back (added_on_default now : datetime) (db : DB) :
  (forall fault i s,
     match _set_status db fault i s with
     | (db', Ret true) => fault = NoFault
     | (db', _) => db' = db
     end) /\
  (forall fault,
     match fetch_and_process db fault with
     | (db', Ret (Some _)) => fault = NoFault
     | (db', _) => db' = db
     end) /\
  (forall fault i s,
     match complete db now fault i s with
     | (db', Ret true) => fault = NoFault
     | (db', _) => db' = db
     end) /\
  (forall fault i n l m,
     match guest_start db now fault i n l m with
     | (db', Ret (Some _)) => fault = NoFault
     | (db', _) => db' = db
     end) /\
  (forall i,
     guest_stop db now StoreError i = (db, Ret tt) \/
     guest_stop db now StoreError i = (db, Raise AttributeError)) /\
  (forall fault1 fault2 obj a,
     match add added_on_default db fault1 fault2 obj a with
     | (db', Ret (Some _)) => fault2 = NoFault
     | (db', _) =>
         tasks db' = tasks db /\ guests db' = guests db /\
         (samples db' = samples db \/
          exists s, fault1 = NoFault /\ samples db' = samples db ++ [s])
     end).
Proof.
  repeat split.
  - intros fault i s. unfold _set_status. unfold_session.
    destruct (get_task db i); [|reflexivity].
    destruct fault; [|reflexivity].
    destruct (constraints_ok _); reflexivity.
  - intros fault. unfold fetch_and_process. unfold_session.
    destruct (option_map _ _); destruct fault; cbn [work store];
      try reflexivity; destruct (constraints_ok _); reflexivity.
  - intros fault i s. unfold complete. unfold_session.
    destruct (get_task db i); [|reflexivity].
    destruct fault; [|reflexivity].
    destruct (constraints_ok _); reflexivity.
  - intros fault i n l m. unfold guest_start. unfold_session.
    destruct (get_task db i); [|reflexivity].
    destruct fault; [|reflexivity].
    destruct (constraints_ok _); reflexivity.
  - intros i. unfold guest_stop. unfold_session.
    destruct (get_guest db i); auto.
  - intros fault1 fault2 obj a. destruct obj as [f|url].
    + rewrite add_File_unfold. cbn zeta. destruct fault1; [|cbn; auto].
      destruct (constraints_ok (add_sample _ db)) eqn:E1.
      * rewrite add_commit_task_unfold.
        assert (forall s : Sample, samples db ++ [s] = samples db \/
                  exists s', NoFault = NoFault /\ samples db ++ [s] = samples db ++ [s'])
          as Hgrow by (intros s; right; exists s; auto).
        destruct fault2; [|cbn; auto].
        destruct (constraints_ok (add_task _ _)); cbn; auto.
      * destruct (query_sample_by_md5 db (get_md5 f)); [|cbn; auto].
        rewrite add_commit_task_unfold. destruct fault2; [|cbn; eauto].
        destruct (constraints_ok (add_task _ _)); cbn; eauto.
    + rewrite add_URL_unfold, add_commit_task_unfold.
      destruct fault2; [|cbn; eauto].
      destruct (constraints_ok (add_task _ _)); cbn; eauto.
Qed.

(** ** C5: the life of [completed_on] *)

(** C5 as stated fails: a second [complete] on a terminal task replaces
    its [completed_on]. *)
Lemma second_complete_overwrites_completed_on :
  option_map Task_status (get_task completed_once_db 1) = Some success /\
  option_map Task_completed_on (get_task completed_once_db 1)
  = Some (Some 10) /\
  option_map Task_completed_on
    (get_task (fst (complete completed_once_db 20 NoFault 1 true)) 1)
  = Some (Some 20) /\
  option_map Task_completed_on
    (get_task (fst (complete completed_once_db 20 NoFault 1 true)) 1)
  <> option_map Task_completed_on (get_task completed_once_db 1).
Proof. repeat split. discriminate. Qed.

Lemma put_task_keeps_null (db : DB) (t : Task) :
  completed_on_null_while_open db ->
  (Task_status t = pending \/ Task_status t = processing ->
   Task_completed_on t = None) ->
  completed_on_null_while_open (put_task t db).
Proof.
  intros Hinv Ht y Hy. apply (replace_row_In Task_id) in Hy as [->|[Hy _]].
  - exact Ht.
  - apply Hinv, Hy.
Qed.

Lemma add_task_keeps_null (db : DB) (t : Task) :
  completed_on_null_while_open db -> Task_completed_on t = None ->
  completed_on_null_while_open (add_task t db).
Proof.
  intros Hinv Ht y Hy. cbn [tasks add_task] in Hy.
  apply in_app_or in Hy as [Hy|[<-|[]]]; [apply Hinv, Hy | intros _; exact Ht].
Qed.

Lemma add_commit_task_keeps_null (db : DB) (fault : store_fault) (t : Task) :
  completed_on_null_while_open db -> Task_completed_on t = None ->
  completed_on_null_while_open
    (fst (add_commit_task (new_session db) fault t)).
Proof.
  intros Hinv Ht. rewrite add_commit_task_unfold.
  destruct fault; [|exact Hinv].
  destruct (constraints_ok _); [apply add_task_keeps_null; assumption | exact Hinv].
Qed.

Lemma exec_keeps_null (dflt now : datetime) (c : call) (db : DB) :
  (forall fault i, c <> Call_process fault i) ->
  completed_on_null_while_open db ->
  completed_on_null_while_open (exec dflt now c db).
Proof.
  intros Hc Hinv. destruct c; cbn [exec].
  - destruct obj as [f|url].
    + rewrite add_File_unfold. cbn zeta. destruct fault1; [|exact Hinv].
      destruct (constraints_ok (add_sample _ db)).
      * apply add_commit_task_keeps_null; [exact Hinv | reflexivity].
      * destruct (query_sample_by_md5 _ _); [|exact Hinv].
        apply add_commit_task_keeps_null; [exact Hinv | reflexivity].
    + rewrite add_URL_unfold.
      apply add_commit_task_keeps_null; [exact Hinv | reflexivity].
  - unfold fetch_and_process. unfold_session.
    pose proof (query_next_pending_spec db) as Hq.
    destruct (query_next_pending db) as [r|]; cbn [option_map].
    + destruct Hq as (Hin & Hst & _).
      destruct fault; cbn [work store fst]; [|exact Hinv].
      destruct (constraints_ok _); cbn [store fst]; [|exact Hinv].
      apply put_task_keeps_null; [exact Hinv|]. intros _.
      apply (Hinv r Hin). left. exact Hst.
    + destruct fault; cbn [work store fst]; [|exact Hinv].
      destruct (constraints_ok _); exact Hinv.
  - exfalso. eapply Hc. reflexivity.
  - unfold complete. unfold_session.
    destruct (get_task db task_id); cbn [fst]; [|exact Hinv].
    destruct fault; cbn [work store fst]; [|exact Hinv].
    destruct (constraints_ok _); cbn [store fst]; [|exact Hinv].
    apply put_task_keeps_null; [exact Hinv|].
    cbn. destruct success_; intros [H|H]; discriminate.
  - unfold guest_start. unfold_session.
    destruct (get_task db task_id); cbn [fst]; [|exact Hinv].
    destruct fault; cbn [work store fst]; [|exact Hinv].
    destruct (constraints_ok _); cbn [store fst]; exact Hinv.
  - unfold guest_stop. unfold_session.
    destruct (get_guest db guest_id); cbn [fst]; [|exact Hinv].
    destruct fault; cbn [work store fst]; [|exact Hinv].
    destruct (constraints_ok _); cbn [store fst]; exact Hinv.
Qed.

(** C5 (as the code has it).  [completed_on] is null on a task as it is
    created, and stays null while the task is pending or processing under
    every history of [add], [fetch_and_process], [complete], [guest_start]
    and [guest_stop] calls.  [complete] sets it at the transition to
    success or failure, and sets it again on every later successful call:
    after [complete] the field holds the clock reading of that call,
    whatever it held before. *)
Theorem completed_on_lifecycle (added_on_default : datetime) :
  completed_on_null_while_open empty_db /\
  (forall h db,
     (forall now c, In (now, c) h -> forall fault i, c <> Call_process fault i) ->
     completed_on_null_while_open db ->
     completed_on_null_while_open (run_history added_on_default h db)) /\
  (forall db now i s t0,
     constraints_ok db = true -> get_task db i = Some t0 ->
     exists t,
       get_task (fst (complete db now NoFault i s)) i = Some t /\
       Task_completed_on t = Some now).
Proof.
  split; [|split].
  - intros t [].
  - intros h. induction h as [|[now c] h IH]; intros db Hc Hinv; [exact Hinv|].
    cbn [run_history fold_left]. apply IH.
    + intros now' c' Hin. apply (Hc now' c'). right. exact Hin.
    + apply exec_keeps_null; [|exact Hinv]. apply (Hc now c). left. reflexivity.
  - intros db now i s t0 Hok Hget.
    pose proof (complete_cases db now i s Hok) as H.
    rewrite Hget in H. destruct H as (t & db' & E & Hg & _ & Hc & _).
    exists t. rewrite E. split; assumption.
Qed.

(** ** C6: [added_on] *)

(** C6 (where the code departs from it).  The two tasks were created at
    different times, 10 and 20, yet both carry the same [added_on], the
    time 5 at which the class was defined: [add] never reads the clock. *)
Theorem added_on_is_class_definition_time :
  map Task_id (tasks two_urls_db) = [1; 2] /\
  map Task_added_on (tasks two_urls_db) = [5; 5] /\
  option_map Task_added_on (get_task two_urls_db 1)
  = option_map Task_added_on (get_task two_urls_db 2).
Proof. repeat split. Qed.

(** Whenever [add] creates a task, its [added_on] is the column default,
    not the time of the call. *)
Lemma add_sets_added_on_default (dflt : datetime) (db db' : DB)
    (fault1 fault2 : store_fault) (obj : target_obj) (a : task_args) (id : Z) :
  add dflt db fault1 fault2 obj a = (db', Ret (Some id)) ->
  exists t, tasks db' = tasks db ++ [t] /\ Task_id t = id /\
            Task_added_on t = dflt.
Proof.
  assert (forall d t, add_commit_task (new_session d) fault2 t
                      = (db', Ret (Some id)) ->
                      tasks db' = tasks d ++ [t] /\ Task_id t = id) as Hc.
  { intros d t. rewrite add_commit_task_unfold. destruct fault2; [|discriminate].
    destruct (constraints_ok _); [|discriminate].
    intros [= <- <-]. split; reflexivity. }
  destruct obj as [f|url].
  - rewrite add_File_unfold. cbn zeta. destruct fault1; [|discriminate].
    destruct (constraints_ok (add_sample _ db)).
    + intros H. apply Hc in H as [H1 H2]. eexists. split; [exact H1|].
      split; [exact H2 | reflexivity].
    + destruct (query_sample_by_md5 _ _); [|discriminate].
      intros H. apply Hc in H as [H1 H2]. eexists. split; [exact H1|].
      split; [exact H2 | reflexivity].
  - rewrite add_URL_unfold. intros H. apply Hc in H as [H1 H2].
    eexists. split; [exact H1|]. split; [exact H2 | reflexivity].
Qed.

Lemma get_add_task_old (db : DB) (t t0 : Task) (i : Z) :
  get_task db i = Some t0 -> get_task (add_task t db) i = Some t0.
Proof.
  unfold get_task. cbn [tasks add_task].
  induction (tasks db) as [|x r IH]; simpl; [discriminate|].
  destruct (Task_id x =? i); [auto | exact IH].
Qed.

Lemma get_put_task_added_on (db : DB) (r r' : Task) (i : Z) (t : Task) :
  distinct Z.eqb (map Task_id (tasks db)) = true ->
  In r (tasks db) -> Task_id r' = Task_id r ->
  Task_added_on r' = Task_added_on r ->
  get_task db i = Some t ->
  exists t', get_task (put_task r' db) i = Some t' /\
             Task_added_on t' = Task_added_on t.
Proof.
  intros Hd Hin Hid Hadd Hget.
  destruct (Z.eq_dec i (Task_id r')) as [->|Hne].
  - rewrite get_put_task_eq, Hget. exists r'. split; [reflexivity|].
    rewrite Hid, (get_task_In db r Hd Hin) in Hget. congruence.
  - rewrite (get_put_task_ne r' db i Hne). eauto.
Qed.

(** No operation changes the [added_on] of a stored task. *)
Lemma added_on_never_modified (dflt now : datetime) (c : call) (db : DB)
    (i : Z) (t : Task) :
  constraints_ok db = true -> get_task db i = Some t ->
  exists t', get_task (exec dflt now c db) i = Some t' /\
             Task_added_on t' = Task_added_on t.
Proof.
  intros Hok Hget. pose proof (constraints_task_ids db Hok) as Hd. clear Hok.
  assert (forall d fault x, get_task d i = Some t ->
            exists t', get_task (fst (add_commit_task (new_session d) fault x)) i
                       = Some t' /\ Task_added_on t' = Task_added_on t) as Hc.
  { intros d fault x Hg. rewrite add_commit_task_unfold.
    destruct fault; [|eauto]. destruct (constraints_ok _); cbn [fst]; [|eauto].
    exists t. split; [apply get_add_task_old, Hg | reflexivity]. }
  destruct c; cbn [exec].
  - destruct obj as [f|url].
    + rewrite add_File_unfold. cbn zeta. destruct fault1; [|eauto].
      destruct (constraints_ok (add_sample _ db)); [apply Hc, Hget|].
      destruct (query_sample_by_md5 _ _); [apply Hc, Hget | eauto].
    + rewrite add_URL_unfold. apply Hc, Hget.
  - unfold fetch_and_process. unfold_session.
    pose proof (query_next_pending_spec db) as Hq.
    destruct (query_next_pending db) as [r|]; cbn [option_map].
    + destruct Hq as (Hin & _).
      destruct fault; cbn [work store fst]; [|eauto].
      destruct (constraints_ok _); cbn [store fst]; [|eauto].
      eapply get_put_task_added_on; eauto.
    + destruct fault; cbn [work store fst]; [|eauto].
      destruct (constraints_ok _); eauto.
  - unfold process, _set_status. unfold_session.
    destruct (get_task db task_id) as [r|] eqn:Hr; cbn [fst]; [|eauto].
    destruct fault; cbn [work store fst]; [|eauto].
    destruct (constraints_ok _); cbn [store fst]; [|eauto].
    apply get_task_Some in Hr as [Hin _].
    eapply get_put_task_added_on; eauto.
  - unfold complete. unfold_session.
    destruct (get_task db task_id) as [r|] eqn:Hr; cbn [fst]; [|eauto].
    destruct fault; cbn [work store fst]; [|eauto].
    destruct (constraints_ok _); cbn [store fst]; [|eauto].
    apply get_task_Some in Hr as [Hin _].
    eapply get_put_task_added_on; eauto.
  - unfold guest_start. unfold_session.
    destruct (get_task db task_id); cbn [fst]; [|eauto].
    destruct fault; cbn [work store fst]; [|eauto].
    destruct (constraints_ok _); cbn [store fst]; eauto.
  - unfold guest_stop. unfold_session.
    destruct (get_guest db guest_id); cbn [fst]; [|eauto].
    destruct fault; cbn [work store fst]; [|eauto].
    destruct (constraints_ok _); cbn [store fst]; eauto.
Qed.

(** ** C2: inserting a sample that is already stored *)

(** C2 (where the code departs from it).  The two files differ in four of
    the five hashes, so both get a Sample row (ids 1 and 2).  The second
    insert of file b is rejected by the hash index; the fallback looks the
    sample up by MD5 alone and gets the row of file a: the two tasks for
    file b carry different sample ids, 2 and 1, and the last one refers to
    a sample whose hash tuple is not that of its file. *)
Theorem add_requeries_by_md5_only :
  map Sample_id (samples collision_db) = [1; 2] /\
  map Task_target (tasks collision_db) = ["/tmp/a"; "/tmp/b"; "/tmp/b"] /\
  map Task_sample_id (tasks collision_db) = [Some 1; Some 2; Some 1] /\
  option_map Sample_hashes (get_sample collision_db 2)
  = Some (get_md5 colliding_b, get_crc32 colliding_b, get_sha1 colliding_b,
          get_sha256 colliding_b, get_sha512 colliding_b) /\
  option_map Sample_hashes (get_sample collision_db 1)
  <> Some (get_md5 colliding_b, get_crc32 colliding_b, get_sha1 colliding_b,
           get_sha256 colliding_b, get_sha512 colliding_b).
Proof. repeat split. discriminate. Qed.

Section Distinct.
Context {A : Type} (eqb : A -> A -> bool).

Lemma distinct_snoc_true (l : list A) (x : A) :
  (forall y, In y l -> eqb y x = false) ->
  distinct eqb l = true -> distinct eqb (l ++ [x]) = true.
Proof.
  induction l as [|y r IH]; intros Hx Hd; [reflexivity|].
  simpl in *. apply andb_true_iff in Hd as [Hy Hr].
  apply andb_true_iff. split.
  - rewrite existsb_app. simpl. rewrite (Hx y (or_introl eq_refl)).
    rewrite !orb_false_r. exact Hy.
  - apply IH; [|exact Hr]. intros z Hz. apply Hx. right. exact Hz.
Qed.

Lemma distinct_snoc_false (l : list A) (x y : A) :
  In y l -> eqb y x = true -> distinct eqb (l ++ [x]) = false.
Proof.
  induction l as [|z r IH]; intros Hin He; [contradiction|].
  simpl. destruct Hin as [->|Hin].
  - rewrite existsb_app. simpl. rewrite He, orb_true_r. reflexivity.
  - rewrite (IH Hin He). apply andb_false_r.
Qed.
End Distinct.

Lemma fold_max_ge (ids : list Z) (x : Z) :
  In x ids -> x <= fold_right Z.max 0 ids.
Proof.
  induction ids as [|y r IH]; simpl; [contradiction|].
  intros [->|H]; [lia | specialize (IH H); lia].
Qed.

(** The id the store assigns is not in use. *)
Lemma next_id_fresh (ids : list Z) : ~ In (next_id ids) ids.
Proof. intros H. apply fold_max_ge in H. unfold next_id in H. lia. Qed.

(** A new task row with the assigned id is accepted by the store. *)
Lemma add_task_constraints (db : DB) (t : Task) :
  constraints_ok db = true ->
  Task_id t = next_id (map Task_id (tasks db)) ->
  constraints_ok (add_task t db) = true.
Proof.
  unfold constraints_ok. cbn [tasks samples guests add_task].
  rewrite !andb_true_iff. intros [[[[[[H1 H2] H3] H4] H5] H6] H7] Hid.
  repeat split; try assumption.
  rewrite map_app. cbn [map]. apply distinct_snoc_true; [|exact H1].
  intros y Hy. apply Z.eqb_neq. intros ->. rewrite Hid in Hy.
  exact (next_id_fresh _ Hy).
Qed.

Lemma hash_tuple_eqb_eq (a b : hash_tuple) : hash_tuple_eqb a b = true <-> a = b.
Proof.
  destruct a as [[[[a1 a2] a3] a4] a5], b as [[[[b1 b2] b3] b4] b5].
  unfold hash_tuple_eqb. rewrite !andb_true_iff, !String.eqb_eq.
  split; [intros [[[[-> ->] ->] ->] ->]; reflexivity | intros [= -> -> -> -> ->]; auto].
Qed.

(** When the hash tuple of the file is already stored and no other stored
    sample shares its MD5, [add] keeps the samples table as it is and
    links the new task to the stored sample. *)
Lemma add_existing_sample (dflt : datetime) (db : DB) (f : FileObj)
    (a : task_args) (s : Sample) :
  constraints_ok db = true ->
  In s (samples db) -> Sample_hashes s = File_hashes f ->
  (forall s', In s' (samples db) -> Sample_md5 s' = get_md5 f -> s' = s) ->
  exists t,
    add dflt db NoFault NoFault (File f) a
    = (add_task t db, Ret (Some (Task_id t))) /\
    Task_sample_id t = Some (Sample_id s) /\
    samples (add_task t db) = samples db.
Proof.
  intros Hok Hin Hh Hmd5. rewrite add_File_unfold. cbn zeta.
  match goal with |- context [add_sample ?x db] => set (new := x) end.
  assert (constraints_ok (add_sample new db) = false) as ->.
  { unfold constraints_ok. cbn [tasks samples guests add_sample].
    rewrite (map_app Sample_hashes).
    change (map Sample_hashes [new]) with [Sample_hashes new].
    rewrite (distinct_snoc_false hash_tuple_eqb (map Sample_hashes (samples db))
               (Sample_hashes new) (Sample_hashes s)).
    - rewrite !andb_false_r. reflexivity.
    - apply in_map, Hin.
    - apply hash_tuple_eqb_eq. rewrite Hh. reflexivity. }
  assert (query_sample_by_md5 db (get_md5 f) = Some s) as ->.
  { unfold query_sample_by_md5.
    assert (In s (List.filter (fun x => String.eqb (Sample_md5 x) (get_md5 f))
                              (samples db))) as Hs.
    { apply filter_In. split; [exact Hin|]. apply String.eqb_eq.
      unfold Sample_hashes, File_hashes in Hh. congruence. }
    destruct (List.filter _ (samples db)) as [|s' r] eqn:F; [contradiction|].
    assert (In s' (List.filter (fun x => String.eqb (Sample_md5 x) (get_md5 f))
                               (samples db))) as Hs'
      by (rewrite F; left; reflexivity).
    apply filter_In in Hs' as [Hs1 Hs2]. apply String.eqb_eq in Hs2.
    cbn. f_equal. apply Hmd5; assumption. }
  rewrite add_commit_task_unfold, add_task_constraints;
    [|exact Hok | reflexivity].
  eexists. split; [reflexivity|]. split; reflexivity.
Qed.

(** * The statements at concrete stores *)

(** Successive claims return C, then B, then A, then nothing. *)
Example claim_order_C_B_A :
  let '(db1, r1) := fetch_and_process abc_db NoFault in
  let '(db2, r2) := fetch_and_process db1 NoFault in
  let '(db3, r3) := fetch_and_process db2 NoFault in
  let '(db4, r4) := fetch_and_process db3 NoFault in
  match r1, r2, r3, r4 with
  | Ret (Some c), Ret (Some b), Ret (Some a), Ret None =>
      (Task_target c, Task_target b, Task_target a) = ("C", "B", "A") /\
      map Task_status (tasks db4) = [processing; processing; processing]
  | _, _, _, _ => False
  end.
Proof. cbn. split; reflexivity. Qed.

(** C1 on the store of A, B and C. *)
Lemma fetch_and_process_claims_witness :
  let db := abc_db in
  let fault := NoFault in
  constraints_ok db = true /\
  match fetch_and_process db fault with
  | (db', Ret (Some t)) =>
      fault = NoFault /\
      exists r,
        In r (tasks db) /\ Task_status r = pending /\
        (forall x, In x (tasks db) -> Task_status x = pending ->
           Task_priority x <= Task_priority r /\
           (Task_priority x = Task_priority r ->
            Task_added_on r <= Task_added_on x)) /\
        t = with_status r processing /\
        db' = put_task t db /\
        get_task db' (Task_id r) = Some t /\
        Task_status t = processing /\
        (forall i, i <> Task_id r -> get_task db' i = get_task db i)
  | (db', Ret None) =>
      db' = db /\
      (fault = StoreError \/
       forall x, In x (tasks db) -> Task_status x <> pending)
  | (_, Raise _) => False
  end.
Proof.
  split; [reflexivity|].
  apply (fetch_and_process_claims abc_db NoFault). reflexivity.
Defined.

(** C4 on the claimed task. *)
Lemma complete_sets_status_or_fails_witness :
  constraints_ok claimed_db = true /\
  exists t db',
    complete claimed_db 10 NoFault 1 true = (db', Ret true) /\
    get_task db' 1 = Some t /\
    Task_status t = success /\
    Task_completed_on t = Some 10 /\
    Task_completed_on t <> None /\
    (forall i, i <> 1 -> get_task db' i = get_task claimed_db i) /\
    samples db' = samples claimed_db /\ guests db' = guests claimed_db.
Proof.
  split; [reflexivity|].
  apply (complete_sets_status_or_fails claimed_db 10 1 true). reflexivity.
Defined.

(** C7 on the claimed task: a first guest, then a second. *)
Lemma guest_start_once_witness :
  constraints_ok claimed_db = true /\
  guest_start claimed_db 3 NoFault 1 "vm" "label" "kvm"
  = (fst (guest_start claimed_db 3 NoFault 1 "vm" "label" "kvm"),
     Ret (Some 1)) /\
  length (linked_guests
            (fst (guest_start claimed_db 3 NoFault 1 "vm" "label" "kvm")) 1)
  = 1%nat /\
  guest_start (fst (guest_start claimed_db 3 NoFault 1 "vm" "label" "kvm"))
              4 NoFault 1 "vm2" "label2" "kvm"
  = (fst (guest_start claimed_db 3 NoFault 1 "vm" "label" "kvm"), Ret None).
Proof.
  split; [reflexivity|]. split; [reflexivity|].
  destruct (guest_start_once claimed_db 3 NoFault 1 "vm" "label" "kvm" eq_refl)
    as (_ & _ & H).
  destruct (H (fst (guest_start claimed_db 3 NoFault 1 "vm" "label" "kvm")) 1
              eq_refl) as [H1 H2].
  split; [exact H1 | apply H2].
Defined.

(** C8 (as the code has it) on the guest that was already shut down. *)
Lemma guest_stop_behaviour_witness :
  constraints_ok stopped_guest_db = true /\
  exists g db',
    guest_stop stopped_guest_db 20 NoFault 1 = (db', Ret tt) /\
    get_guest db' 1 = Some g /\
    g = with_shutdown_on
          (mkGuest 1 "vm" "label" "manager" 7 (Some 10) (Some 1)) (Some 20) /\
    Guest_shutdown_on g = Some 20 /\
    (forall i, i <> 1 -> get_guest db' i = get_guest stopped_guest_db i) /\
    tasks db' = tasks stopped_guest_db /\
    samples db' = samples stopped_guest_db.
Proof.
  split; [reflexivity|].
  apply (guest_stop_behaviour stopped_guest_db 20 NoFault 1). reflexivity.
Defined.

(** C9 on a path the file system does not have. *)
Lemma add_path_missing_creates_nothing_witness :
  (Some "/tmp/missing" = None \/ Some "/tmp/missing" = Some "" \/
   exists p, Some "/tmp/missing" = Some p /\ one_file_fs p = None) /\
  add_path one_file_fs 5 claimed_db NoFault NoFault (Some "/tmp/missing")
           default_args = (claimed_db, Ret None).
Proof.
  assert (Some "/tmp/missing" = None \/ Some "/tmp/missing" = Some "" \/
          exists p, Some "/tmp/missing" = Some p /\ one_file_fs p = None) as H
    by (right; right; exists "/tmp/missing"; split; reflexivity).
  split; [exact H|].
  apply (add_path_missing_creates_nothing one_file_fs 5 claimed_db NoFault
           NoFault (Some "/tmp/missing") default_args H).
Defined.

(** C5 (as the code has it) on the claimed and on the completed task. *)
Lemma completed_on_lifecycle_witness :
  completed_on_null_while_open claimed_db /\
  exists t,
    get_task (fst (complete completed_once_db 20 NoFault 1 true)) 1 = Some t /\
    Task_completed_on t = Some 20.
Proof.
  destruct (completed_on_lifecycle 5) as (H0 & Hrun & Hc). split.
  - apply Hrun; [|exact H0].
    intros now c [E|[E|[]]] fault i; inversion E; discriminate.
  - eapply Hc; reflexivity.
Defined.


(** * Properties of the reporting engine *)

Local Open Scope nat_scope.

(** ** Redirecting references *)

Lemma val_covered_mono (m m' : gmap loc loc) (v : pyval) :
  m ⊆ m' -> val_covered m v -> val_covered m' v.
Proof.
  intros Hsub. destruct v as [| | | |l]; simpl; auto.
  intros [y Hy]. exists y. eapply lookup_weaken; eassumption.
Qed.

Lemma rename_mono (m m' : gmap loc loc) (v : pyval) :
  m ⊆ m' -> val_covered m v -> rename m' v = rename m v.
Proof.
  intros Hsub. destruct v as [| | | |l]; simpl; auto.
  intros [y Hy]. rewrite Hy, (lookup_weaken _ _ _ _ Hy Hsub). reflexivity.
Qed.

Lemma rename_obj_mono (m m' : gmap loc loc) (o : pyobj) :
  m ⊆ m' -> Forall (val_covered m) (obj_values o) ->
  rename_obj m' o = rename_obj m o.
Proof.
  intros Hsub Hcov. destruct o as [d|l]; simpl in *; f_equal.
  - apply map_fmap_ext. intros i x Hx. apply rename_mono; [exact Hsub|].
    rewrite Forall_forall in Hcov. apply Hcov.
    apply list_elem_of_fmap. exists (i, x). split; [reflexivity|].
    apply elem_of_map_to_list, Hx.
  - apply Forall_fmap_ext. eapply Forall_impl; [exact Hcov|].
    intros x Hx. apply rename_mono; assumption.
Qed.

Lemma Forall_covered_mono (m m' : gmap loc loc) (l : list pyval) :
  m ⊆ m' -> Forall (val_covered m) l -> Forall (val_covered m') l.
Proof.
  intros Hsub H. eapply Forall_impl; [exact H|].
  intros v. apply val_covered_mono, Hsub.
Qed.

(** A covered value, redirected, refers into the region of the copies. *)
Lemma rename_in_range (n0 b : nat) (m : gmap loc loc) (h : heap) (v : pyval) :
  copy_inv n0 b m h -> val_covered m v ->
  val_in_range b (length h) (rename m v).
Proof.
  intros Hinv. destruct v as [| | | |l]; simpl; auto.
  intros [y Hy]. rewrite Hy. simpl. apply (inv_memo _ _ _ _ Hinv l y Hy).
Qed.

(** ** The invariant of a copy under way *)

Lemma copy_inv_insert (n0 b : nat) (m : gmap loc loc) (h : heap)
    (y : loc) (o : pyobj) :
  copy_inv n0 b m h -> b <= y ->
  (forall v, v ∈ obj_values o -> val_in_range b (length h) v) ->
  copy_inv n0 b m (<[y := o]> h).
Proof.
  intros [Hb Hs Hm Hi Hr] Hy Ho. constructor.
  - rewrite length_insert. exact Hb.
  - intros l o' v Hl. rewrite list_lookup_insert_ne by lia. apply Hs, Hl.
  - intros l k Hk. rewrite length_insert. apply Hm, Hk.
  - exact Hi.
  - intros k o' v Hk. rewrite length_insert.
    destruct (decide (y = k)) as [->|Hne].
    + intros Hlk Hv. apply list_lookup_insert_Some in Hlk as [(_ & <- & _)|[? _]];
        [apply Ho, Hv | congruence].
    + rewrite list_lookup_insert_ne by exact Hne. apply Hr, Hk.
Qed.

Lemma copy_inv_alloc (n0 b : nat) (m : gmap loc loc) (h : heap)
    (l : loc) (o : pyobj) :
  copy_inv n0 b m h -> l < n0 -> m !! l = None -> obj_values o = [] ->
  copy_inv n0 b (<[l := length h]> m) (h ++ [o]).
Proof.
  intros [Hb Hs Hm Hi Hr] Hl Hnone Ho. constructor.
  - rewrite length_app. simpl. lia.
  - intros l' o' v Hl'. rewrite lookup_app_l by lia. apply Hs, Hl'.
  - intros l' k. rewrite length_app. simpl.
    destruct (decide (l = l')) as [<-|Hne].
    + rewrite lookup_insert_eq. intros [= <-]. lia.
    + rewrite lookup_insert_ne by exact Hne. intros Hk.
      apply Hm in Hk. lia.
  - intros l1 l2 k.
    destruct (decide (l = l1)) as [<-|Hne1], (decide (l = l2)) as [<-|Hne2];
      rewrite ?lookup_insert_eq, ?lookup_insert_ne by assumption; auto.
    + intros [= <-] Hk. apply Hm in Hk. lia.
    + intros Hk [= <-]. apply Hm in Hk. lia.
    + apply Hi.
  - intros k o' v Hk Hlk Hv. rewrite length_app. simpl.
    destruct (decide (k < length h)) as [Hlt|Hge].
    + rewrite lookup_app_l in Hlk by exact Hlt.
      pose proof (Hr k o' v Hk Hlk Hv) as Hin.
      destruct v; simpl in *; auto. lia.
    + rewrite lookup_app_r in Hlk by lia.
      destruct (k - length h) as [|k'] eqn:E; simpl in Hlk; [|discriminate].
      injection Hlk as <-. rewrite Ho in Hv. inversion Hv.
Qed.

Lemma copy_post_refl (n0 b : nat) (m : gmap loc loc) (h : heap) :
  copy_inv n0 b m h -> copy_post n0 b m h m h.
Proof.
  intros Hinv. constructor; [exact Hinv | reflexivity | lia |].
  intros l y H1 H2. congruence.
Qed.

(** ** The loop that copies the items of one object *)

Section CopyItems.
Context {K : Type} (n0 b fuel : nat) (y : loc).
Variable rec :
  pyval -> gmap loc loc -> heap -> option (pyval * gmap loc loc * heap).
Variable put : K -> pyval -> heap -> heap.
Variable mk : list (K * pyval) -> pyobj.

(** The recursive calls behave: they end, extend the memo, leave every
    object that existed untouched, and answer with the redirected value. *)
Hypothesis rec_ok : forall a m h,
  copy_inv n0 b m h -> val_in n0 a -> n0 <= fuel + size m ->
  exists a' m' h',
    rec a m h = Some (a', m', h') /\
    copy_post n0 b m h m' h' /\
    (forall k, k < length h -> h' !! k = h !! k) /\
    a' = rename m' a /\ val_covered m' a.

(** [put] stores one more item into the object being built at [y]. *)
Hypothesis put_ok : forall k v h acc,
  h !! y = Some (mk acc) -> put k v h = <[y := mk (acc ++ [(k, v)])]> h.
Hypothesis mk_values : forall acc k v w,
  w ∈ obj_values (mk (acc ++ [(k, v)])) -> w = v \/ w ∈ obj_values (mk acc).

Lemma copy_items_ok (items : list (K * pyval)) :
  forall acc m h,
    copy_inv n0 b m h -> Forall (val_in n0) items.*2 ->
    n0 <= fuel + size m -> b <= y -> h !! y = Some (mk acc) ->
    exists m' h',
      copy_items rec put items m h = Some (m', h') /\
      copy_post n0 b m h m' h' /\
      (forall k, k < length h -> k <> y -> h' !! k = h !! k) /\
      h' !! y = Some (mk (acc ++ rename_items m' items)) /\
      Forall (val_covered m') items.*2.
Proof.
  induction items as [|[k a] rest IH]; intros acc m h Hinv Hin Hfuel Hby Hy.
  - exists m, h. simpl. rewrite app_nil_r.
    split; [reflexivity|]. split; [apply copy_post_refl, Hinv|].
    split; [auto|]. split; [exact Hy | constructor].
  - cbn [fmap list_fmap snd] in Hin. apply Forall_cons in Hin as [Ha Hrest].
    destruct (rec_ok a m h Hinv Ha Hfuel)
      as (a' & m1 & h1 & Hrec & [Hinv1 Hsub1 Hlen1 Hnew1] & Hframe1 & -> & Hcov1).
    assert (y < length h) as Hylt by (eapply lookup_lt_Some; exact Hy).
    assert (h1 !! y = Some (mk acc)) as Hy1 by (rewrite Hframe1; assumption).
    assert (copy_inv n0 b m1 (put k (rename m1 a) h1)) as Hinv1'.
    { rewrite (put_ok _ _ _ _ Hy1). apply copy_inv_insert; [exact Hinv1 | exact Hby|].
      intros w Hw. apply mk_values in Hw as [->|Hw].
      - eapply rename_in_range; eassumption.
      - eapply (inv_region _ _ _ _ Hinv1); eassumption. }
    assert (put k (rename m1 a) h1 !! y
            = Some (mk ((acc ++ [(k, rename m1 a)])))) as Hy1'.
    { rewrite (put_ok _ _ _ _ Hy1). apply list_lookup_insert_eq. lia. }
    assert (length (put k (rename m1 a) h1) = length h1) as Hlen1'.
    { rewrite (put_ok _ _ _ _ Hy1). apply length_insert. }
    destruct (IH (acc ++ [(k, rename m1 a)]) m1 (put k (rename m1 a) h1)
                Hinv1' Hrest)
      as (m' & h' & Hloop & [Hinv2 Hsub2 Hlen2 Hnew2] & Hframe2 & Hy2 & Hcov2);
      [pose proof (map_subseteq_size _ _ Hsub1); lia | exact Hby | exact Hy1' |].
    exists m', h'. simpl. rewrite Hrec.
    split; [exact Hloop|]. split; [|split; [|split]].
    + constructor.
      * exact Hinv2.
      * etrans; eassumption.
      * lia.
      * intros l y' Hl' Hl.
        destruct (m1 !! l) as [y1|] eqn:Hl1.
        -- pose proof (lookup_weaken _ _ _ _ Hl1 Hsub2) as E.
           rewrite Hl' in E. injection E as ->.
           destruct (Hnew1 l y1 Hl1 Hl) as (Hge & o & Ho & Ho1 & Hc).
           split; [exact Hge|]. exists o. split; [exact Ho|]. split.
           ++ rewrite Hframe2.
              ** rewrite (put_ok _ _ _ _ Hy1), list_lookup_insert_ne by lia.
                 rewrite Ho1. f_equal. symmetry.
                 apply rename_obj_mono; assumption.
              ** rewrite Hlen1'. eapply lookup_lt_Some; exact Ho1.
              ** lia.
           ++ eapply Forall_covered_mono; eassumption.
        -- destruct (Hnew2 l y' Hl' Hl1) as (Hge & o & Ho & Ho2 & Hc).
           split; [lia|]. exists o. split; [|split; assumption].
           pose proof (inv_memo _ _ _ _ Hinv2 l y' Hl') as [Hln _].
           pose proof (inv_bounds _ _ _ _ Hinv) as Hb.
           rewrite (put_ok _ _ _ _ Hy1), list_lookup_insert_ne in Ho by lia.
           rewrite Hframe1 in Ho by lia. exact Ho.
    + intros k' Hk' Hne. rewrite Hframe2 by lia.
      rewrite (put_ok _ _ _ _ Hy1), list_lookup_insert_ne by lia.
      apply Hframe1, Hk'.
    + rewrite Hy2. rewrite <- app_assoc. unfold rename_items.
      cbn [fmap list_fmap fst snd app].
      rewrite (rename_mono m1 m' a Hsub2 Hcov1). reflexivity.
    + cbn [fmap list_fmap snd]. constructor; [|exact Hcov2].
      eapply val_covered_mono; eassumption.
Qed.
End CopyItems.

(** ** Storing into a list and into a dict *)

Lemma list_append_ok (y : loc) (k : unit) (v : pyval) (h : heap)
    (acc : list (unit * pyval)) :
  h !! y = Some (list_of_items acc) ->
  list_append y k v h = <[y := list_of_items (acc ++ [(k, v)])]> h.
Proof.
  intros Hy. unfold list_append, list_of_items in *. rewrite Hy.
  rewrite fmap_app. reflexivity.
Qed.

Lemma list_of_items_values (acc : list (unit * pyval)) (k : unit) (v w : pyval) :
  w ∈ obj_values (list_of_items (acc ++ [(k, v)])) ->
  w = v \/ w ∈ obj_values (list_of_items acc).
Proof.
  unfold list_of_items. simpl. rewrite fmap_app. simpl.
  intros [H|H%list_elem_of_singleton]%elem_of_app; auto.
Qed.

Lemma dict_setitem_ok (y : loc) (k : string) (v : pyval) (h : heap)
    (acc : list (string * pyval)) :
  h !! y = Some (dict_of_items acc) ->
  dict_setitem y k v h = <[y := dict_of_items (acc ++ [(k, v)])]> h.
Proof.
  intros Hy. unfold dict_setitem, dict_of_items in *. rewrite Hy.
  rewrite foldl_snoc. reflexivity.
Qed.

Lemma dict_of_items_values (acc : list (string * pyval)) (k : string)
    (v w : pyval) :
  w ∈ obj_values (dict_of_items (acc ++ [(k, v)])) ->
  w = v \/ w ∈ obj_values (dict_of_items acc).
Proof.
  unfold dict_of_items. rewrite foldl_snoc. simpl.
  intros ([i x] & -> & Hix)%list_elem_of_fmap.
  apply elem_of_map_to_list, lookup_insert_Some in Hix as [[_ <-]|[_ Hix]].
  - left. reflexivity.
  - right. apply list_elem_of_fmap. exists (i, x). split; [reflexivity|].
    apply elem_of_map_to_list, Hix.
Qed.

Lemma foldl_insert_list_to_map (l : list (string * pyval)) :
  NoDup l.*1 ->
  foldl (fun (d : gmap string pyval) kv => <[kv.1 := kv.2]> d) ∅ l
  = list_to_map l.
Proof.
  induction l as [|[i x] l IH] using rev_ind; intros Hnd; [reflexivity|].
  rewrite fmap_app in Hnd. apply NoDup_app in Hnd as (Hl & Hdis & _).
  rewrite foldl_snoc, IH by exact Hl. simpl.
  rewrite list_to_map_snoc; [reflexivity|].
  intros Hin. apply (Hdis i Hin). simpl. apply list_elem_of_singleton.
  reflexivity.
Qed.

(** The dict built from the redirected items of [d] is [d] redirected. *)
Lemma dict_of_renamed_items (m : gmap loc loc) (d : gmap string pyval) :
  dict_of_items (rename_items m (map_to_list d)) = rename_obj m (PyDict d).
Proof.
  unfold dict_of_items, rename_items. simpl. f_equal.
  rewrite foldl_insert_list_to_map.
  - change (fun kv : string * pyval => (kv.1, rename m kv.2))
      with (prod_map (@id string) (rename m)).
    rewrite list_to_map_fmap, list_to_map_to_list. reflexivity.
  - rewrite <- list_fmap_compose.
    replace ((map_to_list d).*1) with (fst <$> map_to_list d) by reflexivity.
    erewrite (list_fmap_ext _ fst); [apply NoDup_fst_map_to_list|].
    intros ? [? ?]. reflexivity.
Qed.

Lemma list_of_renamed_items (m : gmap loc loc) (xs : list pyval) :
  list_of_items (rename_items m ((fun a => (tt, a)) <$> xs))
  = rename_obj m (PyList xs).
Proof.
  unfold list_of_items, rename_items. simpl. f_equal.
  rewrite <- !list_fmap_compose. apply list_fmap_ext. intros ? ?. reflexivity.
Qed.

(** ** The memo is never full while an object is missing from it *)

Lemma memo_not_full (n0 b : nat) (m : gmap loc loc) (h : heap) (l : loc) :
  copy_inv n0 b m h -> l < n0 -> m !! l = None -> size m < n0.
Proof.
  intros Hinv Hl Hnone.
  assert (dom m ⊆ (set_seq 0 n0 : gset nat) ∖ {[l]}) as Hsub.
  { intros k Hk. apply elem_of_dom in Hk as [y Hy].
    apply elem_of_difference. split.
    - apply elem_of_set_seq. apply (inv_memo _ _ _ _ Hinv) in Hy. lia.
    - intros ->%elem_of_singleton. congruence. }
  apply subseteq_size in Hsub. rewrite size_dom in Hsub.
  rewrite size_difference, size_set_seq, size_singleton in Hsub.
  - lia.
  - intros k ->%elem_of_singleton. apply elem_of_set_seq. lia.
Qed.

(** ** [deepcopy_memo] ends and copies *)

Lemma deepcopy_memo_ok (n0 b fuel : nat) :
  forall x m h,
    copy_inv n0 b m h -> val_in n0 x -> n0 <= fuel + size m ->
    exists x' m' h',
      deepcopy_memo fuel x m h = Some (x', m', h') /\
      copy_post n0 b m h m' h' /\
      (forall k, k < length h -> h' !! k = h !! k) /\
      x' = rename m' x /\ val_covered m' x.
Proof.
  induction fuel as [|fuel IH]; intros x m h Hinv Hx Hfuel.
  - destruct x as [| | | |l];
      try (eexists _, m, h; simpl;
           split; [reflexivity|]; split; [apply copy_post_refl, Hinv|];
           split; [auto|]; split; [reflexivity | exact I]).
    simpl. destruct (m !! l) as [y|] eqn:Hl.
    + exists (VRef y), m, h. split; [reflexivity|].
      split; [apply copy_post_refl, Hinv|]. split; [auto|].
      simpl. rewrite Hl. split; [reflexivity | eauto].
    + pose proof (memo_not_full n0 b m h l Hinv Hx Hl). lia.
  - destruct x as [| | | |l];
      try (eexists _, m, h; simpl;
           split; [reflexivity|]; split; [apply copy_post_refl, Hinv|];
           split; [auto|]; split; [reflexivity | exact I]).
    simpl. destruct (m !! l) as [y|] eqn:Hl.
    + exists (VRef y), m, h. split; [reflexivity|].
      split; [apply copy_post_refl, Hinv|]. split; [auto|].
      simpl. rewrite Hl. split; [reflexivity | eauto].
    + simpl in Hx. pose proof (inv_bounds _ _ _ _ Hinv) as Hb.
      destruct (h !! l) as [o|] eqn:Ho;
        [|apply lookup_ge_None in Ho; lia].
      set (y := length h).
      assert (forall o0 : pyobj, obj_values o0 = [] ->
                copy_inv n0 b (<[l := y]> m) (h ++ [o0])) as Hinv0
        by (intros o0 Ho0; apply copy_inv_alloc; assumption).
      assert (n0 <= fuel + size (<[l := y]> m)) as Hfuel0
        by (rewrite map_size_insert_None by exact Hl; lia).
      assert (forall o0 : pyobj, (h ++ [o0]) !! y = Some o0) as Hy0
        by (intros o0; unfold y; rewrite lookup_app_r by lia;
            rewrite Nat.sub_diag; reflexivity).
      assert (Forall (val_in n0) (obj_values o)) as Hvals
        by (apply Forall_forall; intros v Hv;
            eapply (inv_source _ _ _ _ Hinv); eassumption).
      (* what the loop establishes is what the call has to establish *)
      assert (forall o0 m' h',
                copy_post n0 b (<[l := y]> m) (h ++ [o0]) m' h' ->
                (forall k, k < length (h ++ [o0]) -> k <> y ->
                           h' !! k = (h ++ [o0]) !! k) ->
                h' !! y = Some (rename_obj m' o) ->
                Forall (val_covered m') (obj_values o) ->
                copy_post n0 b m h m' h' /\
                (forall k, k < length h -> h' !! k = h !! k) /\
                VRef y = rename m' (VRef l) /\ val_covered m' (VRef l)) as Hwrap.
      { intros o0 m' h' [Hinv' Hsub' Hlen' Hnew'] Hframe' Hy' Hcov'.
        assert (m' !! l = Some y) as Hl'
          by (eapply lookup_weaken; [apply lookup_insert_eq | exact Hsub']).
        rewrite length_app in *. simpl in *.
        split; [|split; [|split]].
        - constructor.
          + exact Hinv'.
          + etrans; [apply insert_subseteq, Hl | exact Hsub'].
          + lia.
          + intros l' y' Hy'' Hnone.
            destruct (decide (l = l')) as [<-|Hne].
            * rewrite Hl' in Hy''. injection Hy'' as <-.
              split; [unfold y; lia|]. exists o. auto.
            * destruct (Hnew' l' y' Hy'') as (Hge & o' & Ho' & Ho'' & Hc).
              { rewrite lookup_insert_ne by exact Hne. exact Hnone. }
              split; [lia|]. exists o'. split; [|auto].
              pose proof (inv_memo _ _ _ _ Hinv' l' y' Hy'') as [Hln _].
              rewrite lookup_app_l in Ho' by lia. exact Ho'.
        - intros k Hk. rewrite Hframe' by (unfold y; lia).
          apply lookup_app_l, Hk.
        - rewrite Hl'. reflexivity.
        - eauto. }
      destruct o as [d|xs].
      * destruct (copy_items_ok n0 b fuel y (deepcopy_memo fuel) (dict_setitem y)
                    dict_of_items IH (dict_setitem_ok y) dict_of_items_values
                    (map_to_list d) [] (<[l := y]> m) (h ++ [PyDict ∅]))
          as (m' & h' & Hloop & Hpost & Hframe & Hy' & Hcov);
          [apply Hinv0; reflexivity | exact Hvals | exact Hfuel0
          | unfold y; lia | apply Hy0 |].
        exists (VRef y), m', h'. fold y. rewrite Hloop.
        split; [reflexivity|]. eapply Hwrap; eauto.
        rewrite Hy'. simpl. f_equal. apply dict_of_renamed_items.
      * destruct (copy_items_ok n0 b fuel y (deepcopy_memo fuel) (list_append y)
                    list_of_items IH (list_append_ok y) list_of_items_values
                    ((fun a => (tt, a)) <$> xs) [] (<[l := y]> m)
                    (h ++ [PyList []]))
          as (m' & h' & Hloop & Hpost & Hframe & Hy' & Hcov);
          [apply Hinv0; reflexivity
          | rewrite <- list_fmap_compose; simpl in Hvals;
            erewrite list_fmap_ext; [rewrite list_fmap_id; exact Hvals|];
            intros ? ?; reflexivity
          | exact Hfuel0 | unfold y; lia | apply Hy0 |].
        exists (VRef y), m', h'. fold y. rewrite Hloop.
        split; [reflexivity|]. eapply Hwrap; eauto.
        -- rewrite Hy'. simpl. f_equal. apply list_of_renamed_items.
        -- rewrite <- list_fmap_compose in Hcov. simpl.
           erewrite list_fmap_ext in Hcov; [rewrite list_fmap_id in Hcov; exact Hcov|].
           intros ? ?. reflexivity.
Qed.

(** ** [copy.deepcopy] *)

(** Whatever is reachable from a value of a closed part of the heap is in
    that part. *)
Lemma reachable_closed_below (n0 : nat) (h : heap) (x : pyval) (l : loc) :
  closed_below n0 h -> val_in n0 x -> reachable h x l -> l < n0.
Proof.
  intros [_ Hc] Hx Hr. induction Hr as [l|l o v k Ho Hv _ IH]; [exact Hx|].
  apply IH. eapply Hc; eassumption.
Qed.

(** Whatever is reachable from a copy is in the region of the copies. *)
Lemma reachable_region (b : nat) (h : heap) (x : pyval) (l : loc) :
  (forall k o v, b <= k -> h !! k = Some o -> v ∈ obj_values o ->
                 val_in_range b (length h) v) ->
  val_in_range b (length h) x -> reachable h x l -> b <= l.
Proof.
  intros Hc Hx Hr. induction Hr as [l|l o v k Ho Hv _ IH]; [simpl in Hx; lia|].
  apply IH. simpl in Hx. eapply Hc; [|eassumption..]. lia.
Qed.

(** When the memo knows a value and, with every object, the objects it
    refers to, it knows everything reachable from the value. *)
Lemma covered_reachable (m : gmap loc loc) (h : heap) (x : pyval) (l : loc) :
  (forall l k, m !! l = Some k ->
     exists o, h !! l = Some o /\ Forall (val_covered m) (obj_values o)) ->
  val_covered m x -> reachable h x l -> is_Some (m !! l).
Proof.
  intros Hobj Hx Hr. induction Hr as [l|l o v k Ho Hv _ IH]; [exact Hx|].
  apply IH. destruct Hx as [kl Hkl].
  destruct (Hobj l kl Hkl) as (o' & Ho' & Hc).
  rewrite Ho in Ho'. injection Ho' as <-.
  rewrite Forall_forall in Hc. apply Hc, Hv.
Qed.

(** [deepcopy] ends; it leaves every object that existed as it was; what
    it returns is a deep copy made of new objects only. *)
Lemma deepcopy_ok (n0 : nat) (h0 h : heap) (x : pyval) :
  closed_below n0 h -> val_in n0 x ->
  length h0 <= length h ->
  (forall l, l < n0 -> h !! l = h0 !! l) ->
  exists y h',
    deepcopy x h = Some (y, h') /\
    length h <= length h' /\
    (forall k, k < length h -> h' !! k = h !! k) /\
    copy_of h0 x h' y /\
    (forall k, reachable h' y k -> length h <= k).
Proof.
  intros [Hn0 Hsrc] Hx Hlen Hsame.
  assert (copy_inv n0 (length h) ∅ h) as Hinv.
  { constructor; try (intros; simplify_map_eq; fail).
    - lia.
    - exact Hsrc.
    - intros k o v Hk Hlk. apply lookup_lt_Some in Hlk. lia. }
  destruct (deepcopy_memo_ok n0 (length h) (length h) x ∅ h Hinv Hx)
    as (y & m & h' & Hcopy & [Hinv' _ Hlen' Hnew] & Hframe & -> & Hcov);
    [lia|].
  exists (rename m x), h'. unfold deepcopy. rewrite Hcopy.
  split; [reflexivity|]. split; [exact Hlen'|]. split; [exact Hframe|].
  assert (forall l k, m !! l = Some k ->
            exists o, h0 !! l = Some o /\ h' !! k = Some (rename_obj m o) /\
                      Forall (val_covered m) (obj_values o)) as Hobj.
  { intros l k Hlk.
    destruct (Hnew l k Hlk (lookup_empty _)) as (_ & o & Ho & Ho' & Hc).
    exists o. split; [|auto].
    rewrite <- Hsame; [exact Ho|]. apply (inv_memo _ _ _ _ Hinv' l k Hlk). }
  split.
  - exists m. split; [reflexivity|]. split; [|split].
    + intros l Hr. eapply covered_reachable; [|exact Hcov|exact Hr].
      intros l' k' Hlk. destruct (Hobj l' k' Hlk) as (o & Ho & _ & Hc). eauto.
    + apply (inv_inj _ _ _ _ Hinv').
    + intros l k Hlk. split.
      * pose proof (inv_memo _ _ _ _ Hinv' l k Hlk). lia.
      * destruct (Hobj l k Hlk) as (o & Ho & Ho' & _). eauto.
  - intros k Hr. eapply reachable_region; [| |exact Hr].
    + apply (inv_region _ _ _ _ Hinv').
    + eapply rename_in_range; eassumption.
Qed.

(** ** One module, then all of them *)

Lemma val_inb_true (n : nat) (v : pyval) : val_inb n v = true -> val_in n v.
Proof. destruct v; simpl; auto. apply bool_decide_eq_true. Qed.

Lemma heap_closed_below (h : heap) : heap_closed h -> closed_below (length h) h.
Proof.
  unfold heap_closed, heap_closedb. intros Hc. split; [lia|].
  intros l o v _ Ho Hv. apply val_inb_true.
  rewrite forallb_forall in Hc.
  assert (In o h) as Hin by (apply list_elem_of_In; eapply list_elem_of_lookup_2; exact Ho).
  specialize (Hc o Hin). rewrite forallb_forall in Hc.
  apply Hc, list_elem_of_In, Hv.
Qed.

(** A heap that agrees with a closed heap on its objects is closed on
    them. *)
Lemma closed_below_same (h0 h : heap) :
  closed_below (length h0) h0 -> length h0 <= length h ->
  (forall l, l < length h0 -> h !! l = h0 !! l) ->
  closed_below (length h0) h.
Proof.
  intros [_ Hc] Hlen Hsame. split; [exact Hlen|].
  intros l o v Hl Ho. rewrite Hsame in Ho by exact Hl. eapply Hc; eassumption.
Qed.

Lemma own_copies_weaken (h : heap) (results : pyval) (base base' : nat)
    (calls : list report_call) :
  base' <= base -> own_copies h results base calls ->
  own_copies h results base' calls.
Proof.
  intros Hle. destruct calls as [|c rest]; [auto|].
  intros (H1 & H2 & H3). split; [exact H1|]. split; [|exact H3].
  intros k Hk. specialize (H2 k Hk). lia.
Qed.

Lemma run_report_ok (h0 h : heap) (results : pyval) (module : ReportModule) :
  closed_below (length h0) h0 -> val_in (length h0) results ->
  length h0 <= length h ->
  (forall l, l < length h0 -> h !! l = h0 !! l) ->
  confined module ->
  length h <= length (out_heap (_run_report module results h)) /\
  (forall l, l < length h0 ->
     out_heap (_run_report module results h) !! l = h0 !! l) /\
  own_copies h0 results (length h) (out_calls (_run_report module results h)) /\
  (forall c, c ∈ out_calls (_run_report module results h) ->
     call_module c = module /\
     length (call_heap c)
     <= length (out_heap (_run_report module results h))) /\
  (out_raised (_run_report module results h) = None ->
   call_module <$> out_calls (_run_report module results h) = [module]) /\
  (forall e, out_raised (_run_report module results h) = Some e ->
     (e = CuckooReportError /\ has_section module = false /\
      out_calls (_run_report module results h) = []) \/
     (exists c, out_calls (_run_report module results h) = [c] /\
        call_module c = module /\
        (module_run module (call_arg c) (call_heap c)).2 = Some e)).
Proof.
  intros Hc0 Hres Hlen Hsame Hconf. unfold _run_report.
  destruct (has_section module) eqn:Hsec; simpl.
  - destruct (deepcopy_ok (length h0) h0 h results
                (closed_below_same h0 h Hc0 Hlen Hsame) Hres Hlen Hsame)
      as (copy & h1 & -> & Hlen1 & Hframe1 & Hcopy & Hfresh).
    destruct (Hconf copy h1) as [Hlen2 Hframe2].
    destruct (module_run module copy h1) as [h2 raised] eqn:Hrun. simpl in *.
    split; [lia|]. split; [|split; [|split; [|split]]].
    + intros l Hl. rewrite Hframe2.
      * rewrite Hframe1 by lia. apply Hsame, Hl.
      * lia.
      * intros Hr. apply Hfresh in Hr. lia.
    + split; [exact Hcopy|]. split; [exact Hfresh | exact I].
    + intros c ->%list_elem_of_singleton. simpl. split; [reflexivity | lia].
    + reflexivity.
    + intros e He. right. eexists. split; [reflexivity|]. simpl.
      split; [reflexivity|]. rewrite Hrun. simpl.
      destruct raised as [[| |]|]; congruence.
  - split; [lia|]. split; [exact Hsame|]. split; [exact I|].
    split; [intros c Hc; inversion Hc|]. split; [discriminate|].
    intros e [= <-]. left. auto.
Qed.

Lemma run_modules_ok (h0 : heap) (results : pyval) (ms : list ReportModule) :
  closed_below (length h0) h0 -> val_in (length h0) results ->
  Forall confined ms ->
  forall h,
    length h0 <= length h ->
    (forall l, l < length h0 -> h !! l = h0 !! l) ->
    length h <= length (out_heap (run_modules ms results h)) /\
    (forall l, l < length h0 ->
       out_heap (run_modules ms results h) !! l = h0 !! l) /\
    own_copies h0 results (length h) (out_calls (run_modules ms results h)) /\
    (exists rest,
       ms = (call_module <$> out_calls (run_modules ms results h)) ++ rest /\
       (out_raised (run_modules ms results h) = None -> rest = [])) /\
    (forall e, out_raised (run_modules ms results h) = Some e ->
       escaped_from ms (out_calls (run_modules ms results h)) e).
Proof.
  intros Hc0 Hres Hconf.
  induction Hconf as [|module rest Hm Hrest IH]; intros h Hlen Hsame.
  - simpl. split; [lia|]. split; [exact Hsame|]. split; [exact I|].
    split; [exists []; auto | discriminate].
  - cbn [run_modules].
    destruct (run_report_ok h0 h results module Hc0 Hres Hlen Hsame Hm)
      as (Hlen1 & Hsame1 & Hown1 & Hcalls1 & Hnone1 & Hsome1).
    destruct (out_raised (_run_report module results h)) as [e|] eqn:Hraised.
    + split; [exact Hlen1|]. split; [exact Hsame1|]. split; [exact Hown1|].
      split.
      * destruct (Hsome1 e eq_refl) as [(_ & _ & Hcs)|(c & Hcs & Hc & _)];
          rewrite Hcs.
        -- exists (module :: rest). rewrite Hraised.
           split; [reflexivity | discriminate].
        -- exists rest. simpl. rewrite Hc, Hraised.
           split; [reflexivity | discriminate].
      * rewrite Hraised. intros e' [= <-].
        destruct (Hsome1 e eq_refl) as [(-> & Hsec & _)|(c & Hcs & Hc & Hrun)];
          [|rewrite Hcs].
        -- left. split; [reflexivity|]. exists module.
           split; [apply list_elem_of_here | exact Hsec].
        -- right. exists c. split; [reflexivity|]. rewrite Hc. exact Hrun.
    + specialize (Hnone1 eq_refl).
      destruct (out_calls (_run_report module results h)) as [|c [|c' l]] eqn:Hcs;
        try discriminate.
      injection Hnone1 as Hc.
      destruct (Hcalls1 c (list_elem_of_here _ _)) as [_ Hlenc].
      destruct (IH (out_heap (_run_report module results h)))
        as (Hlen2 & Hsame2 & Hown2 & (rest' & Hrest' & Hnone2) & Hsome2);
        [lia | exact Hsame1 |].
      cbn [out_heap out_calls out_raised].
      split; [lia|]. split; [exact Hsame2|]. split; [|split].
      * destruct Hown1 as (H1 & H2 & _). cbn [app own_copies].
        split; [exact H1|]. split; [exact H2|].
        eapply own_copies_weaken; [|exact Hown2]. exact Hlenc.
      * exists rest'. cbn [app fmap list_fmap]. rewrite Hc.
        split; [f_equal; exact Hrest' | exact Hnone2].
      * intros e He. destruct (Hsome2 e He) as [(-> & m & Hin & Hsec)|(c2 & Hlast & Hrun)].
        -- left. split; [reflexivity|]. exists m.
           split; [apply list_elem_of_further, Hin | exact Hsec].
        -- right. exists c2. split; [|exact Hrun].
           rewrite last_app, Hlast. reflexivity.
Qed.

(** ** The order of execution *)

Lemma insert_by_order_perm (m : ReportModule) (l : list ReportModule) :
  insert_by_order m l ≡ₚ m :: l.
Proof.
  induction l as [|x r IH]; simpl; [reflexivity|].
  destruct (order m <=? order x)%Z; [reflexivity|].
  rewrite IH. apply Permutation_swap.
Qed.

Lemma sort_by_order_perm (l : list ReportModule) : sort_by_order l ≡ₚ l.
Proof.
  induction l as [|x r IH]; simpl; [reflexivity|].
  rewrite insert_by_order_perm, IH. reflexivity.
Qed.

Lemma insert_by_order_sorted (m : ReportModule) (l : list ReportModule) :
  StronglySorted (fun a b => (order a <= order b)%Z) l ->
  StronglySorted (fun a b => (order a <= order b)%Z) (insert_by_order m l).
Proof.
  induction l as [|x r IH]; intros Hs; simpl.
  - repeat constructor.
  - apply StronglySorted_cons in Hs as [Hx Hr].
    destruct (order m <=? order x)%Z eqn:E.
    + apply Z.leb_le in E. apply StronglySorted_cons. split.
      * constructor; [exact E|].
        eapply Forall_impl; [exact Hx|]. intros y Hy. simpl in *. lia.
      * apply StronglySorted_cons. split; assumption.
    + apply Z.leb_gt in E. apply StronglySorted_cons. split; [|apply IH, Hr].
      rewrite insert_by_order_perm. constructor; [lia | exact Hx].
Qed.

Lemma sort_by_order_sorted (l : list ReportModule) :
  StronglySorted (fun a b => (order a <= order b)%Z) (sort_by_order l).
Proof.
  induction l as [|x r IH]; simpl; [constructor|].
  apply insert_by_order_sorted, IH.
Qed.

(** ** C10: every module gets its own copy of the results *)

(** C10. [Reporter.run] executes the loaded modules in ascending order of
    their [order] attribute: the modules executed are, in this order, the
    sorted list of the loaded ones, all of it unless an exception escapes,
    which happens only when a module has no configuration section or a
    module's [run] raises something other than [NotImplementedError] and
    [CuckooReportError].  Whatever the modules do to what they are given,
    every executed module was handed a deep copy of the results as the
    caller has them, a copy made of objects that neither the caller nor
    any module executed before could reach; and when [run] ends, normally
    or not, every object the caller had is as it was. *)
Theorem Reporter_run_isolates_results (subclasses : list ReportModule)
    (results : pyval) (h : heap) :
  heap_closed h -> val_in (length h) results -> Forall confined subclasses ->
  let r := Reporter_run subclasses results h in
  sort_by_order subclasses ≡ₚ subclasses /\
  StronglySorted (fun a b => (order a <= order b)%Z) (sort_by_order subclasses) /\
  (exists rest,
     sort_by_order subclasses = (call_module <$> out_calls r) ++ rest /\
     (out_raised r = None -> rest = [])) /\
  (forall e, out_raised r = Some e ->
     escaped_from (sort_by_order subclasses) (out_calls r) e) /\
  own_copies h results (length h) (out_calls r) /\
  length h <= length (out_heap r) /\
  (forall l, l < length h -> out_heap r !! l = h !! l).
Proof.
  intros Hclosed Hres Hconf r.
  assert (Forall confined (sort_by_order subclasses)) as Hconf'
    by (rewrite sort_by_order_perm; exact Hconf).
  destruct (run_modules_ok h results (sort_by_order subclasses)
              (heap_closed_below h Hclosed) Hres Hconf' h)
    as (Hlen & Hsame & Hown & Hprefix & Hesc); [lia | auto |].
  split; [apply sort_by_order_perm|].
  split; [apply sort_by_order_sorted|].
  split; [exact Hprefix|]. split; [exact Hesc|]. split; [exact Hown|].
  split; [exact Hlen | exact Hsame].
Qed.

(** ** The statement on a concrete analysis *)

Lemma overwriting_run_confined (name : string) (o : Z) (s : bool) :
  confined (mkReportModule name o s overwriting_run).
Proof.
  intros v h. simpl. unfold overwriting_run, dict_setitem.
  destruct v as [| | | |l]; simpl; try (split; [lia | reflexivity]).
  destruct (h !! l) as [[d|xs]|]; simpl; try (split; [lia | reflexivity]).
  rewrite length_insert. split; [lia|]. intros l' _ Hl'.
  apply list_lookup_insert_ne. intros ->. apply Hl'. constructor.
Qed.

Lemma emptying_run_confined (name : string) (o : Z) (s : bool) :
  confined (mkReportModule name o s emptying_run).
Proof.
  intros v h. simpl. unfold emptying_run.
  destruct v as [| | | |l]; simpl; try (split; [lia | reflexivity]).
  rewrite length_insert. split; [lia|]. intros l' _ Hl'.
  apply list_lookup_insert_ne. intros ->. apply Hl'. constructor.
Qed.

(** The module with the lower [order] runs first and empties its copy
    (object 3); the other one is then handed a complete copy (object 6)
    and overwrites an entry of it; the caller's three objects are as they
    were. *)
Example Reporter_run_demo :
  let r := Reporter_run demo_modules demo_results demo_heap in
  map (fun c => (module_name (call_module c), call_arg c)) (out_calls r)
  = [("cleaner", VRef 3); ("jsondump", VRef 6)] /\
  out_raised r = None /\
  firstn 3 (out_heap r) = demo_heap /\
  out_heap r !! 3 = Some (PyDict ∅) /\
  out_heap r !! 6 = Some (PyDict {["info" := VRef 7; "score" := VInt 99]}) /\
  out_heap r !! 7 = Some (PyList [VStr "signature"; VRef 8]) /\
  out_heap r !! 8 = Some (PyDict {["parent" := VRef 6]}).
Proof. vm_compute. repeat split. Qed.

(** C10 on the concrete analysis and the two modules. *)
Lemma Reporter_run_isolates_results_witness :
  heap_closed demo_heap /\
  val_in (length demo_heap) demo_results /\
  Forall confined demo_modules /\
  let r := Reporter_run demo_modules demo_results demo_heap in
  sort_by_order demo_modules ≡ₚ demo_modules /\
  StronglySorted (fun a b => (order a <= order b)%Z)
                 (sort_by_order demo_modules) /\
  (exists rest,
     sort_by_order demo_modules = (call_module <$> out_calls r) ++ rest /\
     (out_raised r = None -> rest = [])) /\
  (forall e, out_raised r = Some e ->
     escaped_from (sort_by_order demo_modules) (out_calls r) e) /\
  own_copies demo_heap demo_results (length demo_heap) (out_calls r) /\
  length demo_heap <= length (out_heap r) /\
  (forall l, l < length demo_heap -> out_heap r !! l = demo_heap !! l).
Proof.
  assert (heap_closed demo_heap) as H1 by reflexivity.
  assert (val_in (length demo_heap) demo_results) as H2 by (simpl; lia).
  assert (Forall confined demo_modules) as H3.
  { apply Forall_cons. split; [apply overwriting_run_confined|].
    apply Forall_cons. split; [apply emptying_run_confined | constructor]. }
  split; [exact H1|]. split; [exact H2|]. split; [exact H3|].
  exact (Reporter_run_isolates_results demo_modules demo_results demo_heap
           H1 H2 H3).
Defined.

(** * Further properties of the database *)

Local Open Scope Z_scope.

(** ** [fetch] and [process] *)

(** X1. [fetch] followed by [process] on the row it returned does what
    [fetch_and_process] does in one step: the same row is chosen, the
    store left behind is the same, and one succeeds exactly when the
    other returns the row.  When [fetch] finds nothing,
    [fetch_and_process] returns nothing and leaves the store as it was. *)
Theorem fetch_then_process_is_fetch_and_process (db : DB)
    (fault : store_fault) :
  constraints_ok db = true ->
  match fetch db with
  | Some r =>
      In r (tasks db) /\ Task_status r = pending /\
      process db fault (Task_id r)
      = (fst (fetch_and_process db fault),
         Ret match fault with NoFault => true | StoreError => false end) /\
      snd (fetch_and_process db fault)
      = Ret match fault with
            | NoFault => Some (with_status r processing)
            | StoreError => None
            end
  | None =>
      fetch_and_process db fault = (db, Ret None) /\
      forall x, In x (tasks db) -> Task_status x <> pending
  end.
Proof.
  intros Hok. unfold fetch, process, _set_status, fetch_and_process.
  unfold new_session. cbn [work].
  pose proof (query_next_pending_spec db) as Hq.
  destruct (query_next_pending db) as [r|]; cbn [option_map].
  - destruct Hq as (Hin & Hst & _).
    rewrite (get_task_In db r (constraints_task_ids db Hok) Hin).
    split; [exact Hin|]. split; [exact Hst|].
    destruct fault; unfold commit, on_work, rollback; cbn [work store].
    + rewrite put_task_constraints, Hok. cbn. split; reflexivity.
    + cbn. split; reflexivity.
  - destruct fault; unfold commit, on_work, rollback; cbn [work store].
    + rewrite Hok. cbn. split; [reflexivity | exact Hq].
    + split; [reflexivity | exact Hq].
Qed.

(** X2. [process] does not look at the status a task has: on any stored
    task, pending or not, a commit that goes through leaves it processing
    with its other fields, [completed_on] included, as they were, and
    leaves every other row alone; a failed commit changes nothing and
    returns [False]; an id that no row has makes it raise. *)
Theorem process_ignores_current_status (db : DB) (fault : store_fault)
    (task_id : Z) :
  constraints_ok db = true ->
  match get_task db task_id with
  | None => process db fault task_id = (db, Raise AttributeError)
  | Some t =>
      match fault with
      | NoFault =>
          exists db',
            process db fault task_id = (db', Ret true) /\
            get_task db' task_id = Some (with_status t processing) /\
            Task_completed_on (with_status t processing)
            = Task_completed_on t /\
            (forall i, i <> task_id -> get_task db' i = get_task db i) /\
            samples db' = samples db /\ guests db' = guests db
      | StoreError => process db fault task_id = (db, Ret false)
      end
  end.
Proof.
  intros Hok. unfold process, _set_status. unfold_session.
  destruct (get_task db task_id) as [t|] eqn:Hget; [|reflexivity].
  destruct fault; [|reflexivity].
  apply get_task_Some in Hget as [Hin Hid].
  exists (put_task (with_status t processing) db).
  rewrite put_task_constraints, Hok. cbn [store].
  repeat split.
  - subst task_id.
    change (Task_id t) with (Task_id (with_status t processing)) at 1.
    rewrite get_put_task_eq. cbn [Task_id with_status].
    rewrite (get_task_In db t (constraints_task_ids db Hok) Hin). reflexivity.
  - intros i Hi. apply get_put_task_ne. cbn [Task_id with_status]. congruence.
Qed.

(** ** Adding tasks and samples *)

Lemma next_id_above (ids : list Z) (x : Z) : In x ids -> x < next_id ids.
Proof. intros H. apply fold_max_ge in H. unfold next_id. lia. Qed.

Lemma find_snoc_fresh {A : Type} (key : A -> Z) (l : list A) (x : A) :
  ~ In (key x) (map key l) ->
  find (fun y => key y =? key x) (l ++ [x]) = Some x.
Proof.
  induction l as [|y r IH]; simpl; intros Hnin.
  - rewrite Z.eqb_refl. reflexivity.
  - destruct (key y =? key x) eqn:E.
    + apply Z.eqb_eq in E. exfalso. apply Hnin. left. exact E.
    + apply IH. intros H. apply Hnin. right. exact H.
Qed.

Lemma find_snoc_old {A : Type} (key : A -> Z) (l : list A) (x y : A) (i : Z) :
  find (fun z => key z =? i) l = Some y ->
  find (fun z => key z =? i) (l ++ [x]) = Some y.
Proof.
  induction l as [|z r IH]; simpl; [discriminate|].
  destruct (key z =? i); [auto | exact IH].
Qed.

Lemma find_fresh_None {A : Type} (key : A -> Z) (l : list A) (i : Z) :
  ~ In i (map key l) -> find (fun z => key z =? i) l = None.
Proof.
  induction l as [|z r IH]; simpl; intros Hnin; [reflexivity|].
  destruct (key z =? i) eqn:E.
  - apply Z.eqb_eq in E. exfalso. apply Hnin. left. exact E.
  - apply IH. intros H. apply Hnin. right. exact H.
Qed.

(** A new sample row with the assigned id, a file type and a hash tuple
    that is not stored yet is accepted by the store. *)
Lemma add_sample_constraints (db : DB) (s : Sample) :
  constraints_ok db = true ->
  Sample_id s = next_id (map Sample_id (samples db)) ->
  is_some (Sample_file_type s) = true ->
  (forall s', In s' (samples db) -> Sample_hashes s' <> Sample_hashes s) ->
  constraints_ok (add_sample s db) = true.
Proof.
  unfold constraints_ok. cbn [tasks samples guests add_sample].
  rewrite !andb_true_iff. intros [[[[[[H1 H2] H3] H4] H5] H6] H7] Hid Hty Hnew.
  repeat split; try assumption.
  - rewrite map_app. cbn [map]. apply distinct_snoc_true; [|exact H2].
    intros y Hy. apply Z.eqb_neq. intros ->. rewrite Hid in Hy.
    exact (next_id_fresh _ Hy).
  - rewrite map_app. cbn [map]. apply distinct_snoc_true; [|exact H4].
    intros y Hy. apply in_map_iff in Hy as (s' & <- & Hs').
    destruct (hash_tuple_eqb (Sample_hashes s') (Sample_hashes s)) eqn:E;
      [|reflexivity].
    apply hash_tuple_eqb_eq in E. exfalso. exact (Hnew s' Hs' E).
  - rewrite forallb_app, H5. cbn. rewrite Hty. reflexivity.
Qed.

(** What a successful commit of a new task row gives. *)
Lemma add_commit_task_ok (db : DB) (t : Task) :
  constraints_ok db = true ->
  Task_id t = next_id (map Task_id (tasks db)) ->
  add_commit_task (new_session db) NoFault t
  = (add_task t db, Ret (Some (Task_id t))) /\
  get_task db (Task_id t) = None /\
  (forall x, In x (tasks db) -> Task_id x < Task_id t) /\
  get_task (add_task t db) (Task_id t) = Some t /\
  (forall i x, get_task db i = Some x -> get_task (add_task t db) i = Some x).
Proof.
  intros Hok Hid. rewrite add_commit_task_unfold, add_task_constraints by assumption.
  assert (~ In (Task_id t) (map Task_id (tasks db))) as Hfresh
    by (rewrite Hid; apply next_id_fresh).
  split; [reflexivity|]. split; [|split; [|split]].
  - apply (find_fresh_None Task_id), Hfresh.
  - intros x Hx. rewrite Hid. apply next_id_above, in_map, Hx.
  - apply (find_snoc_fresh Task_id), Hfresh.
  - intros i x. apply (find_snoc_old Task_id).
Qed.

(** X3. [add_url] on a store whose commit goes through returns an id that
    no task had and that is larger than every id in use; [view_task] on
    that id then returns the new task: the URL as target, category "url",
    status pending, no sample, not completed, the arguments as given.
    Every task that could be viewed before is viewed unchanged, and no
    sample or guest row is touched. *)
Theorem add_url_then_view_task (added_on_default : datetime) (db : DB)
    (url : string) (a : task_args) :
  constraints_ok db = true ->
  exists id db' t,
    add_url added_on_default db NoFault url a = (db', Ret (Some id)) /\
    view_task db id = None /\
    (forall x, In x (tasks db) -> Task_id x < id) /\
    view_task db' id = Some t /\
    Task_id t = id /\ Task_target t = url /\ Task_category t = "url" /\
    Task_status t = pending /\ Task_sample_id t = None /\
    Task_completed_on t = None /\
    Task_timeout t = arg_timeout a /\ Task_priority t = arg_priority a /\
    Task_package t = arg_package a /\ Task_options t = arg_options a /\
    Task_custom t = arg_custom a /\ Task_machine t = arg_machine a /\
    Task_platform t = arg_platform a /\
    tasks db' = tasks db ++ [t] /\
    (forall i x, view_task db i = Some x -> view_task db' i = Some x) /\
    samples db' = samples db /\ guests db' = guests db.
Proof.
  intros Hok. unfold add_url. rewrite add_URL_unfold.
  set (t := new_task (next_id (map Task_id (tasks db))) added_on_default url
                     "url" None a).
  destruct (add_commit_task_ok db t Hok eq_refl) as (E & Hnone & Hlt & Hget & Hold).
  exists (Task_id t), (add_task t db), t. rewrite E.
  unfold view_task, new_session. cbn [work].
  repeat split; try assumption.
Qed.

(** [add] for a file whose hash tuple is not stored yet and whose type is
    known: both commits go through. *)
Lemma add_File_new_sample (dflt : datetime) (db : DB) (f : FileObj)
    (a : task_args) :
  constraints_ok db = true -> truthy (get_type f) = true ->
  (forall s, In s (samples db) -> Sample_hashes s <> File_hashes f) ->
  let s := Sample_init (next_id (map Sample_id (samples db)))
                       (get_md5 f) (get_crc32 f) (get_sha1 f) (get_sha256 f)
                       (get_sha512 f) (get_size f) (get_type f)
                       (get_ssdeep f) in
  let t := new_task (next_id (map Task_id (tasks db))) dflt (file_path f)
                    "file" (Some (Sample_id s)) a in
  add dflt db NoFault NoFault (File f) a
  = (add_task t (add_sample s db), Ret (Some (Task_id t))) /\
  constraints_ok (add_task t (add_sample s db)) = true /\
  Sample_file_type s = get_type f.
Proof.
  intros Hok Hty Hnew s t.
  assert (Sample_file_type s = get_type f) as Hft
    by (unfold s, Sample_init; cbn; rewrite Hty; reflexivity).
  assert (constraints_ok (add_sample s db) = true) as Hok1.
  { apply add_sample_constraints; [exact Hok | reflexivity | | exact Hnew].
    rewrite Hft. destruct (get_type f); [reflexivity | discriminate]. }
  rewrite add_File_unfold. cbn zeta. fold s. rewrite Hok1.
  destruct (add_commit_task_ok (add_sample s db) t Hok1 eq_refl) as (E & _).
  fold t. rewrite E. split; [reflexivity|]. split; [|exact Hft].
  apply add_task_constraints; [exact Hok1 | reflexivity].
Qed.

(** X4. [add] of a file whose five hashes are not stored together yet and
    whose type is known creates one Sample row and one Task row:
    [view_sample] on the new sample id returns the hashes, size and type
    of the file, [view_task] on the returned task id returns a pending
    task of category "file" that refers to that sample, and nothing else
    is added. *)
Theorem add_new_file_then_view (added_on_default : datetime) (db : DB)
    (f : FileObj) (a : task_args) :
  constraints_ok db = true -> truthy (get_type f) = true ->
  (forall s, In s (samples db) -> Sample_hashes s <> File_hashes f) ->
  exists db' tid t s,
    add added_on_default db NoFault NoFault (File f) a
    = (db', Ret (Some tid)) /\
    view_sample db (Sample_id s) = None /\
    view_sample db' (Sample_id s) = Some s /\
    Sample_hashes s = File_hashes f /\
    Sample_file_size s = get_size f /\
    Sample_file_type s = get_type f /\
    samples db' = samples db ++ [s] /\
    view_task db tid = None /\
    view_task db' tid = Some t /\
    Task_sample_id t = Some (Sample_id s) /\
    Task_target t = file_path f /\ Task_category t = "file" /\
    Task_status t = pending /\
    tasks db' = tasks db ++ [t] /\
    guests db' = guests db.
Proof.
  intros Hok Hty Hnew.
  destruct (add_File_new_sample added_on_default db f a Hok Hty Hnew)
    as (E & Hok' & Hft).
  match type of E with _ = (add_task ?t0 (add_sample ?s0 db), _) =>
    set (t := t0) in *; set (s := s0) in * end.
  exists (add_task t (add_sample s db)), (Task_id t), t, s.
  unfold view_sample, view_task, new_session. cbn [work].
  assert (~ In (Sample_id s) (map Sample_id (samples db))) as Hs
    by apply next_id_fresh.
  assert (~ In (Task_id t) (map Task_id (tasks db))) as Ht
    by apply next_id_fresh.
  split; [exact E|]. repeat split.
  - apply (find_fresh_None Sample_id), Hs.
  - apply (find_snoc_fresh Sample_id), Hs.
  - exact Hft.
  - apply (find_fresh_None Task_id), Ht.
  - apply (find_snoc_fresh Task_id), Ht.
Qed.

(** X5. A file whose type is not known ([get_type] is [None] or empty) is
    never stored as a sample: [Sample.__init__] leaves [file_type] unset
    and the store rejects the row.  Whatever the store does to the
    commits, the samples table is left as it was; and when no stored
    sample has the MD5 of the file, [add] returns no task id: it raises,
    and the whole store is as it was. *)
Theorem add_file_of_unknown_type (added_on_default : datetime) (db : DB)
    (fault1 fault2 : store_fault) (f : FileObj) (a : task_args) :
  truthy (get_type f) = false ->
  samples (fst (add added_on_default db fault1 fault2 (File f) a))
  = samples db /\
  (query_sample_by_md5 db (get_md5 f) = None ->
   add added_on_default db fault1 fault2 (File f) a
   = (db, Raise match fault1 with
                | NoFault => AttributeError
                | StoreError => OperationalError
                end)).
Proof.
  intros Hty. rewrite add_File_unfold. cbn zeta.
  destruct fault1; [|split; reflexivity].
  match goal with |- context [add_sample ?x db] => set (s := x) end.
  assert (constraints_ok (add_sample s db) = false) as ->.
  { assert (forallb (fun s0 => is_some (Sample_file_type s0))
                    (samples db ++ [s]) = false) as Hnull.
    { rewrite forallb_app. unfold s, Sample_init. cbn. rewrite Hty. cbn.
      apply andb_false_r. }
    unfold constraints_ok. cbn [tasks samples guests add_sample].
    rewrite Hnull, !andb_false_r. reflexivity. }
  destruct (query_sample_by_md5 db (get_md5 f)) as [s'|].
  - split; [|discriminate]. rewrite add_commit_task_unfold.
    destruct fault2; [|reflexivity].
    destruct (constraints_ok (add_task _ db)); reflexivity.
  - split; reflexivity.
Qed.

(** [add] for a file whose hash tuple is stored and whose MD5 no other
    stored sample has: the insert is rejected and the task is linked to
    the stored sample. *)
Lemma add_File_stored_sample (dflt : datetime) (db : DB) (f : FileObj)
    (a : task_args) (s : Sample) :
  constraints_ok db = true ->
  In s (samples db) -> Sample_hashes s = File_hashes f ->
  (forall s', In s' (samples db) -> Sample_md5 s' = get_md5 f -> s' = s) ->
  let t := new_task (next_id (map Task_id (tasks db))) dflt (file_path f)
                    "file" (Some (Sample_id s)) a in
  add dflt db NoFault NoFault (File f) a
  = (add_task t db, Ret (Some (Task_id t))).
Proof.
  intros Hok Hin Hh Hmd5 t. rewrite add_File_unfold. cbn zeta.
  match goal with |- context [add_sample ?x db] => set (new := x) end.
  assert (constraints_ok (add_sample new db) = false) as ->.
  { unfold constraints_ok. cbn [tasks samples guests add_sample].
    rewrite (map_app Sample_hashes).
    change (map Sample_hashes [new]) with [Sample_hashes new].
    rewrite (distinct_snoc_false hash_tuple_eqb (map Sample_hashes (samples db))
               (Sample_hashes new) (Sample_hashes s)).
    - rewrite !andb_false_r. reflexivity.
    - apply in_map, Hin.
    - apply hash_tuple_eqb_eq. rewrite Hh. reflexivity. }
  assert (query_sample_by_md5 db (get_md5 f) = Some s) as ->.
  { unfold query_sample_by_md5.
    assert (In s (List.filter (fun x => String.eqb (Sample_md5 x) (get_md5 f))
                              (samples db))) as Hs.
    { apply filter_In. split; [exact Hin|]. apply String.eqb_eq.
      unfold Sample_hashes, File_hashes in Hh. congruence. }
    destruct (List.filter _ (samples db)) as [|s' r] eqn:F; [contradiction|].
    assert (In s' (List.filter
                     (fun x => String.eqb (Sample_md5 x) (get_md5 f))
                     (samples db))) as Hs'
      by (rewrite F; left; reflexivity).
    apply filter_In in Hs' as [Hs1 Hs2]. apply String.eqb_eq in Hs2.
    cbn. f_equal. apply Hmd5; assumption. }
  rewrite add_commit_task_unfold, add_task_constraints;
    [reflexivity | exact Hok | reflexivity].
Qed.

(** X6. Two files with the same five hashes, added one after the other to
    a store that has no sample with their MD5, give one Sample row and two
    Task rows with different ids that refer to the same sample. *)
Theorem add_same_content_twice_shares_sample (added_on_default : datetime)
    (db : DB) (f1 f2 : FileObj) (a1 a2 : task_args) :
  constraints_ok db = true -> truthy (get_type f1) = true ->
  File_hashes f2 = File_hashes f1 ->
  (forall s, In s (samples db) -> Sample_md5 s <> get_md5 f1) ->
  exists db1 db2 t1 t2 s,
    add added_on_default db NoFault NoFault (File f1) a1
    = (db1, Ret (Some (Task_id t1))) /\
    add added_on_default db1 NoFault NoFault (File f2) a2
    = (db2, Ret (Some (Task_id t2))) /\
    samples db2 = samples db ++ [s] /\
    Sample_hashes s = File_hashes f1 /\
    tasks db2 = tasks db ++ [t1; t2] /\
    Task_id t1 <> Task_id t2 /\
    Task_target t1 = file_path f1 /\ Task_target t2 = file_path f2 /\
    Task_sample_id t1 = Some (Sample_id s) /\
    Task_sample_id t2 = Some (Sample_id s).
Proof.
  intros Hok Hty Hsame Hmd5.
  assert (forall s, In s (samples db) -> Sample_hashes s <> File_hashes f1)
    as Hnew.
  { intros s Hs E. apply (Hmd5 s Hs).
    unfold Sample_hashes, File_hashes in E. congruence. }
  destruct (add_File_new_sample added_on_default db f1 a1 Hok Hty Hnew)
    as (E1 & Hok1 & _).
  match type of E1 with _ = (add_task ?t0 (add_sample ?s0 db), _) =>
    set (t1 := t0) in *; set (s := s0) in * end.
  set (db1 := add_task t1 (add_sample s db)) in *.
  assert (get_md5 f2 = get_md5 f1) as Hm
    by (unfold File_hashes in Hsame; congruence).
  pose proof (add_File_stored_sample added_on_default db1 f2 a2 s Hok1) as E2.
  cbn zeta in E2.
  match type of E2 with _ -> _ -> _ -> _ = (add_task ?t0 db1, _) =>
    set (t2 := t0) in * end.
  exists db1, (add_task t2 db1), t1, t2, s.
  split; [exact E1|]. split; [|repeat split].
  - apply E2.
    + cbn. apply in_or_app. right. left. reflexivity.
    + rewrite Hsame. reflexivity.
    + intros s' Hs' Hmd. cbn in Hs'.
      apply in_app_or in Hs' as [Hs'|[<-|[]]]; [|reflexivity].
      exfalso. apply (Hmd5 s' Hs'). congruence.
  - cbn. rewrite <- app_assoc. reflexivity.
  - intros E.
    assert (In (Task_id t1) (map Task_id (tasks db1))) as Hin
      by (cbn; rewrite map_app; apply in_or_app; right; left; reflexivity).
    apply next_id_above in Hin. unfold t2 in E. cbn [Task_id new_task] in E.
    cbn [Task_id new_task] in Hin. lia.
Qed.

(** ** Listing tasks *)

Lemma insert_added_on_desc_perm (t : Task) (l : list Task) :
  insert_added_on_desc t l ≡ₚ t :: l.
Proof.
  induction l as [|x r IH]; simpl; [reflexivity|].
  destruct (Task_added_on x <=? Task_added_on t); [reflexivity|].
  rewrite IH. apply Permutation_swap.
Qed.

Lemma order_by_added_on_desc_perm (l : list Task) :
  order_by_added_on_desc l ≡ₚ l.
Proof.
  induction l as [|x r IH]; simpl; [reflexivity|].
  rewrite insert_added_on_desc_perm, IH. reflexivity.
Qed.

Lemma insert_added_on_desc_sorted (t : Task) (l : list Task) :
  StronglySorted (fun a b => Task_added_on b <= Task_added_on a) l ->
  StronglySorted (fun a b => Task_added_on b <= Task_added_on a)
                 (insert_added_on_desc t l).
Proof.
  induction l as [|x r IH]; intros Hs; simpl.
  - repeat constructor.
  - apply StronglySorted_cons in Hs as [Hx Hr].
    destruct (Task_added_on x <=? Task_added_on t) eqn:E.
    + apply Z.leb_le in E. apply StronglySorted_cons. split.
      * constructor; [exact E|].
        eapply Forall_impl; [exact Hx|]. intros y Hy. simpl in *. lia.
      * apply StronglySorted_cons. split; assumption.
    + apply Z.leb_gt in E. apply StronglySorted_cons. split; [|apply IH, Hr].
      rewrite insert_added_on_desc_perm. constructor; [lia | exact Hx].
Qed.

Lemma order_by_added_on_desc_sorted (l : list Task) :
  StronglySorted (fun a b => Task_added_on b <= Task_added_on a)
                 (order_by_added_on_desc l).
Proof.
  induction l as [|x r IH]; simpl; [constructor|].
  apply insert_added_on_desc_sorted, IH.
Qed.

(** X7. [list_tasks] returns stored tasks only, each once, most recently
    added first; with a limit [n] it returns [n] of them (all, when there
    are fewer), and no task it leaves out was added later than one it
    returns; without a limit it leaves none out. *)
Theorem list_tasks_most_recent_first (db : DB) (limit : option nat) :
  exists rest,
    list_tasks db limit ++ rest ≡ₚ tasks db /\
    StronglySorted (fun a b => Task_added_on b <= Task_added_on a)
                   (list_tasks db limit) /\
    (forall x y, In x (list_tasks db limit) -> In y rest ->
                 Task_added_on y <= Task_added_on x) /\
    length (list_tasks db limit)
    = match limit with
      | Some n => Nat.min n (length (tasks db))
      | None => length (tasks db)
      end /\
    (limit = None -> rest = []).
Proof.
  unfold list_tasks, new_session. cbn [work].
  pose proof (order_by_added_on_desc_perm (tasks db)) as Hperm.
  pose proof (order_by_added_on_desc_sorted (tasks db)) as Hsorted.
  destruct limit as [n|].
  - exists (drop n (order_by_added_on_desc (tasks db))).
    rewrite take_drop. split; [exact Hperm|].
    rewrite <- (take_drop n (order_by_added_on_desc (tasks db))) in Hsorted.
    apply StronglySorted_app in Hsorted as (Hcross & Htake & _).
    split; [exact Htake|]. split; [|split; [|discriminate]].
    + intros x y Hx%list_elem_of_In Hy%list_elem_of_In. exact (Hcross x y Hx Hy).
    + rewrite length_take. rewrite (Permutation_length Hperm). reflexivity.
  - exists []. rewrite app_nil_r. split; [exact Hperm|].
    split; [exact Hsorted|]. split; [intros x y _ []|].
    split; [apply Permutation_length, Hperm | reflexivity].
Qed.

(** ** Every call is a sequence of committed changes *)

(** A second guest is never linked by a commit that goes through: the
    rows of the guests table are untouched and the new one is appended. *)
Lemma set_task_guest_accepted (db : DB) (task : Task) (guest : Guest) :
  constraints_ok (set_task_guest task guest db) = true ->
  set_task_guest task guest db
  = mkDB (tasks db) (samples db)
         (guests db ++ [with_task_id guest (Some (Task_id task))]).
Proof.
  intros Hok. apply constraints_guests_linked in Hok as [Hnn _].
  unfold set_task_guest in *. cbn [guests] in Hnn. f_equal. f_equal.
  rewrite forallb_app in Hnn. apply andb_true_iff in Hnn as [Hnn _].
  induction (guests db) as [|g r IH]; [reflexivity|].
  cbn [map forallb] in *. apply andb_true_iff in Hnn as [Hg Hr].
  rewrite (IH Hr). f_equal.
  destruct (option_Z_eqb (Guest_task_id g) (Some (Task_id task)));
    [discriminate | reflexivity].
Qed.

Lemma add_commit_task_committed (db : DB) (fault : store_fault) (t : Task) :
  constraints_ok db = true ->
  Task_id t = next_id (map Task_id (tasks db)) ->
  Task_status t = pending -> Task_completed_on t = None ->
  (forall s, Task_sample_id t = Some s -> In s (map Sample_id (samples db))) ->
  rtc committed db (fst (add_commit_task (new_session db) fault t)).
Proof.
  intros Hok Hid Hst Hco Hs. rewrite add_commit_task_unfold.
  destruct fault; [|reflexivity].
  destruct (constraints_ok (add_task t db)) eqn:E; cbn [fst]; [|reflexivity].
  apply rtc_once. split; [exact Hok|]. split; [exact E|].
  apply change_task; assumption.
Qed.

Lemma put_status_committed (db : DB) (fault : store_fault) (r : Task)
    (st : status_type) (co : option datetime) (A : Type) (ok bad : result A) :
  constraints_ok db = true -> In r (tasks db) -> st <> pending ->
  rtc committed db
    (fst match commit fault
                 (on_work (put_task (with_completed_on (with_status r st) co))
                          (new_session db)) with
         | Ret session => (store session, ok)
         | Raise _ =>
             (store (rollback
                       (on_work
                          (put_task (with_completed_on (with_status r st) co))
                          (new_session db))), bad)
         end).
Proof.
  intros Hok Hin Hst. unfold_session. destruct fault; [|reflexivity].
  destruct (constraints_ok (put_task _ db)) eqn:E; cbn [store fst];
    [|reflexivity].
  apply rtc_once. split; [exact Hok|]. split; [exact E|].
  apply change_status; assumption.
Qed.

Lemma exec_committed (dflt now : datetime) (c : call) (db : DB) :
  constraints_ok db = true -> rtc committed db (exec dflt now c db).
Proof.
  intros Hok. destruct c; cbn [exec].
  - destruct obj as [f|url].
    + rewrite add_File_unfold. cbn zeta. destruct fault1; [|reflexivity].
      match goal with |- context [add_sample ?x db] => set (s := x) end.
      destruct (constraints_ok (add_sample s db)) eqn:E1.
      * eapply rtc_l.
        -- split; [exact Hok|]. split; [exact E1|].
           apply change_sample. reflexivity.
        -- apply add_commit_task_committed; try reflexivity; [exact E1|].
           intros s0 [= <-]. cbn. rewrite map_app. apply in_or_app.
           right. left. reflexivity.
      * destruct (query_sample_by_md5 db (get_md5 f)) as [s'|] eqn:Hq;
          [|reflexivity].
        apply add_commit_task_committed; try reflexivity; [exact Hok|].
        intros s0 [= <-]. apply in_map. unfold query_sample_by_md5 in Hq.
        destruct (List.filter _ (samples db)) as [|x r] eqn:F; [discriminate|].
        injection Hq as ->.
        assert (In s' (List.filter
                         (fun s1 => String.eqb (Sample_md5 s1) (get_md5 f))
                         (samples db))) as H by (rewrite F; left; reflexivity).
        apply filter_In in H. tauto.
    + rewrite add_URL_unfold.
      apply add_commit_task_committed; try reflexivity; [exact Hok|].
      intros s0 [=].
  - unfold fetch_and_process. cbn zeta.
    pose proof (query_next_pending_spec db) as Hq.
    change (work (new_session db)) with db.
    destruct (query_next_pending db) as [r|]; cbn [option_map].
    + destruct Hq as (Hin & _).
      change (with_status r processing)
        with (with_completed_on (with_status r processing)
                                (Task_completed_on r)).
      apply put_status_committed; [exact Hok | exact Hin | discriminate].
    + unfold_session. destruct fault; [|reflexivity].
      destruct (constraints_ok db); reflexivity.
  - unfold process, _set_status. cbn zeta.
    change (work (new_session db)) with db.
    destruct (get_task db task_id) as [r|] eqn:Hr; [|reflexivity].
    apply get_task_Some in Hr as [Hin _].
    change (with_status r processing)
      with (with_completed_on (with_status r processing)
                              (Task_completed_on r)).
    apply put_status_committed; [exact Hok | exact Hin | discriminate].
  - unfold complete. cbn zeta.
    change (work (new_session db)) with db.
    destruct (get_task db task_id) as [r|] eqn:Hr; [|reflexivity].
    apply get_task_Some in Hr as [Hin _].
    apply put_status_committed; [exact Hok | exact Hin|].
    destruct success_; discriminate.
  - unfold guest_start. unfold_session.
    destruct (get_task db task_id) as [r|] eqn:Hr; [|reflexivity].
    destruct fault; [|reflexivity].
    destruct (constraints_ok (set_task_guest r _ db)) eqn:E; cbn [store fst];
      [|reflexivity].
    apply rtc_once. split; [exact Hok|]. split; [exact E|].
    rewrite (set_task_guest_accepted _ _ _ E).
    apply get_task_Some in Hr as [Hin _].
    apply (change_guest db _ (Task_id r)); [reflexivity | | reflexivity].
    apply in_map, Hin.
  - unfold guest_stop. unfold_session.
    destruct (get_guest db guest_id) as [g|] eqn:Hg; [|reflexivity].
    destruct fault; [|reflexivity].
    destruct (constraints_ok (put_guest _ db)) eqn:E; cbn [store fst];
      [|reflexivity].
    apply rtc_once. split; [exact Hok|]. split; [exact E|].
    apply change_shutdown. unfold get_guest in Hg.
    apply find_some in Hg. tauto.
Qed.

Lemma run_history_committed (dflt : datetime) (h : list (datetime * call))
    (db : DB) :
  constraints_ok db = true -> rtc committed db (run_history dflt h db).
Proof.
  revert db. induction h as [|[now c] h IH]; intros db Hok; [reflexivity|].
  cbn [run_history fold_left]. etrans; [apply exec_committed, Hok|].
  apply IH, exec_constraints, Hok.
Qed.

(** ** What no sequence of calls changes *)

Lemma find_key_In {A : Type} (key : A -> Z) (l : list A) (i : Z) :
  find (fun y => key y =? i) l <> None <-> In i (map key l).
Proof.
  induction l as [|x r IH]; simpl; [tauto|].
  destruct (key x =? i) eqn:E.
  - apply Z.eqb_eq in E. split; [auto | discriminate].
  - apply Z.eqb_neq in E. rewrite IH. tauto.
Qed.

Lemma same_task_identity_refl (t : Task) : same_task_identity t t.
Proof. unfold same_task_identity. tauto. Qed.

Lemma same_task_identity_trans (a b c : Task) :
  same_task_identity a b -> same_task_identity b c -> same_task_identity a c.
Proof. unfold same_task_identity. intuition congruence. Qed.

Lemma same_guest_identity_trans (a b c : Guest) :
  same_guest_identity a b -> same_guest_identity b c -> same_guest_identity a c.
Proof. unfold same_guest_identity. intuition congruence. Qed.

Lemma committed_sample (db db' : DB) (i : Z) (s : Sample) :
  committed db db' -> get_sample db i = Some s -> get_sample db' i = Some s.
Proof.
  intros (_ & _ & Hc) Hget. destruct Hc; try exact Hget.
  apply (find_snoc_old Sample_id), Hget.
Qed.

Lemma committed_task (db db' : DB) (i : Z) (t : Task) :
  committed db db' -> get_task db i = Some t ->
  exists t', get_task db' i = Some t' /\ same_task_identity t t' /\
             (Task_status t <> pending -> Task_status t' <> pending).
Proof.
  intros (Hok & _ & Hc) Hget. destruct Hc as [s|t0|r st co Hin Hst|g j|g d];
    try (exists t; split; [exact Hget|];
         split; [apply same_task_identity_refl | auto]; fail).
  - exists t. split; [apply (find_snoc_old Task_id), Hget|].
    split; [apply same_task_identity_refl | auto].
  - set (r' := with_completed_on (with_status r st) co).
    destruct (Z.eq_dec i (Task_id r')) as [->|Hne].
    + exists r'. rewrite get_put_task_eq, Hget. split; [reflexivity|].
      cbn [Task_id r' with_completed_on with_status] in Hget.
      rewrite (get_task_In db r (constraints_task_ids db Hok) Hin) in Hget.
      injection Hget as <-. split; [|intros _; exact Hst].
      unfold same_task_identity. cbn. tauto.
    + exists t. rewrite (get_put_task_ne r' db i Hne). split; [exact Hget|].
      split; [apply same_task_identity_refl | auto].
Qed.

Lemma committed_guest (db db' : DB) (i : Z) (g : Guest) :
  committed db db' -> get_guest db i = Some g ->
  exists g', get_guest db' i = Some g' /\ same_guest_identity g g'.
Proof.
  assert (forall x, same_guest_identity x x) as Hrefl
    by (intros x; unfold same_guest_identity; tauto).
  intros (Hok & _ & Hc) Hget. destruct Hc as [s|t0|r st co|g0 j|g0 d Hin];
    try (exists g; split; [exact Hget | apply Hrefl]; fail).
  - exists g. split; [apply (find_snoc_old Guest_id), Hget | apply Hrefl].
  - set (g' := with_shutdown_on g0 d).
    destruct (Z.eq_dec i (Guest_id g')) as [->|Hne].
    + exists g'. rewrite get_put_guest_eq, Hget. split; [reflexivity|].
      cbn [Guest_id g' with_shutdown_on] in Hget. unfold get_guest in Hget.
      rewrite (find_id_In Guest_id (guests db) g0
                 (constraints_guest_ids db Hok) Hin) in Hget.
      injection Hget as <-. unfold same_guest_identity. cbn. tauto.
    + exists g. rewrite (get_put_guest_ne g' db i Hne).
      split; [exact Hget | apply Hrefl].
Qed.

Lemma committed_references (db db' : DB) :
  committed db db' -> references_resolve db -> references_resolve db'.
Proof.
  intros (Hok & _ & Hc) [Hs Hg].
  assert (forall t s, In t (tasks db) -> Task_sample_id t = Some s ->
                      In s (map Sample_id (samples db))) as Hs'
    by (intros t s Ht E; apply (find_key_In Sample_id), (Hs t s Ht E)).
  assert (forall g i, In g (guests db) -> Guest_task_id g = Some i ->
                      In i (map Task_id (tasks db))) as Hg'
    by (intros g i Ht E; apply (find_key_In Task_id), (Hg g i Ht E)).
  clear Hs Hg. unfold references_resolve, get_sample, get_task.
  destruct Hc as [s|t0 Hid Hst Hco Hres|r st co Hin Hst|g0 j Hid Hj Hlink|g0 d Hin];
    cbn [tasks samples guests add_sample add_task put_task put_guest];
    split.
  - intros t s0 Ht E. apply find_key_In. rewrite map_app. apply in_or_app.
    left. eapply Hs'; eassumption.
  - intros g i Ht E. apply find_key_In. eapply Hg'; eassumption.
  - intros t s0 Ht E. apply find_key_In.
    apply in_app_or in Ht as [Ht|[<-|[]]]; [eapply Hs'; eassumption|].
    apply Hres, E.
  - intros g i Ht E. apply find_key_In. rewrite map_app. apply in_or_app.
    left. eapply Hg'; eassumption.
  - intros t s0 Ht E. apply find_key_In.
    apply (replace_row_In Task_id) in Ht as [->|[Ht _]];
      [|eapply Hs'; eassumption].
    apply (Hs' r s0 Hin). exact E.
  - intros g i Ht E. apply find_key_In. rewrite (replace_row_keys Task_id).
    eapply Hg'; eassumption.
  - intros t s0 Ht E. apply find_key_In. eapply Hs'; eassumption.
  - intros g i Ht E. apply find_key_In.
    apply in_app_or in Ht as [Ht|[<-|[]]]; [eapply Hg'; eassumption|].
    rewrite Hlink in E. injection E as <-. exact Hj.
  - intros t s0 Ht E. apply find_key_In. eapply Hs'; eassumption.
  - intros g i Ht E. apply find_key_In.
    apply (replace_row_In Guest_id) in Ht as [->|[Ht _]];
      [|eapply Hg'; eassumption].
    apply (Hg' g0 i Hin). exact E.
Qed.

Lemma distinct_inj {A B : Type} (eqb : B -> B -> bool) (key : A -> B)
    (l : list A) (x y : A) :
  (forall b, eqb b b = true) ->
  distinct eqb (map key l) = true ->
  In x l -> In y l -> key x = key y -> x = y.
Proof.
  intros Hrefl. induction l as [|z r IH]; [contradiction|].
  cbn [map distinct]. rewrite andb_true_iff, negb_true_iff.
  intros [Hz Hr] Hx Hy E.
  assert (forall w, In w r -> key w <> key z) as Hne.
  { intros w Hw Ew.
    assert (existsb (eqb (key z)) (map key r) = true) as F; [|congruence].
    apply existsb_exists. exists (key w). split; [apply in_map, Hw|].
    rewrite Ew. apply Hrefl. }
  destruct Hx as [<-|Hx], Hy as [<-|Hy]; try reflexivity.
  - exfalso. apply (Hne y Hy). congruence.
  - exfalso. apply (Hne x Hx). congruence.
  - apply IH; assumption.
Qed.

Lemma rtc_committed_preserves (P : DB -> Prop) :
  (forall a b, committed a b -> P a -> P b) ->
  forall a b, rtc committed a b -> P a -> P b.
Proof.
  intros Hstep a b Hr. induction Hr as [x|x y z Hxy _ IH]; [auto|].
  intros Hx. apply IH. eapply Hstep; eassumption.
Qed.

(** X8. In every store that a sequence of calls builds from the empty
    store, whatever the store did to the commits, no two tasks have the
    same id, no two samples have the same five hashes, every sample has a
    file type, no task has more than one guest linked to it, every
    [sample_id] of a task is the id of a stored sample and every [task_id]
    of a guest is the id of a stored task. *)
Theorem reachable_stores_are_consistent (added_on_default : datetime)
    (h : list (datetime * call)) :
  let db := run_history added_on_default h empty_db in
  (forall t1 t2, In t1 (tasks db) -> In t2 (tasks db) ->
                 Task_id t1 = Task_id t2 -> t1 = t2) /\
  (forall s1 s2, In s1 (samples db) -> In s2 (samples db) ->
                 Sample_hashes s1 = Sample_hashes s2 -> s1 = s2) /\
  (forall s, In s (samples db) -> Sample_file_type s <> None) /\
  (forall i, (length (linked_guests db i) <= 1)%nat) /\
  references_resolve db.
Proof.
  intros db.
  assert (constraints_ok db = true) as Hok
    by (apply run_history_constraints; reflexivity).
  assert (references_resolve db) as Href.
  { apply (rtc_committed_preserves references_resolve committed_references
             empty_db db).
    - apply run_history_committed. reflexivity.
    - split; intros ? ? []. }
  pose proof Hok as Hc. unfold constraints_ok in Hc.
  rewrite !andb_true_iff in Hc.
  destruct Hc as [[[[[[H1 H2] H3] H4] H5] H6] H7].
  split; [|split; [|split; [|split]]].
  - intros t1 t2. apply (distinct_inj Z.eqb Task_id); [apply Z.eqb_refl | exact H1].
  - intros s1 s2. apply (distinct_inj hash_tuple_eqb Sample_hashes);
      [|exact H4]. intros b. apply hash_tuple_eqb_eq. reflexivity.
  - intros s Hs. rewrite forallb_forall in H5. specialize (H5 s Hs).
    destruct (Sample_file_type s); [discriminate | discriminate].
  - intros i. apply distinct_filter_le1. exact H7.
  - exact Href.
Qed.

(** X9. A stored sample is never modified and never removed: whatever
    calls follow, and whatever the store does to their commits,
    [view_sample] on its id keeps returning the same row. *)
Theorem stored_samples_never_change (added_on_default : datetime)
    (h : list (datetime * call)) (db : DB) (i : Z) (s : Sample) :
  constraints_ok db = true ->
  view_sample db i = Some s ->
  view_sample (run_history added_on_default h db) i = Some s.
Proof.
  intros Hok. unfold view_sample, new_session. cbn [work].
  apply (rtc_committed_preserves (fun d => get_sample d i = Some s)).
  - intros a b Hab. apply committed_sample, Hab.
  - apply run_history_committed, Hok.
Qed.

(** X10. A stored task is never removed, and no call changes its id,
    target, category, timeout, priority, custom, machine, package,
    options, platform, [added_on] or [sample_id]: only its status and
    [completed_on] move.  A task that has left the status pending never
    is pending again. *)
Theorem tasks_keep_identity_and_never_return_to_pending
    (added_on_default : datetime) (h : list (datetime * call)) (db : DB)
    (i : Z) (t : Task) :
  constraints_ok db = true ->
  view_task db i = Some t ->
  exists t',
    view_task (run_history added_on_default h db) i = Some t' /\
    same_task_identity t t' /\
    (Task_status t <> pending -> Task_status t' <> pending).
Proof.
  intros Hok. unfold view_task, new_session. cbn [work]. intros Hget0.
  apply (rtc_committed_preserves
           (fun d => exists t', get_task d i = Some t' /\
                                same_task_identity t t' /\
                                (Task_status t <> pending ->
                                 Task_status t' <> pending)) ) with (a := db).
  - intros a b Hab (t1 & Hget & Hid & Hst).
    destruct (committed_task a b i t1 Hab Hget) as (t2 & Hget2 & Hid2 & Hst2).
    exists t2. split; [exact Hget2|].
    split; [eapply same_task_identity_trans; eassumption | auto].
  - apply run_history_committed, Hok.
  - exists t. split; [assumption|].
    split; [apply same_task_identity_refl | auto].
Qed.

(** X11. A stored guest is never removed, and no call changes its id,
    name, label, manager, [started_on] or the task it is linked to: only
    its [shutdown_on] moves. *)
Theorem guests_keep_identity (added_on_default : datetime)
    (h : list (datetime * call)) (db : DB) (i : Z) (g : Guest) :
  constraints_ok db = true ->
  get_guest db i = Some g ->
  exists g',
    get_guest (run_history added_on_default h db) i = Some g' /\
    same_guest_identity g g'.
Proof.
  intros Hok Hget0.
  apply (rtc_committed_preserves
           (fun d => exists g', get_guest d i = Some g' /\
                                same_guest_identity g g')) with (a := db).
  - intros a b Hab (g1 & Hget & Hid).
    destruct (committed_guest a b i g1 Hab Hget) as (g2 & Hget2 & Hid2).
    exists g2. split; [exact Hget2|].
    eapply same_guest_identity_trans; eassumption.
  - apply run_history_committed, Hok.
  - exists g. split; [assumption|]. unfold same_guest_identity. tauto.
Qed.

(** ** Claiming one task after the other *)

Lemma replace_row_absent {A : Type} (key : A -> Z) (t : A) (l : list A) :
  ~ In (key t) (map key l) -> replace_row key t l = l.
Proof.
  induction l as [|x r IH]; [reflexivity|]. cbn [map replace_row]. intros Hn.
  destruct (key x =? key t) eqn:E.
  - apply Z.eqb_eq in E. exfalso. apply Hn. left. exact E.
  - f_equal. apply IH. intros H. apply Hn. right. exact H.
Qed.

Lemma pending_after_claim (l : list Task) (r : Task) :
  distinct Z.eqb (map Task_id l) = true -> In r l ->
  Task_status r = pending ->
  S (length (List.filter (fun t => status_eqb (Task_status t) pending)
                         (replace_row Task_id (with_status r processing) l)))
  = length (List.filter (fun t => status_eqb (Task_status t) pending) l).
Proof.
  induction l as [|x rest IH]; [contradiction|].
  intros Hd Hin Hst. cbn [map] in Hd.
  apply distinct_cons_inv in Hd as [Hx Hrest].
  cbn [replace_row map List.filter].
  change (Task_id (with_status r processing)) with (Task_id r).
  destruct (Task_id x =? Task_id r) eqn:E.
  - apply Z.eqb_eq in E.
    assert (x = r) as ->.
    { destruct Hin as [H|H]; [exact H|]. exfalso. apply Hx.
      rewrite E. apply in_map, H. }
    cbn [Task_status with_status status_eqb]. rewrite Hst. cbn [status_eqb length].
    f_equal.
    change (map (fun x0 => if Task_id x0 =? Task_id r
                           then with_status r processing else x0) rest)
      with (replace_row Task_id (with_status r processing) rest).
    rewrite replace_row_absent; [reflexivity | exact Hx].
  - destruct Hin as [->|Hin]; [rewrite Z.eqb_refl in E; discriminate|].
    change (map (fun x0 => if Task_id x0 =? Task_id r
                           then with_status r processing else x0) rest)
      with (replace_row Task_id (with_status r processing) rest).
    destruct (status_eqb (Task_status x) pending); cbn [length];
      rewrite <- (IH Hrest Hin Hst); reflexivity.
Qed.

(** What a call of [fetch_and_process] that returns a task has done. *)
Lemma fetch_and_process_Some (db db1 : DB) (fault : store_fault) (t1 : Task) :
  fetch_and_process db fault = (db1, Ret (Some t1)) ->
  exists r, In r (tasks db) /\ Task_status r = pending /\
            t1 = with_status r processing /\ db1 = put_task t1 db /\
            constraints_ok db1 = true.
Proof.
  unfold fetch_and_process. unfold new_session. cbn [work].
  pose proof (query_next_pending_spec db) as Hq.
  destruct (query_next_pending db) as [r|]; cbn [option_map].
  - destruct Hq as (Hin & Hst & _).
    destruct fault; unfold commit, on_work, rollback; cbn [work store];
      [|discriminate].
    destruct (constraints_ok (put_task _ db)) eqn:E; cbn [store];
      [|discriminate].
    intros [= <- <-]. exists r. auto.
  - destruct fault; unfold commit, on_work, rollback; cbn [work store];
      [|discriminate].
    destruct (constraints_ok db); discriminate.
Qed.

(** X12. A task that [fetch_and_process] has returned is out of the
    queue: the number of pending tasks has gone down by one, no pending
    task has its id, and no later call of [fetch_and_process] on the store
    it left returns a task with that id. *)
Theorem claimed_task_leaves_the_queue (db db1 : DB) (fault : store_fault)
    (t1 : Task) :
  constraints_ok db = true ->
  fetch_and_process db fault = (db1, Ret (Some t1)) ->
  S (length (pending_tasks db1)) = length (pending_tasks db) /\
  (forall x, In x (pending_tasks db1) -> Task_id x <> Task_id t1) /\
  (forall fault2 db2 t2,
     fetch_and_process db1 fault2 = (db2, Ret (Some t2)) ->
     Task_id t2 <> Task_id t1).
Proof.
  intros Hok Hf.
  destruct (fetch_and_process_Some db db1 fault t1 Hf)
    as (r & Hin & Hst & -> & -> & Hok1).
  assert (forall x, In x (pending_tasks (put_task (with_status r processing) db))
                    -> Task_id x <> Task_id (with_status r processing)) as Hb.
  { intros x Hx. apply filter_In in Hx as [Hx Hp].
    apply status_eqb_eq in Hp. cbn [tasks put_task] in Hx.
    apply (replace_row_In Task_id) in Hx as [->|[_ Hne]]; [discriminate|].
    exact Hne. }
  split; [|split].
  - unfold pending_tasks. cbn [tasks put_task].
    apply pending_after_claim; [apply constraints_task_ids, Hok | exact Hin | exact Hst].
  - exact Hb.
  - intros fault2 db2 t2 Hf2.
    destruct (fetch_and_process_Some _ _ _ _ Hf2) as (r2 & Hin2 & Hst2 & -> & _).
    change (Task_id (with_status r2 processing)) with (Task_id r2).
    apply Hb. apply filter_In. split; [exact Hin2|].
    apply status_eqb_eq, Hst2.
Qed.

(** ** A guest from start to stop *)

Lemma put_shutdown_constraints (db : DB) (g0 : Guest) (d : option datetime) :
  constraints_ok db = true -> In g0 (guests db) ->
  constraints_ok (put_guest (with_shutdown_on g0 d) db) = true.
Proof.
  intros Hok Hin. set (g := with_shutdown_on g0 d).
  assert (map Guest_task_id (guests (put_guest g db))
          = map Guest_task_id (guests db)) as Hmap.
  { cbn [guests put_guest]. unfold replace_row. rewrite map_map.
    apply map_ext_in. intros x Hx.
    destruct (Guest_id x =? Guest_id g) eqn:E; [|reflexivity].
    apply Z.eqb_eq in E. cbn [g Guest_task_id with_shutdown_on Guest_id] in *.
    f_equal. symmetry.
    apply (distinct_inj Z.eqb Guest_id (guests db) x g0);
      [apply Z.eqb_refl | apply constraints_guest_ids, Hok | exact Hx
      | exact Hin | exact E]. }
  pose proof Hok as Hok0. revert Hok0. unfold constraints_ok.
  rewrite put_guest_ids, Hmap.
  rewrite (forallb_comp Guest_task_id is_some (guests (put_guest g db))).
  rewrite (forallb_comp Guest_task_id is_some (guests db)).
  rewrite Hmap. cbn [tasks samples put_guest]. tauto.
Qed.

Lemma set_task_guest_unlinked (db : DB) (task : Task) (guest : Guest) :
  linked_guests db (Task_id task) = [] ->
  set_task_guest task guest db
  = mkDB (tasks db) (samples db)
         (guests db ++ [with_task_id guest (Some (Task_id task))]).
Proof.
  unfold linked_guests, set_task_guest. intros Hl. f_equal. f_equal.
  induction (guests db) as [|g r IH]; [reflexivity|].
  cbn [List.filter map] in *.
  destruct (option_Z_eqb (Guest_task_id g) (Some (Task_id task)));
    [discriminate|]. f_equal. apply IH, Hl.
Qed.

Lemma add_guest_constraints (db : DB) (g : Guest) (i : Z) :
  constraints_ok db = true ->
  Guest_id g = next_id (map Guest_id (guests db)) ->
  Guest_task_id g = Some i -> linked_guests db i = [] ->
  constraints_ok (mkDB (tasks db) (samples db) (guests db ++ [g])) = true.
Proof.
  unfold constraints_ok. cbn [tasks samples guests].
  rewrite !andb_true_iff. intros [[[[[[H1 H2] H3] H4] H5] H6] H7] Hid Hi Hl.
  repeat split; try assumption.
  - rewrite map_app. cbn [map]. apply distinct_snoc_true; [|exact H3].
    intros y Hy. apply Z.eqb_neq. intros ->. rewrite Hid in Hy.
    exact (next_id_fresh _ Hy).
  - rewrite forallb_app, H6. cbn. rewrite Hi. reflexivity.
  - rewrite map_app. cbn [map]. apply distinct_snoc_true; [|exact H7].
    intros y Hy. apply in_map_iff in Hy as (g' & <- & Hg').
    rewrite Hi.
    destruct (option_Z_eqb (Guest_task_id g') (Some i)) eqn:E; [|reflexivity].
    exfalso.
    assert (In g' (linked_guests db i)) as F
      by (apply filter_In; split; assumption).
    rewrite Hl in F. exact F.
Qed.

(** X13. On a stored task that has no guest yet, [guest_start] with a
    commit that goes through returns a new guest id; the row of that id
    has the name, label and manager given, [started_on] equal to the clock
    reading of the call, no [shutdown_on], and is the one guest linked to
    the task; no task or sample row is touched.  [guest_stop] on that id
    then sets [shutdown_on] to the clock reading of its call and leaves
    the rest of the row as it was. *)
Theorem guest_start_then_stop (db : DB) (now1 now2 : datetime) (task_id : Z)
    (name label manager : string) :
  constraints_ok db = true ->
  get_task db task_id <> None -> linked_guests db task_id = [] ->
  exists gid db1 db2,
    guest_start db now1 NoFault task_id name label manager
    = (db1, Ret (Some gid)) /\
    get_guest db gid = None /\
    get_guest db1 gid
    = Some (mkGuest gid name label manager now1 None (Some task_id)) /\
    linked_guests db1 task_id
    = [mkGuest gid name label manager now1 None (Some task_id)] /\
    tasks db1 = tasks db /\ samples db1 = samples db /\
    guest_stop db1 now2 NoFault gid = (db2, Ret tt) /\
    get_guest db2 gid
    = Some (mkGuest gid name label manager now1 (Some now2) (Some task_id)) /\
    tasks db2 = tasks db /\ samples db2 = samples db.
Proof.
  intros Hok Hget Hl.
  destruct (get_task db task_id) as [task|] eqn:Ht; [|contradiction].
  clear Hget. pose proof Ht as Hid. apply get_task_Some in Hid as [_ Hid].
  subst task_id.
  set (gid := next_id (map Guest_id (guests db))).
  set (g := mkGuest gid name label manager now1 None (Some (Task_id task))).
  set (db1 := mkDB (tasks db) (samples db) (guests db ++ [g])).
  assert (~ In gid (map Guest_id (guests db))) as Hfresh by apply next_id_fresh.
  assert (constraints_ok db1 = true) as Hok1.
  { apply (add_guest_constraints db g (Task_id task)); auto. }
  assert (get_guest db1 gid = Some g) as Hg1
    by (apply (find_snoc_fresh Guest_id (guests db) g), Hfresh).
  assert (In g (guests db1)) as Hin1
    by (cbn; apply in_or_app; right; left; reflexivity).
  exists gid, db1, (put_guest (with_shutdown_on g (Some now2)) db1).
  split; [|split; [|split; [|split; [|split; [|split; [|split]]]]]].
  - unfold guest_start. unfold_session. rewrite Ht.
    rewrite (set_task_guest_unlinked db task _ Hl).
    fold gid. change (with_task_id _ _) with g. fold db1.
    rewrite Hok1. reflexivity.
  - apply (find_fresh_None Guest_id), Hfresh.
  - exact Hg1.
  - unfold linked_guests. cbn [guests db1]. rewrite List.filter_app.
    fold (linked_guests db (Task_id task)). rewrite Hl. cbn.
    rewrite Z.eqb_refl. reflexivity.
  - reflexivity.
  - reflexivity.
  - unfold guest_stop. unfold_session. rewrite Hg1.
    rewrite (put_shutdown_constraints db1 g (Some now2) Hok1 Hin1).
    reflexivity.
  - split; [|split; reflexivity].
    change gid with (Guest_id (with_shutdown_on g (Some now2))) at 1.
    rewrite get_put_guest_eq. cbn [Guest_id with_shutdown_on g].
    fold gid. fold g. rewrite Hg1. reflexivity.
Qed.

(** ** Opening the database *)

(** X14. [Database.__init__] takes the connection string from its
    argument when one is given, else from the configuration when it has
    one, else it is the SQLite file under the root.  It creates a folder
    only in the last case, only the folder of that file, and only when
    neither the file nor the folder exists.  It fails exactly when that
    folder cannot be created or when the schema cannot be created on the
    engine; when it succeeds, statement logging is off and the pool
    timeout is the configured one when that is set and not zero, and 60
    otherwise. *)
Theorem Database_init_source_and_failures (host : Host) (cfg : Config)
    (db_file db_dir : string) (dsn : option string) :
  let r := Database_init host cfg db_file db_dir dsn in
  let url :=
    if truthy dsn then match dsn with Some d => d | None => "" end
    else if truthy (cuckoo_database cfg)
         then match cuckoo_database cfg with Some d => d | None => "" end
         else String.append "sqlite:///" db_file in
  let needs_folder :=
    negb (truthy dsn) && negb (truthy (cuckoo_database cfg)) &&
    negb (path_exists host db_file) && negb (path_exists host db_dir) in
  (init_created r = [] \/ init_created r = [db_dir]) /\
  (init_created r = [db_dir] <->
   needs_folder = true /\ create_folder_ok host db_dir = true) /\
  (init_result r = inl UnableToCreateDirectory <->
   needs_folder = true /\ create_folder_ok host db_dir = false) /\
  (init_result r = inl UnableToCreateOrConnect <->
   (needs_folder = true -> create_folder_ok host db_dir = true) /\
   create_all_ok host url = false) /\
  (forall e, init_result r = inr e ->
     engine_url e = url /\
     engine_null_pool e = (truthy dsn || truthy (cuckoo_database cfg)) /\
     engine_echo e = false /\
     engine_pool_timeout e
     = match cuckoo_database_timeout cfg with
       | Some n => if n =? 0 then 60 else n
       | None => 60
       end).
Proof.
  cbv zeta. unfold Database_init, Database_init_engine.
  destruct (truthy dsn), (truthy (cuckoo_database cfg)),
    (path_exists host db_file), (path_exists host db_dir);
    cbn [negb andb orb];
    try destruct (create_folder_ok host db_dir);
    repeat match goal with
           | |- context [create_all_ok host ?u] =>
               destruct (create_all_ok host u) eqn:?
           end;
    cbn [init_created init_result];
    (split; [auto|]);
    (split; [split; [intros H; try discriminate H; auto
                    | intros [H1 H2]; try discriminate; auto]|]);
    (split; [split; [intros H; try discriminate H; auto
                    | intros [H1 H2]; try discriminate; auto]|]);
    (split; [split; [intros H; try discriminate H; auto
                    | intros [H1 H2]; try discriminate; auto;
                      try (specialize (H1 eq_refl); discriminate)]|]);
    intros e [= <-]; cbn;
    destruct (cuckoo_database_timeout cfg) as [n|]; cbn;
    try destruct (n =? 0); auto.
Qed.

(** ** The statements on concrete stores *)

(** X1 on the store of A, B and C. *)
Lemma fetch_then_process_is_fetch_and_process_witness :
  let db := abc_db in
  let fault := NoFault in
  constraints_ok db = true /\
  match fetch db with
  | Some r =>
      In r (tasks db) /\ Task_status r = pending /\
      process db fault (Task_id r)
      = (fst (fetch_and_process db fault),
         Ret match fault with NoFault => true | StoreError => false end) /\
      snd (fetch_and_process db fault)
      = Ret match fault with
            | NoFault => Some (with_status r processing)
            | StoreError => None
            end
  | None =>
      fetch_and_process db fault = (db, Ret None) /\
      forall x, In x (tasks db) -> Task_status x <> pending
  end.
Proof.
  cbv zeta. split; [reflexivity|].
  exact (fetch_then_process_is_fetch_and_process abc_db NoFault eq_refl).
Defined.

(** X2 on a task that was completed at time 10: [process] puts it back
    to processing and keeps its [completed_on]. *)
Lemma process_ignores_current_status_witness :
  let db := completed_once_db in
  let fault := NoFault in
  let task_id := 1 in
  constraints_ok db = true /\
  get_task db task_id
  = Some (mkTask 1 "http://a" "url" 0 1 None None None None None 5
                 (Some 10) success None) /\
  match get_task db task_id with
  | None => process db fault task_id = (db, Raise AttributeError)
  | Some t =>
      match fault with
      | NoFault =>
          exists db',
            process db fault task_id = (db', Ret true) /\
            get_task db' task_id = Some (with_status t processing) /\
            Task_completed_on (with_status t processing)
            = Task_completed_on t /\
            (forall i, i <> task_id -> get_task db' i = get_task db i) /\
            samples db' = samples db /\ guests db' = guests db
      | StoreError => process db fault task_id = (db, Ret false)
      end
  end.
Proof.
  cbv zeta. split; [reflexivity|]. split; [reflexivity|].
  exact (process_ignores_current_status completed_once_db NoFault 1 eq_refl).
Defined.

(** X3 on the store of A, B and C. *)
Lemma add_url_then_view_task_witness :
  let db := abc_db in
  let url := "http://d" in
  let a := default_args in
  constraints_ok db = true /\
  exists id db' t,
    add_url 5 db NoFault url a = (db', Ret (Some id)) /\
    view_task db id = None /\
    (forall x, In x (tasks db) -> Task_id x < id) /\
    view_task db' id = Some t /\
    Task_id t = id /\ Task_target t = url /\ Task_category t = "url" /\
    Task_status t = pending /\ Task_sample_id t = None /\
    Task_completed_on t = None /\
    Task_timeout t = arg_timeout a /\ Task_priority t = arg_priority a /\
    Task_package t = arg_package a /\ Task_options t = arg_options a /\
    Task_custom t = arg_custom a /\ Task_machine t = arg_machine a /\
    Task_platform t = arg_platform a /\
    tasks db' = tasks db ++ [t] /\
    (forall i x, view_task db i = Some x -> view_task db' i = Some x) /\
    samples db' = samples db /\ guests db' = guests db.
Proof.
  cbv zeta. split; [reflexivity|].
  exact (add_url_then_view_task 5 abc_db "http://d" default_args eq_refl).
Defined.

Lemma one_sample_db_samples (s : Sample) :
  In s (samples one_sample_db) ->
  Sample_md5 s = "md5-x" /\ Sample_sha1 s = "sha1-a".
Proof. intros [<-|[]]. split; reflexivity. Qed.

(** X4 on a store that holds another sample. *)
Lemma add_new_file_then_view_witness :
  let db := one_sample_db in
  let f := sample_file in
  let a := default_args in
  constraints_ok db = true /\ truthy (get_type f) = true /\
  (forall s, In s (samples db) -> Sample_hashes s <> File_hashes f) /\
  exists db' tid t s,
    add 5 db NoFault NoFault (File f) a = (db', Ret (Some tid)) /\
    view_sample db (Sample_id s) = None /\
    view_sample db' (Sample_id s) = Some s /\
    Sample_hashes s = File_hashes f /\
    Sample_file_size s = get_size f /\
    Sample_file_type s = get_type f /\
    samples db' = samples db ++ [s] /\
    view_task db tid = None /\
    view_task db' tid = Some t /\
    Task_sample_id t = Some (Sample_id s) /\
    Task_target t = file_path f /\ Task_category t = "file" /\
    Task_status t = pending /\
    tasks db' = tasks db ++ [t] /\
    guests db' = guests db.
Proof.
  cbv zeta.
  assert (forall s, In s (samples one_sample_db) ->
                    Sample_hashes s <> File_hashes sample_file) as H.
  { intros s Hs E. apply one_sample_db_samples in Hs as [Hmd5 _].
    unfold Sample_hashes in E. rewrite Hmd5 in E. discriminate E. }
  split; [reflexivity|]. split; [reflexivity|]. split; [exact H|].
  exact (add_new_file_then_view 5 one_sample_db sample_file default_args
           eq_refl eq_refl H).
Defined.

(** X5 on a file without a type. *)
Lemma add_file_of_unknown_type_witness :
  let db := one_sample_db in
  let f := untyped_file in
  let a := default_args in
  truthy (get_type f) = false /\
  query_sample_by_md5 db (get_md5 f) = None /\
  samples (fst (add 5 db NoFault NoFault (File f) a)) = samples db /\
  add 5 db NoFault NoFault (File f) a = (db, Raise AttributeError).
Proof.
  cbv zeta. split; [reflexivity|]. split; [reflexivity|].
  destruct (add_file_of_unknown_type 5 one_sample_db NoFault NoFault
              untyped_file default_args eq_refl) as [H1 H2].
  split; [exact H1 | exact (H2 eq_refl)].
Defined.

(** X6 on the same content under two paths. *)
Lemma add_same_content_twice_shares_sample_witness :
  let db := one_sample_db in
  let f1 := sample_file in
  let f2 := sample_file_copy in
  let a1 := default_args in
  let a2 := default_args in
  constraints_ok db = true /\ truthy (get_type f1) = true /\
  File_hashes f2 = File_hashes f1 /\
  (forall s, In s (samples db) -> Sample_md5 s <> get_md5 f1) /\
  exists db1 db2 t1 t2 s,
    add 5 db NoFault NoFault (File f1) a1 = (db1, Ret (Some (Task_id t1))) /\
    add 5 db1 NoFault NoFault (File f2) a2 = (db2, Ret (Some (Task_id t2))) /\
    samples db2 = samples db ++ [s] /\
    Sample_hashes s = File_hashes f1 /\
    tasks db2 = tasks db ++ [t1; t2] /\
    Task_id t1 <> Task_id t2 /\
    Task_target t1 = file_path f1 /\ Task_target t2 = file_path f2 /\
    Task_sample_id t1 = Some (Sample_id s) /\
    Task_sample_id t2 = Some (Sample_id s).
Proof.
  cbv zeta.
  assert (forall s, In s (samples one_sample_db) ->
                    Sample_md5 s <> get_md5 sample_file) as H.
  { intros s Hs E. apply one_sample_db_samples in Hs as [Hmd5 _].
    rewrite Hmd5 in E. discriminate E. }
  split; [reflexivity|]. split; [reflexivity|]. split; [reflexivity|].
  split; [exact H|].
  exact (add_same_content_twice_shares_sample 5 one_sample_db sample_file
           sample_file_copy default_args default_args
           eq_refl eq_refl eq_refl H).
Defined.

(** X9 on a sample that a second file with its MD5, a claim and a failed
    submission follow. *)
Lemma stored_samples_never_change_witness :
  let h := [(2, Call_add NoFault NoFault (File colliding_b) default_args);
            (3, Call_fetch_and_process NoFault);
            (4, Call_add NoFault StoreError (File sample_file) default_args)] in
  let db := one_sample_db in
  let s := mkSample 1 10 (Some "data") "md5-x" "crc-a" "sha1-a" "sha256-a"
                    "sha512-a" None in
  constraints_ok db = true /\
  view_sample db 1 = Some s /\
  view_sample (run_history 5 h db) 1 = Some s.
Proof.
  cbv zeta. split; [reflexivity|]. split; [reflexivity|].
  exact (stored_samples_never_change 5 _ one_sample_db 1 _ eq_refl eq_refl).
Defined.

(** X10 on a claimed task that is completed and then processed again. *)
Lemma tasks_keep_identity_and_never_return_to_pending_witness :
  let h := [(10, Call_complete NoFault 1 false);
            (11, Call_process NoFault 1);
            (12, Call_add NoFault NoFault (URL "http://b") default_args)] in
  let db := claimed_db in
  let t := mkTask 1 "http://a" "url" 0 1 None None None None None 5 None
                  processing None in
  constraints_ok db = true /\
  view_task db 1 = Some t /\
  Task_status t <> pending /\
  exists t',
    view_task (run_history 5 h db) 1 = Some t' /\
    same_task_identity t t' /\
    Task_status t' <> pending.
Proof.
  cbv zeta. split; [reflexivity|]. split; [reflexivity|].
  split; [discriminate|].
  destruct (tasks_keep_identity_and_never_return_to_pending 5
              [(10, Call_complete NoFault 1 false);
               (11, Call_process NoFault 1);
               (12, Call_add NoFault NoFault (URL "http://b") default_args)]
              claimed_db 1 _ eq_refl eq_refl) as (t' & H1 & H2 & H3).
  exists t'. split; [exact H1|]. split; [exact H2|].
  apply H3. discriminate.
Defined.

(** X11 on a guest that is stopped a second time. *)
Lemma guests_keep_identity_witness :
  let h := [(12, Call_guest_stop NoFault 1);
            (13, Call_guest_start NoFault 1 "vm2" "label2" "manager")] in
  let db := stopped_guest_db in
  let g := mkGuest 1 "vm" "label" "manager" 7 (Some 10) (Some 1) in
  constraints_ok db = true /\
  get_guest db 1 = Some g /\
  exists g',
    get_guest (run_history 5 h db) 1 = Some g' /\
    same_guest_identity g g'.
Proof.
  cbv zeta. split; [reflexivity|]. split; [reflexivity|].
  exact (guests_keep_identity 5 _ stopped_guest_db 1 _ eq_refl eq_refl).
Defined.

(** X12 on the store of A, B and C, where C is claimed. *)
Lemma claimed_task_leaves_the_queue_witness :
  let db := abc_db in
  let t1 := mkTask 3 "C" "url" 0 10 None None None None None 1 None
                   processing None in
  let db1 := put_task t1 db in
  constraints_ok db = true /\
  fetch_and_process db NoFault = (db1, Ret (Some t1)) /\
  S (length (pending_tasks db1)) = length (pending_tasks db) /\
  (forall x, In x (pending_tasks db1) -> Task_id x <> Task_id t1) /\
  (forall fault2 db2 t2,
     fetch_and_process db1 fault2 = (db2, Ret (Some t2)) ->
     Task_id t2 <> Task_id t1).
Proof.
  cbv zeta.
  assert (fetch_and_process abc_db NoFault
          = (put_task (mkTask 3 "C" "url" 0 10 None None None None None 1
                              None processing None) abc_db,
             Ret (Some (mkTask 3 "C" "url" 0 10 None None None None None 1
                               None processing None)))) as H
    by reflexivity.
  split; [reflexivity|]. split; [exact H|].
  exact (claimed_task_leaves_the_queue abc_db _ NoFault _ eq_refl H).
Defined.

(** X13 on the claimed task. *)
Lemma guest_start_then_stop_witness :
  let db := claimed_db in
  let task_id := 1 in
  let now1 := 3 in
  let now2 := 9 in
  let name := "vm" in
  let label := "label" in
  let manager := "manager" in
  constraints_ok db = true /\
  get_task db task_id <> None /\ linked_guests db task_id = [] /\
  exists gid db1 db2,
    guest_start db now1 NoFault task_id name label manager
    = (db1, Ret (Some gid)) /\
    get_guest db gid = None /\
    get_guest db1 gid
    = Some (mkGuest gid name label manager now1 None (Some task_id)) /\
    linked_guests db1 task_id
    = [mkGuest gid name label manager now1 None (Some task_id)] /\
    tasks db1 = tasks db /\ samples db1 = samples db /\
    guest_stop db1 now2 NoFault gid = (db2, Ret tt) /\
    get_guest db2 gid
    = Some (mkGuest gid name label manager now1 (Some now2) (Some task_id)) /\
    tasks db2 = tasks db /\ samples db2 = samples db.
Proof.
  cbv zeta.
  assert (get_task claimed_db 1 <> None) as H by discriminate.
  split; [reflexivity|]. split; [exact H|]. split; [reflexivity|].
  exact (guest_start_then_stop claimed_db 3 9 1 "vm" "label" "manager"
           eq_refl H eq_refl).
Defined.

(** * Further properties of the reporting engine *)

Local Open Scope nat_scope.

(** ** The name of a module's configuration section *)

Lemma rsplit_dot_None (s : string) :
  rsplit_dot s = None <-> contains_dot s = false.
Proof.
  induction s as [|c r IH]; simpl; [tauto|].
  destruct (rsplit_dot r) as [[a b]|].
  - split; [discriminate|]. intros H. apply orb_false_iff in H as [_ H].
    apply IH in H. discriminate.
  - assert (contains_dot r = false) as -> by (apply IH; reflexivity).
    rewrite orb_false_r. destruct (Ascii.eqb c "."); split; auto; discriminate.
Qed.

Lemma rsplit_dot_Some (s a b : string) :
  rsplit_dot s = Some (a, b) ->
  s = String.append a (String "." b) /\ contains_dot b = false.
Proof.
  revert a. induction s as [|c r IH]; simpl; intros a; [discriminate|].
  destruct (rsplit_dot r) as [[a' b']|] eqn:E.
  - intros [= <- <-]. destruct (IH a' eq_refl) as [-> Hb].
    split; [reflexivity | exact Hb].
  - destruct (Ascii.eqb c ".") eqn:Ec; [|discriminate].
    intros [= <- <-]. apply Ascii.eqb_eq in Ec. subst c.
    split; [reflexivity | apply rsplit_dot_None, E].
Qed.

Lemma rsplit_dot_append (p x : string) :
  contains_dot x = false ->
  rsplit_dot (String.append p (String "." x)) = Some (p, x).
Proof.
  intros Hx. induction p as [|c p IH]; simpl.
  - rewrite (proj2 (rsplit_dot_None x) Hx). reflexivity.
  - rewrite IH. reflexivity.
Qed.

Lemma contains_dot_append (p x : string) :
  contains_dot (String.append p (String "." x)) = true.
Proof.
  induction p as [|c p IH]; simpl; [reflexivity|].
  rewrite IH. apply orb_true_r.
Qed.

(** X15. Splitting at the last dot, as [_populate] and [_run_report] do
    with [rsplit(".", 1)]: a name without a dot is not split; otherwise
    the two parts, joined by a dot, are the name again and the second part
    has no dot.  So the section looked up for a module found as
    [prefix.name], where [name] has no dot, is [name], whatever the prefix;
    and the name [_run_report] uses never has a dot. *)
Theorem section_name_is_after_last_dot (s : string) :
  match rsplit_dot s with
  | Some (a, b) =>
      s = String.append a (String "." b) /\ contains_dot b = false /\
      contains_dot s = true /\ report_module_name s = b
  | None => contains_dot s = false /\ report_module_name s = s
  end /\
  contains_dot (report_module_name s) = false /\
  (forall p x, contains_dot x = false ->
     rsplit_dot (String.append p (String "." x)) = Some (p, x) /\
     report_module_name (String.append p (String "." x)) = x).
Proof.
  assert (contains_dot (report_module_name s) = false) as Hnodot.
  { unfold report_module_name. destruct (contains_dot s) eqn:Hs; [|exact Hs].
    destruct (rsplit_dot s) as [[a b]|] eqn:E; [|exact (proj1 (rsplit_dot_None s) E)].
    apply (rsplit_dot_Some s a b E). }
  split; [|split; [exact Hnodot|]].
  - destruct (rsplit_dot s) as [[a b]|] eqn:E.
    + destruct (rsplit_dot_Some s a b E) as [Hs Hb].
      assert (contains_dot s = true) as Hd.
      { destruct (contains_dot s) eqn:F; [reflexivity|].
        apply rsplit_dot_None in F. congruence. }
      split; [exact Hs|]. split; [exact Hb|]. split; [exact Hd|].
      unfold report_module_name. rewrite Hd, E. reflexivity.
    + pose proof (proj1 (rsplit_dot_None s) E) as Hd.
      split; [exact Hd|]. unfold report_module_name. rewrite Hd. reflexivity.
  - intros p x Hx. split; [apply rsplit_dot_append, Hx|].
    unfold report_module_name.
    rewrite contains_dot_append, (rsplit_dot_append p x Hx). reflexivity.
Qed.

(** ** Loading the modules *)

Lemma report_module_name_rsplit (s a b : string) :
  rsplit_dot s = Some (a, b) -> report_module_name s = b.
Proof.
  intros E. unfold report_module_name. rewrite E.
  destruct (contains_dot s) eqn:F; [reflexivity|].
  apply rsplit_dot_None in F. congruence.
Qed.

(** X16. [_populate] imports, and warns about, only modules that are not
    packages and whose section, under the name [_run_report] will look
    up, is enabled in the configuration; the imported ones are those
    whose import succeeded and the warned ones those whose import raised
    [CuckooDependencyError].  When every module name has a dot and no
    import of an enabled module raises anything else, nothing escapes
    [_populate] and it goes through all of them: one failed dependency
    does not keep the later modules from being loaded. *)
Theorem populate_imports_enabled_modules (cfg : gmap string bool)
    (import : string -> import_outcome) (modules : list (string * bool)) :
  let r := _populate cfg import modules in
  (forall name, In name (populate_imported r ++ populate_warned r) ->
     In (name, false) modules /\ section_enabled cfg name = true) /\
  (forall name, In name (populate_imported r) -> import name = Imported) /\
  (forall name, In name (populate_warned r) ->
     import name = DependencyError) /\
  ((forall name, In (name, false) modules ->
      contains_dot name = true /\
      (section_enabled cfg name = true -> import name <> ImportFailed)) ->
   populate_raised r = None /\
   populate_imported r
   = List.filter (fun name => match import name with
                              | Imported => true
                              | _ => false
                              end) (import_candidates cfg modules) /\
   populate_warned r
   = List.filter (fun name => match import name with
                              | DependencyError => true
                              | _ => false
                              end) (import_candidates cfg modules)).
Proof.
  cbv zeta. induction modules as [|[name ispkg] rest IH].
  - cbn. split; [intros ? []|]. split; [intros ? []|].
    split; [intros ? []|]. intros _. repeat split; reflexivity.
  - destruct IH as (IH1 & IH2 & IH3 & IH4).
    assert ((forall name0, In (name0, false) ((name, ispkg) :: rest) ->
               contains_dot name0 = true /\
               (section_enabled cfg name0 = true ->
                import name0 <> ImportFailed)) ->
            forall name0, In (name0, false) rest ->
               contains_dot name0 = true /\
               (section_enabled cfg name0 = true ->
                import name0 <> ImportFailed)) as Htl
      by (intros H n Hn; apply H; right; exact Hn).
    assert (forall P : string -> Prop,
              (forall n, In n (populate_imported (_populate cfg import rest) ++
                               populate_warned (_populate cfg import rest)) ->
                         In (n, false) rest /\ P n) ->
              forall n, In n (populate_imported (_populate cfg import rest) ++
                              populate_warned (_populate cfg import rest)) ->
                        In (n, false) ((name, ispkg) :: rest) /\ P n) as Hcons
      by (intros P H n Hn; destruct (H n Hn); split; [right|]; assumption).
    cbn [_populate]. unfold import_candidates. cbn [List.filter fst snd].
    destruct ispkg; cbn [negb andb].
    { split;
        [apply (Hcons (fun n => section_enabled cfg n = true)), IH1|].
      split; [exact IH2|]. split; [exact IH3|].
      intros H. apply IH4, Htl, H. }
    destruct (rsplit_dot name) as [[a b]|] eqn:E.
    2:{ cbn. split; [intros ? []|]. split; [intros ? []|].
        split; [intros ? []|]. intros H.
        destruct (H name (or_introl eq_refl)) as [Hd _].
        apply rsplit_dot_None in E. congruence. }
    assert (section_enabled cfg name
            = match cfg !! b with Some true => true | _ => false end) as Hse
      by (unfold section_enabled;
          rewrite (report_module_name_rsplit _ _ _ E); reflexivity).
    rewrite !Hse.
    destruct (cfg !! b) as [[|]|] eqn:Hb; cbn [negb].
    + pose proof Hse as Hen.
      destruct (import name) eqn:Hi; cbn [map List.filter fst];
        rewrite ?Hi;
        cbn [populate_imported populate_warned populate_raised].
      * split; [|split; [|split]].
        -- intros n [<-|Hn]; [split; [left; reflexivity | exact Hen]|].
           apply (Hcons (fun n => section_enabled cfg n = true));
             [exact IH1 | exact Hn].
        -- intros n [<-|Hn]; [exact Hi | apply IH2, Hn].
        -- exact IH3.
        -- intros H. destruct (IH4 (Htl H)) as (R1 & R2 & R3).
           split; [exact R1|]. split; [f_equal; exact R2 | exact R3].
      * split; [|split; [|split]].
        -- intros n Hn. apply in_app_or in Hn as [Hn|[<-|Hn]].
           ++ apply (Hcons (fun n => section_enabled cfg n = true));
             [exact IH1 | apply in_or_app; left; exact Hn].
           ++ split; [left; reflexivity | exact Hen].
           ++ apply (Hcons (fun n => section_enabled cfg n = true));
             [exact IH1 | apply in_or_app; right; exact Hn].
        -- exact IH2.
        -- intros n [<-|Hn]; [exact Hi | apply IH3, Hn].
        -- intros H. destruct (IH4 (Htl H)) as (R1 & R2 & R3).
           split; [exact R1|]. split; [exact R2 | f_equal; exact R3].
      * split; [intros ? []|]. split; [intros ? []|].
        split; [intros ? []|]. intros H.
        destruct (H name (or_introl eq_refl)) as [_ Hf].
        exfalso. exact (Hf Hen Hi).
    + split;
        [apply (Hcons (fun n => section_enabled cfg n = true)), IH1|].
      split; [exact IH2|]. split; [exact IH3|].
      intros H. apply IH4, Htl, H.
    + split;
        [apply (Hcons (fun n => section_enabled cfg n = true)), IH1|].
      split; [exact IH2|]. split; [exact IH3|].
      intros H. apply IH4, Htl, H.
Qed.

(** ** Where a run of the reports ends *)

Lemma run_report_no_escape (h0 h : heap) (results : pyval)
    (module : ReportModule) :
  closed_below (length h0) h0 -> val_in (length h0) results ->
  length h0 <= length h ->
  (forall l, l < length h0 -> h !! l = h0 !! l) ->
  has_section module = true -> raises_only_report_errors module ->
  out_raised (_run_report module results h) = None.
Proof.
  intros Hc0 Hres Hlen Hsame Hsec Hraise. unfold _run_report.
  rewrite Hsec. cbn [negb].
  destruct (deepcopy_ok (length h0) h0 h results
              (closed_below_same h0 h Hc0 Hlen Hsame) Hres Hlen Hsame)
    as (copy & h1 & -> & _).
  pose proof (Hraise copy h1) as Hne.
  destruct (module_run module copy h1) as [h2 raised]. cbn in *.
  destruct raised as [[| |]|]; congruence.
Qed.

Lemma run_report_escape (h0 h : heap) (results : pyval)
    (module : ReportModule) :
  closed_below (length h0) h0 -> val_in (length h0) results ->
  length h0 <= length h ->
  (forall l, l < length h0 -> h !! l = h0 !! l) ->
  has_section module = true ->
  (forall v h', (module_run module v h').2 = Some OtherException) ->
  out_raised (_run_report module results h) = Some OtherException /\
  call_module <$> out_calls (_run_report module results h) = [module].
Proof.
  intros Hc0 Hres Hlen Hsame Hsec Hraise. unfold _run_report.
  rewrite Hsec. cbn [negb].
  destruct (deepcopy_ok (length h0) h0 h results
              (closed_below_same h0 h Hc0 Hlen Hsame) Hres Hlen Hsame)
    as (copy & h1 & -> & _).
  pose proof (Hraise copy h1) as He.
  destruct (module_run module copy h1) as [h2 raised]. cbn in *.
  subst raised. split; reflexivity.
Qed.

Lemma run_modules_no_escape (h0 : heap) (results : pyval)
    (ms : list ReportModule) :
  closed_below (length h0) h0 -> val_in (length h0) results ->
  Forall confined ms ->
  Forall (fun m => has_section m = true) ms ->
  Forall raises_only_report_errors ms ->
  forall h,
    length h0 <= length h ->
    (forall l, l < length h0 -> h !! l = h0 !! l) ->
    out_raised (run_modules ms results h) = None.
Proof.
  intros Hc0 Hres Hconf.
  induction Hconf as [|module rest Hm Hrest IH]; intros Hsec Hraise h Hlen Hsame.
  - reflexivity.
  - apply Forall_cons in Hsec as [Hsec1 Hsec].
    apply Forall_cons in Hraise as [Hraise1 Hraise].
    cbn [run_modules].
    rewrite (run_report_no_escape h0 h results module
               Hc0 Hres Hlen Hsame Hsec1 Hraise1).
    cbn [out_raised].
    destruct (run_report_ok h0 h results module Hc0 Hres Hlen Hsame Hm)
      as (Hlen1 & Hsame1 & _).
    apply (IH Hsec Hraise); [lia | exact Hsame1].
Qed.

(** The loop over a list in two parts, when nothing escapes the first. *)
Lemma run_modules_app (pre tail : list ReportModule) (results : pyval) :
  forall h,
    out_raised (run_modules pre results h) = None ->
    out_heap (run_modules (pre ++ tail) results h)
    = out_heap (run_modules tail results
                  (out_heap (run_modules pre results h))) /\
    out_calls (run_modules (pre ++ tail) results h)
    = out_calls (run_modules pre results h)
      ++ out_calls (run_modules tail results
                      (out_heap (run_modules pre results h))) /\
    out_raised (run_modules (pre ++ tail) results h)
    = out_raised (run_modules tail results
                    (out_heap (run_modules pre results h))).
Proof.
  induction pre as [|module pre IH]; intros h Hnone.
  - repeat split; reflexivity.
  - cbn [app run_modules] in *.
    destruct (out_raised (_run_report module results h)) as [e|] eqn:Hraised.
    + congruence.
    + cbn [out_heap out_calls out_raised] in *.
      destruct (IH _ Hnone) as (E1 & E2 & E3).
      rewrite E1, E2, E3, app_assoc. repeat split; reflexivity.
Qed.

(** X17. Where [Reporter.run] ends.  When every loaded module has a
    section in the configuration and its [run] raises nothing but
    [NotImplementedError] or [CuckooReportError], no exception leaves
    [run] and every module is executed, in sorted order: a report that
    fails does not keep the later ones from running.  The first module
    without a section ends the run with [CuckooReportError] before it is
    executed, and a module whose [run] raises anything else ends it with
    that exception after it was executed; in both cases the modules
    ordered after it are not executed. *)
Theorem Reporter_run_ends (subclasses : list ReportModule)
    (results : pyval) (h : heap) :
  heap_closed h -> val_in (length h) results -> Forall confined subclasses ->
  let r := Reporter_run subclasses results h in
  (Forall (fun m => has_section m = true) subclasses ->
   Forall raises_only_report_errors subclasses ->
   out_raised r = None /\
   call_module <$> out_calls r = sort_by_order subclasses) /\
  (forall pre m post,
     sort_by_order subclasses = pre ++ m :: post ->
     Forall (fun m => has_section m = true) pre ->
     Forall raises_only_report_errors pre ->
     (has_section m = false ->
      out_raised r = Some CuckooReportError /\
      call_module <$> out_calls r = pre) /\
     (has_section m = true ->
      (forall v h', (module_run m v h').2 = Some OtherException) ->
      out_raised r = Some OtherException /\
      call_module <$> out_calls r = pre ++ [m])).
Proof.
  intros Hclosed Hres Hconf r. subst r. unfold Reporter_run.
  pose proof (heap_closed_below h Hclosed) as Hc0.
  assert (Forall confined (sort_by_order subclasses)) as Hconf'
    by (rewrite sort_by_order_perm; exact Hconf).
  assert (forall ms, Forall confined ms ->
            Forall (fun m => has_section m = true) ms ->
            Forall raises_only_report_errors ms ->
            out_raised (run_modules ms results h) = None /\
            call_module <$> out_calls (run_modules ms results h) = ms /\
            length h <= length (out_heap (run_modules ms results h)) /\
            (forall l, l < length h ->
               out_heap (run_modules ms results h) !! l = h !! l)) as Hquiet.
  { intros ms Hcf Hsec Hraise.
    pose proof (run_modules_no_escape h results ms Hc0 Hres Hcf Hsec Hraise h
                  (le_n _) (fun _ _ => eq_refl)) as Hnone.
    destruct (run_modules_ok h results ms Hc0 Hres Hcf h
                (le_n _) (fun _ _ => eq_refl))
      as (Hlen & Hsame & _ & (rest & Hrest & Hnil) & _).
    rewrite (Hnil Hnone), app_nil_r in Hrest.
    split; [exact Hnone|]. split; [symmetry; exact Hrest|].
    split; [exact Hlen | exact Hsame]. }
  split.
  - intros Hsec Hraise.
    destruct (Hquiet (sort_by_order subclasses) Hconf') as (Hnone & Hcalls & _).
    + rewrite sort_by_order_perm. exact Hsec.
    + rewrite sort_by_order_perm. exact Hraise.
    + split; [exact Hnone | exact Hcalls].
  - intros pre m post Hsplit Hsec Hraise. rewrite Hsplit in *.
    apply Forall_app in Hconf' as [Hcpre Hcm].
    apply Forall_cons in Hcm as [Hcm _].
    destruct (Hquiet pre Hcpre Hsec Hraise) as (Hnone & Hcalls & Hlen & Hsame).
    destruct (run_modules_app pre (m :: post) results h Hnone)
      as (_ & E2 & E3).
    rewrite E2, E3, fmap_app, Hcalls. cbn [run_modules].
    split.
    + intros Hm. unfold _run_report. rewrite Hm. cbn.
      rewrite app_nil_r. split; reflexivity.
    + intros Hm Hother.
      destruct (run_report_escape h _ results m Hc0 Hres Hlen Hsame Hm Hother)
        as [Hr Hc].
      rewrite Hr. cbn beta iota. split; [exact Hr|]. rewrite Hc. reflexivity.
Qed.

(** ** The statements on concrete modules *)

(** X16 on a package of five modules: the disabled one, the sub-package
    and the one without a section are passed over, the one whose
    dependency is missing is warned about, and the one after it is still
    imported. *)
Lemma populate_imports_enabled_modules_witness :
  let r := _populate demo_reporting_conf demo_import demo_package in
  (forall name, In (name, false) demo_package ->
     contains_dot name = true /\
     (section_enabled demo_reporting_conf name = true ->
      demo_import name <> ImportFailed)) /\
  populate_raised r = None /\
  populate_imported r
  = List.filter (fun name => match demo_import name with
                             | Imported => true
                             | _ => false
                             end)
                (import_candidates demo_reporting_conf demo_package) /\
  populate_warned r
  = List.filter (fun name => match demo_import name with
                             | DependencyError => true
                             | _ => false
                             end)
                (import_candidates demo_reporting_conf demo_package) /\
  populate_imported r = ["modules.reporting.jsondump"%string] /\
  populate_warned r = ["modules.reporting.mongodb"%string].
Proof.
  assert (forall name, In (name, false) demo_package ->
            contains_dot name = true /\
            (section_enabled demo_reporting_conf name = true ->
             demo_import name <> ImportFailed)) as H.
  { intros name Hin. split.
    - destruct Hin as [H|[H|[H|[H|[H|[]]]]]]; inversion H; reflexivity.
    - intros _. unfold demo_import.
      destruct (String.eqb name "modules.reporting.mongodb"); discriminate. }
  split; [exact H|].
  destruct (populate_imports_enabled_modules demo_reporting_conf demo_import
              demo_package) as (_ & _ & _ & H4).
  destruct (H4 H) as (R1 & R2 & R3).
  split; [exact R1|]. split; [exact R2|]. split; [exact R3|].
  split; reflexivity.
Defined.

Lemma overwriting_run_report_errors (name : string) (o : Z) (s : bool) :
  raises_only_report_errors (mkReportModule name o s overwriting_run).
Proof. intros v h. destruct v; discriminate. Qed.

Lemma emptying_run_report_errors (name : string) (o : Z) (s : bool) :
  raises_only_report_errors (mkReportModule name o s emptying_run).
Proof. intros v h. destruct v; discriminate. Qed.

(** X17 on the concrete analysis: with the two configured modules both
    are executed although the first one fails; with the three modules of
    which the second in order has no section, only the first is
    executed. *)
Lemma Reporter_run_ends_witness :
  heap_closed demo_heap /\
  val_in (length demo_heap) demo_results /\
  Forall confined demo_modules /\
  Forall (fun m => has_section m = true) demo_modules /\
  Forall raises_only_report_errors demo_modules /\
  (let r := Reporter_run demo_modules demo_results demo_heap in
   out_raised r = None /\
   call_module <$> out_calls r = sort_by_order demo_modules) /\
  Forall confined unconfigured_modules /\
  sort_by_order unconfigured_modules
  = [cleaner_module] ++ reporthtml_module :: [jsondump_module] /\
  has_section reporthtml_module = false /\
  (let r := Reporter_run unconfigured_modules demo_results demo_heap in
   out_raised r = Some CuckooReportError /\
   call_module <$> out_calls r = [cleaner_module]).
Proof.
  assert (heap_closed demo_heap) as H1 by reflexivity.
  assert (val_in (length demo_heap) demo_results) as H2 by (simpl; lia).
  assert (Forall confined demo_modules) as H3.
  { apply Forall_cons. split; [apply overwriting_run_confined|].
    apply Forall_cons. split; [apply emptying_run_confined | constructor]. }
  assert (Forall (fun m => has_section m = true) demo_modules) as H4
    by (repeat constructor).
  assert (Forall raises_only_report_errors demo_modules) as H5.
  { apply Forall_cons. split; [apply overwriting_run_report_errors|].
    apply Forall_cons.
    split; [apply emptying_run_report_errors | constructor]. }
  assert (Forall confined unconfigured_modules) as H6.
  { apply Forall_cons. split; [apply overwriting_run_confined|].
    apply Forall_cons. split; [apply emptying_run_confined|].
    apply Forall_cons. split; [apply overwriting_run_confined | constructor]. }
  assert (sort_by_order unconfigured_modules
          = [cleaner_module] ++ reporthtml_module :: [jsondump_module]) as H7
    by reflexivity.
  split; [exact H1|]. split; [exact H2|]. split; [exact H3|].
  split; [exact H4|]. split; [exact H5|].
  split.
  { exact (proj1 (Reporter_run_ends demo_modules demo_results demo_heap
                    H1 H2 H3) H4 H5). }
  split; [exact H6|]. split; [exact H7|]. split; [reflexivity|].
  refine (proj1 (proj2 (Reporter_run_ends unconfigured_modules demo_results
                          demo_heap H1 H2 H6)
                   [cleaner_module] reporthtml_module [jsondump_module]
                   H7 _ _) eq_refl).
  - repeat constructor.
  - apply Forall_cons. split; [apply emptying_run_report_errors | constructor].
Defined.
